(** * PayGate: effective entry dates, first-party origination, the transfer
    repository and outbound file names

    A shallow embedding of the parts of PayGate that decide the cutoff
    arithmetic ([pkg/fundflow]), the transfer repository ([pkg/transfers]),
    the sequence character of outbound file names ([pkg/upload]) and the
    entry count of the e-mail about a file ([pkg/notify]).
    Each Go package is a module below; library code PayGate calls
    ([time], [strings], [sort], moov-io/base) is modelled first. *)

From Stdlib Require Import ZArith Ascii String List Bool Lia.
From stdpp Require Import base tactics option list strings.

Local Open Scope Z_scope.

(** ** Go's [strings] and [sort] packages, on byte strings *)

Module gostrings.

(** ASCII lower-casing of one byte. *)
Definition toLower (c : ascii) : ascii :=
  let n := nat_of_ascii c in
  if ((65 <=? n) && (n <=? 90))%nat then ascii_of_nat (n + 32) else c.

Fixpoint mapString (f : ascii → ascii) (s : string) : string :=
  match s with
  | EmptyString => EmptyString
  | String c s' => String (f c) (mapString f s')
  end.

(** [strings.EqualFold], on ASCII letters.  None of the letters of the
    status constants compared below has a non-ASCII case variant, so
    simple Unicode folding and ASCII folding agree on them. *)
Definition EqualFold (s t : string) : bool :=
  String.eqb (mapString toLower s) (mapString toLower t).

(** Go's [<=] on strings is [String.leb]: bytewise lexicographic. *)
Fixpoint insertSorted (x : string) (l : list string) : list string :=
  match l with
  | [] => [x]
  | y :: l' => if String.leb x y then x :: l else y :: insertSorted x l'
  end.

(** [sort.Strings]. *)
Definition sortStrings (l : list string) : list string :=
  foldr insertSorted [] l.

(** In [sorted l] every element is at most the ones after it. *)
Fixpoint sorted (l : list string) : Prop :=
  match l with
  | [] => True
  | x :: l' => (∀ y, y ∈ l' → String.leb x y = true) ∧ sorted l'
  end.

End gostrings.

(** ** Go's [time] package

    Instants are whole seconds since the Unix epoch (the resolution that
    [base.Time] and the [datetime] columns keep).  A [Time] pairs an instant
    with the location it is presented in; the location changes what
    [Format] and the calendar fields show, never the instant. *)

Module gotime.

Definition Second : Z := 1.
Definition Minute : Z := 60 * Second.
Definition Hour : Z := 60 * Minute.

(** A location gives the offset east of UTC, in seconds, at an instant. *)
Record Location := { zoneOffset : Z → Z }.

Definition UTC : Location := {| zoneOffset := λ _, 0 |}.

Record Time := { unix : Z; loc : Location }.

(** Days from 1970-01-01 to the proleptic Gregorian date [y]-[m]-[d]. *)
Definition daysFromCivil (y m d : Z) : Z :=
  let y' := if m <=? 2 then y - 1 else y in
  let era := y' / 400 in
  let yoe := y' - era * 400 in
  let mp := (m + 9) mod 12 in
  let doy := (153 * mp + 2) / 5 + d - 1 in
  let doe := yoe * 365 + yoe / 4 - yoe / 100 + doy in
  era * 146097 + doe - 719468.

(** [time.Date(y, m, d, hh, mm, 0, 0, time.UTC)]. *)
Definition Date (y m d hh mm : Z) : Time :=
  {| unix := daysFromCivil y m d * (24 * Hour) + hh * Hour + mm * Minute;
     loc := UTC |}.

(** [t.In(l)]: the same instant, shown in [l]. *)
Definition In (t : Time) (l : Location) : Time :=
  {| unix := unix t; loc := l |}.

(** [t.Add(d)]. *)
Definition Add (t : Time) (d : Z) : Time :=
  {| unix := unix t + d; loc := loc t |}.

(** Seconds on the wall clock of [t]'s location. *)
Definition wall (t : Time) : Z := unix t + zoneOffset (loc t) (unix t).

Definition dayNumber (t : Time) : Z := wall t / (24 * Hour).
Definition hourOf (t : Time) : Z := (wall t / Hour) mod 24.
Definition minuteOf (t : Time) : Z := (wall t / Minute) mod 60.

(** [t.Weekday()]: 0 is Sunday; 1970-01-01 was a Thursday. *)
Definition Weekday (t : Time) : Z := (dayNumber t + 4) mod 7.

Definition digit (n : Z) : ascii := ascii_of_nat (48 + Z.to_nat n).

Definition twoDigits (n : Z) : string :=
  String (digit (n / 10)) (String (digit (n mod 10)) EmptyString).

(** A clock reading in the layout [15:04]. *)
Definition clock (h m : Z) : string := twoDigits h +:+ ":" +:+ twoDigits m.

(** [t.Format("15:04")]. *)
Definition Format_15_04 (t : Time) : string := clock (hourOf t) (minuteOf t).

(** Minutes since midnight on the wall clock of [t]'s location. *)
Definition minuteOfDay (t : Time) : Z := hourOf t * 60 + minuteOf t.

(** The instant of Go's zero [Time] (0001-01-01 00:00 UTC). *)
Definition unixZero : Z := daysFromCivil 1 1 1 * (24 * Hour).

(** [t.Truncate(d)]: round down to a multiple of [d] since the zero
    time; [d <= 0] leaves [t] as it is. *)
Definition Truncate (t : Time) (d : Z) : Time :=
  if d <=? 0 then t
  else {| unix := unix t - (unix t - unixZero) mod d; loc := loc t |}.

(** [t.AddDate(0, 0, n)] for a time kept in UTC. *)
Definition AddDays (t : Time) (n : Z) : Time := Add t (n * (24 * Hour)).

(** America/New_York in 2021: daylight time (UTC-4) from 14 March
    07:00 UTC to 7 November 06:00 UTC, standard time (UTC-5) otherwise. *)
Definition America_New_York : Location :=
  {| zoneOffset := λ u,
       if (unix (Date 2021 3 14 7 0) <=? u) && (u <? unix (Date 2021 11 7 6 0))
       then -4 * Hour else -5 * Hour |}.

End gotime.

(** ** moov-io/base: [base.Time] *)

Module moovbase.
Import gotime.

(** [base.NewTime] wraps a [time.Time] and moves it to UTC.  The library is
    outside the source tree; PayGate's [TestCalculateEffectiveEntryDate]
    fixes this behaviour: it sets the clock in America/New_York and reads
    every result back as [+0000 UTC], with the clock time of the UTC
    instant. *)
Definition NewTime (t : Time) : Time := In t UTC.

Section Calendar.
(** Day numbers of the configured holidays. *)
Variable holidays : list Z.

Definition IsWeekend (t : Time) : bool :=
  (Weekday t =? 0) || (Weekday t =? 6).

Definition IsHoliday (t : Time) : bool :=
  bool_decide (dayNumber t ∈ holidays).

Definition IsBankingDay (t : Time) : bool :=
  negb (IsWeekend t) && negb (IsHoliday t).

(** Modelled from the spec: [base.Time.AddBankingDay] of moov-io/base,
    which PayGate imports: a banking day skips weekends and the
    configured holiday set.  The walk goes day by day and counts the
    banking days it meets; [fuel] bounds it. *)
Fixpoint addBankingDays (fuel : nat) (d : nat) (t : Time) : Time :=
  match d, fuel with
  | O, _ => t
  | _, O => t
  | S d', S fuel' =>
      let t' := AddDays t 1 in
      if IsBankingDay t' then addBankingDays fuel' d' t'
      else addBankingDays fuel' d t'
  end.

(** The walk is given a week for every banking day to add, and a week more
    for every holiday. *)
Definition AddBankingDay (t : Time) (d : Z) : Time :=
  if d <? 1 then t
  else addBankingDays (Z.to_nat d * (7 * S (length holidays))) (Z.to_nat d) t.

(** Whether the day of a day number is a banking day, and how many days the
    walk advances from a day number. *)
Definition bankingDayNumber (day : Z) : bool :=
  negb (((day + 4) mod 7 =? 0) || ((day + 4) mod 7 =? 6))
  && negb (bool_decide (day ∈ holidays)).

Fixpoint daysAdvanced (fuel : nat) (d : nat) (day : Z) : Z :=
  match d, fuel with
  | O, _ => 0
  | _, O => 0
  | S d', S fuel' =>
      1 + (if bankingDayNumber (day + 1) then daysAdvanced fuel' d' (day + 1)
           else daysAdvanced fuel' d (day + 1))
  end.

(** How many of the [n] days after day number [day] are banking days. *)
Fixpoint bankingDaysIn (n : nat) (day : Z) : nat :=
  match n with
  | O => O
  | S n' => ((if bankingDayNumber (day + 1) then 1 else 0) + bankingDaysIn n' (day + 1))%nat
  end.
End Calendar.

(** Monday to Friday, and how many of the [n] days after [day] are. *)
Definition weekdayNumber (day : Z) : bool :=
  negb (((day + 4) mod 7 =? 0) || ((day + 4) mod 7 =? 6)).

Fixpoint weekdaysIn (n : nat) (day : Z) : nat :=
  match n with
  | O => O
  | S n' => ((if weekdayNumber (day + 1) then 1 else 0) + weekdaysIn n' (day + 1))%nat
  end.

End moovbase.

(** ** Records of the packages PayGate's fund flow works on *)

Module customers.

(** Modelled from the spec: the constant [CUSTOMERSTATUS_VERIFIED] of the
    customers client, which is declared outside the source tree. *)
Definition CUSTOMERSTATUS_VERIFIED : string := "VERIFIED".
Definition CUSTOMERSTATUS_RECEIVE_ONLY : string := "RECEIVE_ONLY".

Inductive AccountType := Checking | Savings | Loan.

Record Customer := { CustomerID : string; Status : string }.

Record Account :=
  { AccountID : string; RoutingNumber : string; AcctType : AccountType }.

End customers.

Module client.

(** Modelled from the spec: the constants of [client.TransferStatus], whose
    declaration is outside the source tree.  Where the repository compares
    a stored status with [strings.EqualFold], that is equality on these
    constants. *)
Inductive TransferStatus :=
  CANCELED | FAILED | REVIEWABLE | PENDING | PROCESSED | RETURNED.

#[global] Instance TransferStatus_eq_dec : EqDecision TransferStatus.
Proof. solve_decision. Defined.

Record Amount := { Currency : string; Value : Z }.

Record TransferSource := { SourceCustomerID : string; SourceAccountID : string }.
Record TransferDestination :=
  { DestinationCustomerID : string; DestinationAccountID : string }.

Record ReturnCode := { Code : string; Reason : string; RCDescription : string }.

Record Transfer :=
  { TransferID : string;
    TAmount : Amount;
    Source : TransferSource;
    Destination : TransferDestination;
    Description : string;
    Status : TransferStatus;
    SameDay : bool;
    TReturnCode : option ReturnCode;
    ProcessedAt : option Z;
    Created : Z;
    TraceNumbers : list string }.

End client.

Module config.

Record Gateway :=
  { Origin : string; OriginName : string;
    GDestination : string; DestinationName : string }.

Record FileConfig := { BalanceEntries : bool }.

Record Cutoffs := { Timezone : string; Windows : list string }.

Record ODFI :=
  { RoutingNumber : string;
    OGateway : Gateway;
    OFileConfig : FileConfig;
    OCutoffs : Cutoffs }.

End config.

(** moov-io/ach: the part of a NACHA file the fund flow is asked about
    (the header and control records are left out). *)
Module ach.

Inductive Direction := Credit | Debit.

Record EntryDetail :=
  { EDirection : Direction;
    RDFIIdentification : string;
    DFIAccountNumber : string;
    EAmount : Z;
    TraceNumber : string }.

Record Batch := { Entries : list EntryDetail }.

Record File := { FileID : string; Batches : list Batch }.

Definition fileEntries (f : File) : list EntryDetail :=
  concat (map Entries (Batches f)).

Definition traceNumbers (f : File) : list string :=
  map TraceNumber (fileEntries f).

End ach.

(** ** [pkg/achx]: building the file of one transfer *)

Module achx.

Record Source :=
  { SCustomer : customers.Customer;
    SAccount : customers.Account;
    SAccountNumber : string }.

Record Destination :=
  { DCustomer : customers.Customer;
    DAccount : customers.Account;
    DAccountNumber : string }.

Record Options :=
  { ODFIRoutingNumber : string;
    Gateway : config.Gateway;
    FileConfig : config.FileConfig;
    CutoffTimezone : gotime.Location;
    EffectiveEntryDate : gotime.Time;
    CompanyIdentification : string }.

Fixpoint padDecimal (width : nat) (n : Z) : string :=
  match width with
  | O => EmptyString
  | S w => padDecimal w (n / 10) +:+ String (gotime.digit (n mod 10)) EmptyString
  end.

(** The first eight digits of the ODFI routing number, then the entry's
    zero-padded place in the file. *)
Definition traceNumber (odfi : string) (seq : Z) : string :=
  String.substring 0 8 odfi +:+ padDecimal 7 seq.

Section Build.
(** [Validate] of the NACHA library: the rule it finds broken, if any. *)
Variable Validate : ach.File → option string.

(** Modelled from the spec: [achx.ConstructFile], whose file is not in
    the source tree.  One file with one batch; the entry detail is
    addressed to the counterparty (the side that is not the ODFI); with
    [BalanceEntries] a second entry reverses it against the ODFI; every
    entry takes the next trace number; the file is validated last. *)
Definition ConstructFile (transferID : string) (opts : Options)
    (xfer : client.Transfer) (src : Source) (dst : Destination)
    : ach.File + string :=
  let odfi := ODFIRoutingNumber opts in
  let amount := client.Value (client.TAmount xfer) in
  let debitSource :=
    String.eqb odfi (customers.RoutingNumber (DAccount dst)) in
  let entry :=
    if debitSource
    then {| ach.EDirection := ach.Debit;
            ach.RDFIIdentification := customers.RoutingNumber (SAccount src);
            ach.DFIAccountNumber := SAccountNumber src;
            ach.EAmount := amount;
            ach.TraceNumber := traceNumber odfi 1 |}
    else {| ach.EDirection := ach.Credit;
            ach.RDFIIdentification := customers.RoutingNumber (DAccount dst);
            ach.DFIAccountNumber := DAccountNumber dst;
            ach.EAmount := amount;
            ach.TraceNumber := traceNumber odfi 1 |} in
  let offset :=
    {| ach.EDirection := if debitSource then ach.Credit else ach.Debit;
       ach.RDFIIdentification := odfi;
       ach.DFIAccountNumber :=
         if debitSource then DAccountNumber dst else SAccountNumber src;
       ach.EAmount := amount;
       ach.TraceNumber := traceNumber odfi 2 |} in
  let entries :=
    if config.BalanceEntries (FileConfig opts) then [entry; offset] else [entry] in
  let file :=
    {| ach.FileID := transferID; ach.Batches := [ {| ach.Entries := entries |} ] |} in
  match Validate file with
  | Some broken => inr broken
  | None => inl file
  end.
End Build.

End achx.

(** ** [pkg/notify]: the figures of the e-mail about a file *)

Module notify.

(** Go's [int] on the 64-bit platforms PayGate is built for. *)
Definition wrapInt (z : Z) : Z := (z + 2 ^ 63) mod 2 ^ 64 - 2 ^ 63.

(** [countEntries]; [None] is the nil file. *)
Definition countEntries (file : option ach.File) : Z :=
  match file with
  | None => 0
  | Some f =>
      foldl (λ total b, wrapInt (total + Z.of_nat (length (ach.Entries b))))
            0 (ach.Batches f)
  end.

End notify.

(** ** [pkg/fundflow]: the first-party strategy *)

Module fundflow.
Import gotime.

Record Source :=
  { SCustomer : customers.Customer;
    SAccount : customers.Account;
    SAccountNumber : string }.

Record Destination :=
  { DCustomer : customers.Customer;
    DAccount : customers.Account;
    DAccountNumber : string }.

(** What a call leaves its caller with: the files, an [error], or a
    run-time panic (a nil [*client.Transfer] read past the routing checks). *)
Inductive outcome :=
| Files (fs : list ach.File)
| Error (msg : string)
| Panic.

Section Strategy.
(** The holiday calendar [base.Time] carries. *)
Variable holidays : list Z.
(** [time.LoadLocation], as [config.Cutoffs.Location] calls it. *)
Variable LoadLocation : string → Location.
(** [achx.ConstructFile]. *)
Variable ConstructFile :
  string → achx.Options → client.Transfer → achx.Source → achx.Destination →
  ach.File + string.

Definition CutoffsLocation (c : config.Cutoffs) : Location :=
  LoadLocation (config.Timezone c).

Definition afterCutoffWindows (cfg : config.Cutoffs) (when : Time) : bool :=
  if (length (config.Windows cfg) =? 0)%nat then false
  else
    let windows := gostrings.sortStrings (config.Windows cfg) in
    match last windows with
    | None => false
    | Some latest =>
        let now := Format_15_04 when in
        String.leb latest now
    end.

(** [ssNow] is what [ss.Now()] reads. *)
Definition calculateEffectiveEntryDate (cfg : config.ODFI) (ssNow : Time)
    (sameDay : bool) : Time :=
  let when := moovbase.NewTime (In ssNow (CutoffsLocation (config.OCutoffs cfg))) in
  let afterCutoffs := afterCutoffWindows (config.OCutoffs cfg) when in
  if afterCutoffs then
    if sameDay then moovbase.AddBankingDay holidays when 1
    else moovbase.AddBankingDay holidays when 2
  else
    if sameDay then when
    else moovbase.AddBankingDay holidays when 1.

Record FirstParty := { cfg : config.ODFI; timeServiceNow : Time }.

(** The options [Originate] hands to [achx.ConstructFile]. *)
Definition originateOptions (fp : FirstParty) (companyID : string)
    (xfer : client.Transfer) : achx.Options :=
  let opts :=
    {| achx.ODFIRoutingNumber := config.RoutingNumber (cfg fp);
       achx.Gateway := config.OGateway (cfg fp);
       achx.FileConfig := config.OFileConfig (cfg fp);
       achx.CutoffTimezone := CutoffsLocation (config.OCutoffs (cfg fp));
       achx.EffectiveEntryDate :=
         calculateEffectiveEntryDate (cfg fp) (timeServiceNow fp) (client.SameDay xfer);
       achx.CompanyIdentification := companyID |} in
  {| achx.ODFIRoutingNumber := achx.ODFIRoutingNumber opts;
     achx.Gateway := achx.Gateway opts;
     achx.FileConfig :=
       {| config.BalanceEntries :=
            config.BalanceEntries (config.OFileConfig (cfg fp))
            && (50 <=? client.Value (client.TAmount xfer)) |};
     achx.CutoffTimezone := achx.CutoffTimezone opts;
     achx.EffectiveEntryDate := achx.EffectiveEntryDate opts;
     achx.CompanyIdentification := achx.CompanyIdentification opts |}.

Definition Originate (fp : FirstParty) (companyID : string)
    (xfer : option client.Transfer) (src : Source) (dst : Destination)
    : outcome :=
  let srcRouting := customers.RoutingNumber (SAccount src) in
  let dstRouting := customers.RoutingNumber (DAccount dst) in
  let odfi := config.RoutingNumber (cfg fp) in
  if String.eqb srcRouting dstRouting then
    Error ("rejecting transfer between two accounts within " +:+ srcRouting)
  else if negb (String.eqb srcRouting odfi) && negb (String.eqb dstRouting odfi) then
    Error ("rejecting third-party transfer between FI's we don't represent (source: "
           +:+ srcRouting +:+ ", destination: " +:+ dstRouting +:+ ")")
  else
    let source :=
      {| achx.SCustomer := SCustomer src; achx.SAccount := SAccount src;
         achx.SAccountNumber := SAccountNumber src |} in
    let destination :=
      {| achx.DCustomer := DCustomer dst; achx.DAccount := DAccount dst;
         achx.DAccountNumber := DAccountNumber dst |} in
    if String.eqb odfi (customers.RoutingNumber (achx.DAccount destination))
       && negb (gostrings.EqualFold (customers.Status (SCustomer src))
                                    customers.CUSTOMERSTATUS_VERIFIED)
    then
      Error ("source customerID=" +:+ customers.CustomerID (SCustomer src)
             +:+ " does not support debit with status "
             +:+ customers.Status (SCustomer src))
    else
      match xfer with
      | None => Panic
      | Some x =>
          let opts := originateOptions fp companyID x in
          match ConstructFile (client.TransferID x) opts x source destination with
          | inr err =>
              Error ("failed to create file: transferID=" +:+ client.TransferID x
                     +:+ ": " +:+ err)
          | inl file => Files [file]
          end
      end.
(** What is left of [Originate] once the three checks are passed. *)
Definition construct (fp : FirstParty) (companyID : string)
    (xfer : option client.Transfer) (src : Source) (dst : Destination) : outcome :=
  match xfer with
  | None => Panic
  | Some x =>
      match ConstructFile (client.TransferID x)
              (originateOptions fp companyID x) x
              {| achx.SCustomer := SCustomer src; achx.SAccount := SAccount src;
                 achx.SAccountNumber := SAccountNumber src |}
              {| achx.DCustomer := DCustomer dst; achx.DAccount := DAccount dst;
                 achx.DAccountNumber := DAccountNumber dst |} with
      | inr err =>
          Error ("failed to create file: transferID=" +:+ client.TransferID x
                 +:+ ": " +:+ err)
      | inl file => Files [file]
      end
  end.

End Strategy.

(** *** The cases of [TestCalculateEffectiveEntryDate] *)

Definition testLoadLocation (name : string) : Location :=
  if String.eqb name "America/New_York" then America_New_York else UTC.

Definition testODFI : config.ODFI :=
  {| config.RoutingNumber := "987654320";
     config.OGateway :=
       {| config.Origin := ""; config.OriginName := "";
          config.GDestination := ""; config.DestinationName := "" |};
     config.OFileConfig := {| config.BalanceEntries := false |};
     config.OCutoffs :=
       {| config.Timezone := "America/New_York"; config.Windows := ["14:20"] |} |}.

(** *** Inputs in the manner of [TestOriginateFull] *)

Definition mkSource (status routing number : string) : Source :=
  {| SCustomer := {| customers.CustomerID := "c1"; customers.Status := status |};
     SAccount := {| customers.AccountID := "a1"; customers.RoutingNumber := routing;
                    customers.AcctType := customers.Savings |};
     SAccountNumber := number |}.

Definition mkDestination (routing number : string) : Destination :=
  {| DCustomer := {| customers.CustomerID := "c2"; customers.Status := "" |};
     DAccount := {| customers.AccountID := "a2"; customers.RoutingNumber := routing;
                    customers.AcctType := customers.Savings |};
     DAccountNumber := number |}.

Definition mkTransfer (value : Z) : client.Transfer :=
  {| client.TransferID := "xfer1";
     client.TAmount := {| client.Currency := "USD"; client.Value := value |};
     client.Source := {| client.SourceCustomerID := "c1"; client.SourceAccountID := "a1" |};
     client.Destination :=
       {| client.DestinationCustomerID := "c2"; client.DestinationAccountID := "a2" |};
     client.Description := "test payment";
     client.Status := client.PENDING;
     client.SameDay := false;
     client.TReturnCode := None;
     client.ProcessedAt := None;
     client.Created := 0;
     client.TraceNumbers := [] |}.

Definition testFirstParty (odfi : string) (balance : bool) : FirstParty :=
  {| cfg := {| config.RoutingNumber := odfi;
               config.OGateway := config.OGateway testODFI;
               config.OFileConfig := {| config.BalanceEntries := balance |};
               config.OCutoffs := config.OCutoffs testODFI |};
     timeServiceNow := Date 2021 4 19 10 0 |}.

End fundflow.

(** ** [pkg/transfers]: the SQL repository

    The two tables are lists of rows in storage order.  A statement's
    [where] clause is a decidable predicate on rows, [limit 1] takes the
    first row that satisfies it, and an [update] rewrites every row that
    does.  Columns no statement of the repository reads or writes
    ([last_updated_at], [remote_address]) are left out. *)

Module transfers.
Import gotime.

Record TransferRow :=
  { transfer_id : string;
    organization : string;
    amount_currency : string;
    amount_value : Z;
    source_customer_id : string;
    source_account_id : string;
    destination_customer_id : string;
    destination_account_id : string;
    description : string;
    status : client.TransferStatus;
    same_day : bool;
    return_code : option string;
    created_at : Z;
    deleted_at : option Z;
    processed_at : option Z }.

Record TraceRow := { trace_transfer_id : string; trace_number : string }.

#[global] Instance TraceRow_eq_dec : EqDecision TraceRow.
Proof. solve_decision. Defined.

Record DB :=
  { transfers : list TransferRow;
    transfer_trace_numbers : list TraceRow }.

(** Go's [error] values the repository can hand back. *)
Inductive error :=
| ErrNoRows
| ErrDuplicateEntry
| Errorf (msg : string).

(** [sql.Tx]: statements run on [pending]; [Rollback] forgets them. *)
Record Tx := { origin : DB; pending : DB }.
Definition Begin (db : DB) : Tx := {| origin := db; pending := db |}.
Definition Rollback (tx : Tx) : DB := origin tx.
Definition Commit (tx : Tx) : DB := pending tx.

Definition setTransfers (db : DB) (rows : list TransferRow) : DB :=
  {| transfers := rows; transfer_trace_numbers := transfer_trace_numbers db |}.

Definition setStatus (r : TransferRow) (s : client.TransferStatus) : TransferRow :=
  {| transfer_id := transfer_id r; organization := organization r;
     amount_currency := amount_currency r; amount_value := amount_value r;
     source_customer_id := source_customer_id r;
     source_account_id := source_account_id r;
     destination_customer_id := destination_customer_id r;
     destination_account_id := destination_account_id r;
     description := description r; status := s; same_day := same_day r;
     return_code := return_code r; created_at := created_at r;
     deleted_at := deleted_at r; processed_at := processed_at r |}.

Definition setReturnCode (r : TransferRow) (c : string) : TransferRow :=
  {| transfer_id := transfer_id r; organization := organization r;
     amount_currency := amount_currency r; amount_value := amount_value r;
     source_customer_id := source_customer_id r;
     source_account_id := source_account_id r;
     destination_customer_id := destination_customer_id r;
     destination_account_id := destination_account_id r;
     description := description r; status := status r; same_day := same_day r;
     return_code := Some c; created_at := created_at r;
     deleted_at := deleted_at r; processed_at := processed_at r |}.

Definition setDeletedAt (r : TransferRow) (t : Z) : TransferRow :=
  {| transfer_id := transfer_id r; organization := organization r;
     amount_currency := amount_currency r; amount_value := amount_value r;
     source_customer_id := source_customer_id r;
     source_account_id := source_account_id r;
     destination_customer_id := destination_customer_id r;
     destination_account_id := destination_account_id r;
     description := description r; status := status r; same_day := same_day r;
     return_code := return_code r; created_at := created_at r;
     deleted_at := Some t; processed_at := processed_at r |}.

(** [update transfers set ... where P]: the rows [P] holds of are
    rewritten in place. *)
Definition updateWhere (P : TransferRow → Prop) `{!∀ r, Decision (P r)}
    (f : TransferRow → TransferRow) (rows : list TransferRow) : list TransferRow :=
  (λ r, if decide (P r) then f r else r) <$> rows.

(** [stmt.Exec] of such an update: the rewritten table and the error.  A
    statement that runs sets no error, also when it matches no row
    ([sql.ErrNoRows] comes from [Row.Scan] alone). *)
Definition execUpdate (P : TransferRow → Prop) `{!∀ r, Decision (P r)}
    (f : TransferRow → TransferRow) (db : DB) : DB * option error :=
  (setTransfers db (updateWhere P f (transfers db)), None).

Record transferFilterParams :=
  { Status : option client.TransferStatus;
    StartDate : Z;
    EndDate : Z;
    Count : nat;
    Skip : nat;
    CustomerIDs : list string }.

(** The [and status = ?] clause [getTransfers] adds for a status filter. *)
Definition statusClause (params : transferFilterParams) (r : TransferRow) : Prop :=
  match Status params with
  | None => True
  | Some s => status r = s
  end.

#[global] Instance statusClause_dec params r : Decision (statusClause params r).
Proof. unfold statusClause. destruct (Status params); apply _. Defined.

(** [order by created_at desc]; rows of one instant, whose order the
    statement leaves open, come out last stored first. *)
Fixpoint insertByCreated (r : TransferRow) (l : list TransferRow) : list TransferRow :=
  match l with
  | [] => [r]
  | r' :: l' =>
      if created_at r' <? created_at r then r :: l else r' :: insertByCreated r l'
  end.

Definition orderByCreatedDesc (l : list TransferRow) : list TransferRow :=
  foldr insertByCreated [] l.

(** [startOfDayAndTomorrow]. *)
Definition startOfDayAndTomorrow (t : Time) : Time * Time :=
  let start := Truncate t (24 * Hour) in
  (start, Add start (24 * Hour)).

Section Repository.
(** [ach.LookupReturnCode] of the NACHA library. *)
Variable LookupReturnCode : string → option client.ReturnCode.

Definition getTraceNumbers (db : DB) (transferID : string)
    : list string * option error :=
  let rows :=
    filter (λ t, trace_transfer_id t = transferID) (transfer_trace_numbers db) in
  (filter (λ s, s ≠ EmptyString) (trace_number <$> rows), None).

Definition scanTransfer (r : TransferRow) : client.Transfer :=
  {| client.TransferID := transfer_id r;
     client.TAmount :=
       {| client.Currency := amount_currency r; client.Value := amount_value r |};
     client.Source :=
       {| client.SourceCustomerID := source_customer_id r;
          client.SourceAccountID := source_account_id r |};
     client.Destination :=
       {| client.DestinationCustomerID := destination_customer_id r;
          client.DestinationAccountID := destination_account_id r |};
     client.Description := description r;
     client.Status := status r;
     client.SameDay := same_day r;
     client.TReturnCode := None;
     client.ProcessedAt := processed_at r;
     client.Created := created_at r;
     client.TraceNumbers := [] |}.

Definition withTraces (t : client.Transfer) (traces : list string)
    (rc : option client.ReturnCode) : client.Transfer :=
  {| client.TransferID := client.TransferID t;
     client.TAmount := client.TAmount t;
     client.Source := client.Source t;
     client.Destination := client.Destination t;
     client.Description := client.Description t;
     client.Status := client.Status t;
     client.SameDay := client.SameDay t;
     client.TReturnCode := rc;
     client.ProcessedAt := client.ProcessedAt t;
     client.Created := client.Created t;
     client.TraceNumbers := client.TraceNumbers t ++ traces |}.

Definition getUserTransfer (db : DB) (transferID orgID : string)
    : option client.Transfer * option error :=
  match head (filter (λ r, transfer_id r = transferID ∧ organization r = orgID
                           ∧ deleted_at r = None) (transfers db)) with
  | None => (None, Some ErrNoRows)
  | Some r =>
      let transfer := scanTransfer r in
      if decide (client.TransferID transfer = EmptyString) then (None, None)
      else
        match getTraceNumbers db transferID with
        | (_, Some err) => (None, Some err)
        | (traceNumbers, None) =>
            (Some (withTraces transfer traceNumbers
                     (c ← return_code r; LookupReturnCode c)), None)
        end
  end.

Definition GetTransfer (db : DB) (transferID : string)
    : option client.Transfer * option error :=
  match head (filter (λ r, transfer_id r = transferID ∧ deleted_at r = None)
                     (transfers db)) with
  | None => (None, Some ErrNoRows)
  | Some r => getUserTransfer db transferID (organization r)
  end.

Definition getTransfers (db : DB) (orgID : string) (params : transferFilterParams)
    : list client.Transfer * option error :=
  let matching :=
    filter (λ r, organization r = orgID
                 ∧ StartDate params ≤ created_at r ∧ created_at r ≤ EndDate params
                 ∧ deleted_at r = None
                 ∧ statusClause params r
                 ∧ (CustomerIDs params = []
                    ∨ source_customer_id r ∈ CustomerIDs params
                    ∨ destination_customer_id r ∈ CustomerIDs params))
           (transfers db) in
  let rows := take (Count params) (drop (Skip params) (orderByCreatedDesc matching)) in
  let transferIDs := filter (λ s, s ≠ EmptyString) (transfer_id <$> rows) in
  (foldl (λ acc id,
            match getUserTransfer db id orgID with
            | (Some t, None) =>
                if decide (client.TransferID t ≠ EmptyString) then acc ++ [t] else acc
            | _ => acc
            end) [] transferIDs,
   None).

Definition UpdateTransferStatus (db : DB) (transferID : string)
    (s : client.TransferStatus) : DB * option error :=
  execUpdate (λ r, transfer_id r = transferID ∧ deleted_at r = None)
             (λ r, setStatus r s) db.

(** [now] is what [time.Now()] reads.  The primary key refuses a second
    row of the same [transfer_id]. *)
Definition WriteUserTransfer (db : DB) (now : Z) (orgID : string)
    (transfer : client.Transfer) : DB * option error :=
  if decide (client.TransferID transfer ∈ transfer_id <$> transfers db)
  then (db, Some ErrDuplicateEntry)
  else
    (setTransfers db
       (transfers db ++
        [ {| transfer_id := client.TransferID transfer;
             organization := orgID;
             amount_currency := client.Currency (client.TAmount transfer);
             amount_value := client.Value (client.TAmount transfer);
             source_customer_id := client.SourceCustomerID (client.Source transfer);
             source_account_id := client.SourceAccountID (client.Source transfer);
             destination_customer_id :=
               client.DestinationCustomerID (client.Destination transfer);
             destination_account_id :=
               client.DestinationAccountID (client.Destination transfer);
             description := client.Description transfer;
             status := client.Status transfer;
             same_day := client.SameDay transfer;
             return_code := None;
             created_at := now;
             deleted_at := None;
             processed_at := None |} ]),
     None).

Definition deleteUserTransfer (db : DB) (now : Z) (orgID transferID : string)
    : DB * option error :=
  let tx := Begin db in
  match head (filter (λ r, transfer_id r = transferID ∧ organization r = orgID
                           ∧ deleted_at r = None) (transfers (pending tx))) with
  | None => (Rollback tx, None)
  | Some r =>
      if decide (status r ≠ client.PENDING) then
        (Rollback tx,
         Some (Errorf ("transferID=" +:+ transferID +:+ " is not in PENDING status")))
      else
        match execUpdate (λ r, transfer_id r = transferID ∧ organization r = orgID
                               ∧ status r = client.PENDING ∧ deleted_at r = None)
                         (λ r, setDeletedAt r now) (pending tx) with
        | (_, Some ErrNoRows) => (Rollback tx, None)
        | (_, Some err) => (Rollback tx, Some err)
        | (db', None) => (Commit {| origin := origin tx; pending := db' |}, None)
        end
  end.

Definition SaveReturnCode (db : DB) (transferID returnCode : string)
    : DB * option error :=
  match execUpdate (λ r, transfer_id r = transferID ∧ return_code r = None
                         ∧ deleted_at r = None)
                   (λ r, setReturnCode r returnCode) db with
  | (db', Some ErrNoRows) => (db', None)
  | (db', err) => (db', err)
  end.

(** The unique index on [(transfer_id, trace_number)] refuses a pair
    that is already stored; the transaction is then rolled back. *)
Definition saveTraceNumbers (db : DB) (transferID : string)
    (traceNumbers : list string) : DB * option error :=
  let tx := Begin db in
  let step (acc : Tx * option error) (tn : string) : Tx * option error :=
    match acc with
    | (tx, Some e) => (tx, Some e)
    | (tx, None) =>
        let row := {| trace_transfer_id := transferID; trace_number := tn |} in
        if decide (row ∈ transfer_trace_numbers (pending tx))
        then (tx, Some ErrDuplicateEntry)
        else ({| origin := origin tx;
                 pending :=
                   {| transfers := transfers (pending tx);
                      transfer_trace_numbers :=
                        transfer_trace_numbers (pending tx) ++ [row] |} |}, None)
    end in
  match foldl step (tx, None) traceNumbers with
  | (tx', Some e) => (Rollback tx', Some e)
  | (tx', None) => (Commit tx', None)
  end.

Definition LookupTransferFromReturn (db : DB) (amount : client.Amount)
    (traceNumber : string) (effectiveEntryDate : Time)
    : option client.Transfer * option error :=
  let '(min0, max0) := startOfDayAndTomorrow effectiveEntryDate in
  let min := Add min0 (-5 * 24 * Hour) in
  let max := Add max0 (5 * 24 * Hour) in
  match head (filter (λ xf,
                 Exists (λ trace, transfer_id xf = trace_transfer_id trace
                                  ∧ trace_number trace = traceNumber)
                        (transfer_trace_numbers db)
                 ∧ amount_value xf = client.Value amount
                 ∧ status xf = client.PROCESSED
                 ∧ (unix min < created_at xf ∧ created_at xf < unix max)
                 ∧ deleted_at xf = None) (transfers db)) with
  | None => (None, Some ErrNoRows)
  | Some xf => getUserTransfer db (transfer_id xf) (organization xf)
  end.
End Repository.

(** *** Invariants of the stored tables *)

(** [transfer_id] is the primary key of [transfers]. *)
Definition primaryKey (db : DB) : Prop := NoDup (transfer_id <$> transfers db).

(** Only pending transfers are ever soft-deleted. *)
Definition deletedArePending (db : DB) : Prop :=
  ∀ r, r ∈ transfers db → deleted_at r ≠ None → status r = client.PENDING.

Definition wellFormed (db : DB) : Prop := primaryKey db ∧ deletedArePending db.

Definition emptyDB : DB := {| transfers := []; transfer_trace_numbers := [] |}.

(** One call of a method of the repository that writes. *)
Inductive writes : DB → DB → Prop :=
| writes_WriteUserTransfer db now orgID transfer :
    writes db (WriteUserTransfer db now orgID transfer).1
| writes_UpdateTransferStatus db transferID s :
    writes db (UpdateTransferStatus db transferID s).1
| writes_deleteUserTransfer db now orgID transferID :
    writes db (deleteUserTransfer db now orgID transferID).1
| writes_SaveReturnCode db transferID returnCode :
    writes db (SaveReturnCode db transferID returnCode).1
| writes_saveTraceNumbers db transferID traceNumbers :
    writes db (saveTraceNumbers db transferID traceNumbers).1.

(** The states the repository gets to from freshly migrated tables. *)
Inductive reachable : DB → Prop :=
| reachable_empty : reachable emptyDB
| reachable_write db db' : reachable db → writes db db' → reachable db'.

(** [t] was read from a row that is stored and not soft-deleted. *)
Definition readFromLiveRow (db : DB) (t : client.Transfer) : Prop :=
  ∃ r traces rc,
    r ∈ transfers db ∧ deleted_at r = None
    ∧ t = withTraces (scanTransfer r) traces rc.

(** The day of the UTC calendar an instant falls on. *)
Definition utcDay (u : Z) : Z := u / (24 * Hour).

(** *** A small stored state: a processed transfer with its trace number,
    a pending one, and a pending one that was soft-deleted *)

Definition exampleRow (id : string) (s : client.TransferStatus) (created : Z)
    (deleted : option Z) : TransferRow :=
  {| transfer_id := id; organization := "moov";
     amount_currency := "USD"; amount_value := 1234;
     source_customer_id := "c1"; source_account_id := "a1";
     destination_customer_id := "c2"; destination_account_id := "a2";
     description := "test payment"; status := s; same_day := false;
     return_code := None; created_at := created; deleted_at := deleted;
     processed_at := None |}.

Definition exampleDB : DB :=
  {| transfers :=
       [ exampleRow "t1" client.PROCESSED (unix (Date 2021 4 19 10 0)) None;
         exampleRow "t2" client.PENDING (unix (Date 2021 4 20 10 0)) None;
         exampleRow "t3" client.PENDING (unix (Date 2021 4 20 11 0))
           (Some (unix (Date 2021 4 20 12 0))) ];
     transfer_trace_numbers :=
       [ {| trace_transfer_id := "t1"; trace_number := "T123" |} ] |}.

(** A listing of everything created up to the end of 20 April 2021, ten
    transfers a page. *)
Definition exampleParams : transferFilterParams :=
  {| Status := None; StartDate := 0; EndDate := unix (Date 2021 4 21 0 0);
     Count := 10; Skip := 0; CustomerIDs := [] |}.

(** *** Vocabulary for further properties of the repository *)

(** The transfer [getUserTransfer] builds from a row: its columns, the
    trace numbers stored for its id, and its return code as the NACHA
    library knows it. *)
Definition readRow (LookupReturnCode : string → option client.ReturnCode)
    (db : DB) (r : TransferRow) : client.Transfer :=
  withTraces (scanTransfer r) (getTraceNumbers db (transfer_id r)).1
    (c ← return_code r; LookupReturnCode c).

(** The [where] clause [getTransfers] puts together. *)
Definition listClause (orgID : string) (params : transferFilterParams)
    (r : TransferRow) : Prop :=
  organization r = orgID
  ∧ StartDate params ≤ created_at r ∧ created_at r ≤ EndDate params
  ∧ deleted_at r = None
  ∧ statusClause params r
  ∧ (CustomerIDs params = []
     ∨ source_customer_id r ∈ CustomerIDs params
     ∨ destination_customer_id r ∈ CustomerIDs params).

#[global] Instance listClause_dec orgID params r : Decision (listClause orgID params r).
Proof. unfold listClause. apply _. Defined.

(** The rows [getTransfers] selects, in the order and range it asks for. *)
Definition listedRows (db : DB) (orgID : string) (params : transferFilterParams)
    : list TransferRow :=
  take (Count params)
    (drop (Skip params) (orderByCreatedDesc (filter (listClause orgID params) (transfers db)))).

(** The [where] clause of [LookupTransferFromReturn], with the bounds it
    computes from the effective entry date. *)
Definition returnClause (db : DB) (amount : client.Amount) (traceNumber : string)
    (effectiveEntryDate : Time) (xf : TransferRow) : Prop :=
  Exists (λ trace, transfer_id xf = trace_transfer_id trace
                   ∧ trace_number trace = traceNumber)
         (transfer_trace_numbers db)
  ∧ amount_value xf = client.Value amount
  ∧ status xf = client.PROCESSED
  ∧ (unix (Add (startOfDayAndTomorrow effectiveEntryDate).1 (-5 * 24 * Hour))
     < created_at xf
     ∧ created_at xf
       < unix (Add (startOfDayAndTomorrow effectiveEntryDate).2 (5 * 24 * Hour)))
  ∧ deleted_at xf = None.

#[global] Instance returnClause_dec db amount traceNumber eed xf :
  Decision (returnClause db amount traceNumber eed xf).
Proof. unfold returnClause. apply _. Defined.

(** The columns that say which transfer a row is. *)
Definition sameTransfer (r r' : TransferRow) : Prop :=
  transfer_id r' = transfer_id r
  ∧ organization r' = organization r
  ∧ amount_currency r' = amount_currency r
  ∧ amount_value r' = amount_value r
  ∧ source_customer_id r' = source_customer_id r
  ∧ source_account_id r' = source_account_id r
  ∧ destination_customer_id r' = destination_customer_id r
  ∧ destination_account_id r' = destination_account_id r
  ∧ description r' = description r
  ∧ same_day r' = same_day r
  ∧ created_at r' = created_at r
  ∧ processed_at r' = processed_at r.

(** Any number of calls of the writing methods, one after the other. *)
Inductive writesTo : DB → DB → Prop :=
| writesTo_refl db : writesTo db db
| writesTo_step db db' db'' : writesTo db db' → writes db' db'' → writesTo db db''.

(** Instants from the latest to the earliest. *)
Fixpoint newestFirst (l : list Z) : Prop :=
  match l with
  | [] => True
  | x :: l' => (∀ y, y ∈ l' → y ≤ x) ∧ newestFirst l'
  end.

End transfers.

(** ** [pkg/upload]: outbound file names and their sequence character

    The package's file is not in the source tree; its tests and its caller
    in [cmd/server] are.  The definitions follow the spec and are run
    against the tests' templates and names below. *)

Module upload.

(** Modelled from the spec: [RoundSequenceNumber], missing from the source
    tree: 0-9 give '0'-'9' and 10-35 give 'A'-'Z'. *)
Definition RoundSequenceNumber (seq : nat) : string :=
  if (seq <? 10)%nat then String (ascii_of_nat (48 + seq)) EmptyString
  else String (ascii_of_nat (65 + (seq - 10))) EmptyString.

(** [FilenameData], with the fields [validateTemplate] and the tests fill. *)
Record FilenameData := { RoutingNumber : string; GPG : bool }.

(** A filename template once parsed: text between the actions, and the
    actions the tests and the configuration use.  [UnknownFn] is a call of
    a function the template engine does not define. *)
Inductive action :=
| Text (s : string)
| DateFn (layout : string)
| EnvFn (name : string)
| SeqFn
| RoutingNumberField
| IfGPG (body : string)
| UnknownFn (name : string).

(** Modelled from the spec: [config.DefaultFilenameTemplate], declared
    outside the source tree: date, time and routing number, [.ach], and
    [.gpg] for an encrypted file, as [TestFilenameTemplate] reads it back. *)
Definition DefaultFilenameTemplate : list action :=
  [ DateFn "20060102"; Text "-"; DateFn "1504"; Text "-"; RoutingNumberField;
    Text ".ach"; IfGPG ".gpg" ].

Section Render.
(** [time.Now().Format(layout)]. *)
Variable formatNow : string → string.
(** [os.Getenv]. *)
Variable getenv : string → string.
(** The sequence number of the file that is being named, which the
    template function [seq] reads. *)
Variable seq : nat.

Definition renderAction (data : FilenameData) (a : action) : string + string :=
  match a with
  | Text s => inl s
  | DateFn layout => inl (formatNow layout)
  | EnvFn name => inl (getenv name)
  | SeqFn => inl (RoundSequenceNumber seq)
  | RoutingNumberField => inl (RoutingNumber data)
  | IfGPG body => inl (if GPG data then body else EmptyString)
  | UnknownFn name => inr ("function " +:+ name +:+ " not defined")
  end.

(** Modelled from the spec: [RenderACHFilename], missing from the source
    tree: the template's text with the substitutions date, time, sequence,
    routing number and GPG suffix made; a function the engine does not
    know is an error.  The result is the name or the error. *)
Fixpoint RenderACHFilename (tmpl : list action) (data : FilenameData)
    : string + string :=
  match tmpl with
  | [] => inl EmptyString
  | a :: tmpl' =>
      match renderAction data a with
      | inr err => inr err
      | inl s =>
          match RenderACHFilename tmpl' data with
          | inr err => inr err
          | inl rest => inl (s +:+ rest)
          end
      end
  end.
End Render.

(** The name before its extensions. *)
Fixpoint stem (s : string) : string :=
  match s with
  | EmptyString => EmptyString
  | String c s' => if Ascii.eqb c "." then EmptyString else String c (stem s')
  end.

(** [strings.Split(s, "-")]. *)
Fixpoint splitDash (s : string) : list string :=
  match s with
  | EmptyString => [EmptyString]
  | String c s' =>
      if Ascii.eqb c "-" then EmptyString :: splitDash s'
      else match splitDash s' with
           | part :: parts => String c part :: parts
           | [] => [String c EmptyString]
           end
  end.

(** The number a sequence character stands for. *)
Definition seqValue (c : ascii) : option nat :=
  let n := nat_of_ascii c in
  if ((48 <=? n) && (n <=? 57))%nat then Some (n - 48)%nat
  else if ((65 <=? n) && (n <=? 90))%nat then Some (n - 65 + 10)%nat
  else None.

Definition partSeq (part : string) : option nat :=
  match part with
  | String c EmptyString => seqValue c
  | _ => None
  end.

Fixpoint firstSeq (parts : list string) : nat :=
  match parts with
  | [] => 0%nat
  | part :: parts' =>
      match partSeq part with
      | Some n => n
      | None => firstSeq parts'
      end
  end.

(** Modelled from the spec: [ACHFilenameSeq], missing from the source
    tree: the number of the first dash-separated part of the name that is
    a single sequence character, and 0 when there is none. *)
Definition ACHFilenameSeq (filename : string) : nat :=
  firstSeq (splitDash (stem filename)).

(** A part of a name that holds neither a dash nor a dot. *)
Fixpoint noSeparator (s : string) : bool :=
  match s with
  | EmptyString => true
  | String c s' => negb (Ascii.eqb c "-") && negb (Ascii.eqb c ".") && noSeparator s'
  end.

(** A part such as a date, a time or a routing number: no separator in
    it, and not a single sequence character. *)
Definition plainField (s : string) : Prop :=
  noSeparator s = true ∧ partSeq s = None.



(** The clock and the templates of [TestFilenameTemplate], and the
    template of the name the happy-path scenario shows. *)
Definition testFormatNow (layout : string) : string :=
  if String.eqb layout "20060102" then "20210419"
  else if String.eqb layout "1504" then "1620"
  else EmptyString.

Definition testGetenv (name : string) : string :=
  if String.eqb name "PATH" then "/usr/bin" else EmptyString.

Definition lindenTemplate : list action := [ DateFn "20060102"; Text ".ach" ].


End upload.

(** * Properties *)

(** ** Go's string order and [sort.Strings] *)

Module gostrings_facts.
Import gostrings.

Lemma ascii_compare_refl a : Ascii.compare a a = Eq.
Proof. unfold Ascii.compare. apply N.compare_refl. Qed.

Lemma ascii_compare_lt_trans a b c :
  Ascii.compare a b = Lt → Ascii.compare b c = Lt → Ascii.compare a c = Lt.
Proof.
  unfold Ascii.compare. rewrite !N.compare_lt_iff. apply N.lt_trans.
Qed.

Lemma string_leb_refl s : String.leb s s = true.
Proof.
  unfold String.leb. induction s as [| a s IH]; [done |].
  simpl. by rewrite ascii_compare_refl.
Qed.

Lemma string_leb_trans s1 s2 s3 :
  String.leb s1 s2 = true → String.leb s2 s3 = true → String.leb s1 s3 = true.
Proof.
  unfold String.leb. revert s2 s3.
  induction s1 as [| a s1 IH]; intros [| b s2] [| c s3]; simpl; try done.
  destruct (Ascii.compare a b) eqn:Hab; try done;
    destruct (Ascii.compare b c) eqn:Hbc; try done.
  - apply Ascii.compare_eq_iff in Hab as ->. rewrite Hbc. apply IH.
  - apply Ascii.compare_eq_iff in Hab as ->. by rewrite Hbc.
  - apply Ascii.compare_eq_iff in Hbc as <-. by rewrite Hab.
  - by rewrite (ascii_compare_lt_trans _ _ _ Hab Hbc).
Qed.

Lemma insertSorted_elem x l y : y ∈ insertSorted x l ↔ y = x ∨ y ∈ l.
Proof.
  induction l as [| z l IH]; simpl.
  - rewrite list_elem_of_singleton, elem_of_nil. tauto.
  - destruct (String.leb x z); rewrite !elem_of_cons; [tauto |].
    rewrite IH. tauto.
Qed.

Lemma sortStrings_elem l y : y ∈ sortStrings l ↔ y ∈ l.
Proof.
  unfold sortStrings. induction l as [| x l IH]; [done |].
  simpl. rewrite insertSorted_elem, IH, elem_of_cons. tauto.
Qed.

Lemma insertSorted_sorted x l : sorted l → sorted (insertSorted x l).
Proof.
  induction l as [| z l IH]; simpl.
  - intros _. split; [| done]. intros y Hy. by apply elem_of_nil in Hy.
  - intros [Hz Hl]. destruct (String.leb x z) eqn:Hxz; simpl.
    + split; [| done]. intros y [-> | Hy]%elem_of_cons; [done |].
      eapply string_leb_trans; [exact Hxz | by apply Hz].
    + split; [| by apply IH].
      intros y [-> | Hy]%insertSorted_elem; [| by apply Hz].
      destruct (String.leb_total x z) as [Hle | Hle]; [congruence | done].
Qed.

Lemma sortStrings_sorted l : sorted (sortStrings l).
Proof.
  unfold sortStrings. induction l as [| x l IH]; [done |].
  simpl. by apply insertSorted_sorted.
Qed.

Lemma sorted_last l m :
  sorted l → last l = Some m → ∀ w, w ∈ l → String.leb w m = true.
Proof.
  induction l as [| x l IH]; [done |].
  intros [Hx Hl] Hlast w Hw. destruct l as [| y l].
  - injection Hlast as <-. apply list_elem_of_singleton in Hw as ->.
    apply string_leb_refl.
  - rewrite last_cons_cons in Hlast.
    apply elem_of_cons in Hw as [-> | Hw]; [| by apply IH].
    apply Hx. by apply last_Some_elem_of.
Qed.

(** The last string of the sorted copy is the largest of the list. *)
Lemma sortStrings_last l m :
  last (sortStrings l) = Some m →
  m ∈ l ∧ ∀ w, w ∈ l → String.leb w m = true.
Proof.
  intros Hlast. split.
  - apply sortStrings_elem. by apply last_Some_elem_of.
  - intros w Hw. eapply sorted_last; [apply sortStrings_sorted | done |].
    by apply sortStrings_elem.
Qed.

End gostrings_facts.

(** ** Clock readings and banking days *)

Module gotime_facts.
Import gotime.

Lemma append_String c s t : String c s +:+ t = String c (s +:+ t).
Proof. reflexivity. Qed.

Lemma append_empty_l t : EmptyString +:+ t = t.
Proof. reflexivity. Qed.

Lemma append_empty_r s : s +:+ EmptyString = s.
Proof. induction s as [| c s IH]; [done |]. by rewrite append_String, IH. Qed.

Lemma digit_compare_nat (n m : nat) :
  (n < 10)%nat → (m < 10)%nat →
  Ascii.compare (digit (Z.of_nat n)) (digit (Z.of_nat m)) = (Z.of_nat n ?= Z.of_nat m).
Proof.
  intros Hn Hm.
  do 10 (destruct n as [| n];
         [do 10 (destruct m as [| m]; [reflexivity |]); lia |]).
  lia.
Qed.

Lemma digit_compare x y :
  0 ≤ x < 10 → 0 ≤ y < 10 → Ascii.compare (digit x) (digit y) = (x ?= y).
Proof.
  intros Hx Hy. rewrite <- (Z2Nat.id x), <- (Z2Nat.id y) by lia.
  apply digit_compare_nat; lia.
Qed.

(** Two digits in front decide the order of two strings as the numbers
    they write do. *)
Lemma twoDigits_compare a b s t :
  0 ≤ a < 100 → 0 ≤ b < 100 →
  String.compare (twoDigits a +:+ s) (twoDigits b +:+ t)
  = match a ?= b with Eq => String.compare s t | c => c end.
Proof.
  intros Ha Hb. unfold twoDigits. rewrite !append_String, !append_empty_l.
  cbn [String.compare].
  pose proof (Z_div_mod_eq_full a 10) as Ea. pose proof (Z_div_mod_eq_full b 10) as Eb.
  pose proof (Z.mod_pos_bound a 10 eq_refl) as Ma.
  pose proof (Z.mod_pos_bound b 10 eq_refl) as Mb.
  assert (Qa : 0 ≤ a / 10 < 10) by lia.
  assert (Qb : 0 ≤ b / 10 < 10) by lia.
  rewrite (digit_compare (a / 10) (b / 10)) by done.
  rewrite (digit_compare (a mod 10) (b mod 10)) by done.
  destruct (Z.compare_spec (a / 10) (b / 10)) as [Hq | Hq | Hq].
  - destruct (Z.compare_spec (a mod 10) (b mod 10)) as [Hr | Hr | Hr].
    + replace (a ?= b) with Eq; [done |]. symmetry. apply Z.compare_eq_iff. lia.
    + replace (a ?= b) with Lt; [done |]. symmetry. apply Z.compare_lt_iff. lia.
    + replace (a ?= b) with Gt; [done |]. symmetry. apply Z.compare_gt_iff. lia.
  - replace (a ?= b) with Lt; [done |]. symmetry. apply Z.compare_lt_iff. lia.
  - replace (a ?= b) with Gt; [done |]. symmetry. apply Z.compare_gt_iff. lia.
Qed.

(** On clock readings Go's string order is the order of the time of day. *)
Lemma clock_leb h1 m1 h2 m2 :
  0 ≤ h1 < 24 → 0 ≤ m1 < 60 → 0 ≤ h2 < 24 → 0 ≤ m2 < 60 →
  String.leb (clock h1 m1) (clock h2 m2) = (h1 * 60 + m1 <=? h2 * 60 + m2).
Proof.
  intros Hh1 Hm1 Hh2 Hm2. unfold String.leb, clock.
  rewrite twoDigits_compare by lia. rewrite !append_String, !append_empty_l.
  cbn [String.compare]. rewrite gostrings_facts.ascii_compare_refl.
  rewrite <- (append_empty_r (twoDigits m1)), <- (append_empty_r (twoDigits m2)).
  rewrite twoDigits_compare by lia. cbn [String.compare].
  destruct (Z.compare_spec h1 h2) as [Hh | Hh | Hh].
  - destruct (Z.compare_spec m1 m2) as [Hm | Hm | Hm]; symmetry.
    + apply Z.leb_le. lia.
    + apply Z.leb_le. lia.
    + apply Z.leb_gt. lia.
  - symmetry. apply Z.leb_le. lia.
  - symmetry. apply Z.leb_gt. lia.
Qed.

Lemma hourOf_bounds t : 0 ≤ hourOf t < 24.
Proof. unfold hourOf. by apply Z.mod_pos_bound. Qed.

Lemma minuteOf_bounds t : 0 ≤ minuteOf t < 60.
Proof. unfold minuteOf. by apply Z.mod_pos_bound. Qed.

Lemma Format_15_04_leb t1 t2 :
  String.leb (Format_15_04 t1) (Format_15_04 t2) = (minuteOfDay t1 <=? minuteOfDay t2).
Proof.
  unfold Format_15_04, minuteOfDay.
  apply clock_leb; auto using hourOf_bounds, minuteOf_bounds.
Qed.

Lemma Format_15_04_clock_leb h m t :
  0 ≤ h < 24 → 0 ≤ m < 60 →
  String.leb (clock h m) (Format_15_04 t) = (h * 60 + m <=? minuteOfDay t).
Proof.
  intros Hh Hm. unfold Format_15_04, minuteOfDay.
  apply clock_leb; auto using hourOf_bounds, minuteOf_bounds.
Qed.

(** The minutes since midnight, from the seconds on the wall clock. *)
Lemma minuteOfDay_wall t : minuteOfDay t = (wall t / 60) mod 1440.
Proof.
  unfold minuteOfDay, hourOf, minuteOf. change Hour with (60 * 60). change Minute with 60.
  rewrite <- Z.div_div by lia.
  set (q := wall t / 60).
  pose proof (Z_div_mod_eq_full q 60). pose proof (Z.mod_pos_bound q 60 eq_refl).
  pose proof (Z_div_mod_eq_full (q / 60) 24).
  pose proof (Z.mod_pos_bound (q / 60) 24 eq_refl).
  apply (Z.mod_unique_pos _ _ (q / 60 / 24)); lia.
Qed.

(** Two instants of one UTC day read in order on the UTC clock. *)
Lemma minuteOfDay_mono u1 u2 :
  u1 ≤ u2 → u1 / (24 * Hour) = u2 / (24 * Hour) →
  minuteOfDay {| unix := u1; loc := UTC |} ≤ minuteOfDay {| unix := u2; loc := UTC |}.
Proof.
  intros Hle Hday. rewrite !minuteOfDay_wall. unfold wall. simpl.
  rewrite !Z.add_0_r. change (24 * Hour) with 86400 in Hday.
  assert (Hq : u1 / 60 ≤ u2 / 60) by (apply Z.div_le_mono; lia).
  assert (Hd : u1 / 60 / 1440 = u2 / 60 / 1440) by (rewrite !Z.div_div by lia; done).
  pose proof (Z_div_mod_eq_full (u1 / 60) 1440).
  pose proof (Z_div_mod_eq_full (u2 / 60) 1440). lia.
Qed.

Section Calendar.
Variable holidays : list Z.

Lemma IsBankingDay_dayNumber t :
  moovbase.IsBankingDay holidays t = moovbase.bankingDayNumber holidays (dayNumber t).
Proof. reflexivity. Qed.

Lemma dayNumber_AddDays_utc u :
  dayNumber (AddDays {| unix := u; loc := UTC |} 1)
  = dayNumber {| unix := u; loc := UTC |} + 1.
Proof.
  unfold dayNumber, wall, AddDays, Add. simpl. rewrite !Z.add_0_r.
  change (1 * (24 * Hour)) with (1 * 86400). change (24 * Hour) with 86400.
  by rewrite Z.div_add.
Qed.

(** In UTC the walk adds whole days, as many as the day number alone decides. *)
Lemma addBankingDays_utc fuel d u :
  moovbase.addBankingDays holidays fuel d {| unix := u; loc := UTC |}
  = {| unix := u + moovbase.daysAdvanced holidays fuel d (u / (24 * Hour)) * (24 * Hour);
       loc := UTC |}.
Proof.
  revert d u. induction fuel as [| fuel IH]; intros [| d] u; simpl;
    try (f_equal; lia).
  rewrite IsBankingDay_dayNumber, dayNumber_AddDays_utc.
  unfold dayNumber, wall. simpl. rewrite Z.add_0_r.
  unfold AddDays, Add. simpl.
  assert (Hday : (u + 1 * (24 * Hour)) / (24 * Hour) = u / (24 * Hour) + 1).
  { change (24 * Hour) with 86400. by rewrite Z.div_add. }
  destruct (moovbase.bankingDayNumber holidays (u / (24 * Hour) + 1));
    rewrite IH, Hday; f_equal; lia.
Qed.

Lemma daysAdvanced_nonneg fuel d day : 0 ≤ moovbase.daysAdvanced holidays fuel d day.
Proof.
  revert d day. induction fuel as [| fuel IH]; intros [| d] day; simpl; try lia.
  destruct (moovbase.bankingDayNumber holidays (day + 1)).
  - pose proof (IH d (day + 1)). lia.
  - pose proof (IH (S d) (day + 1)). lia.
Qed.

Lemma daysAdvanced_pos fuel d day :
  (1 ≤ fuel)%nat → (1 ≤ d)%nat → 1 ≤ moovbase.daysAdvanced holidays fuel d day.
Proof.
  intros Hf Hd. destruct fuel as [| fuel]; [lia |]. destruct d as [| d]; [lia |].
  simpl. destruct (moovbase.bankingDayNumber holidays (day + 1)).
  - pose proof (daysAdvanced_nonneg fuel d (day + 1)). lia.
  - pose proof (daysAdvanced_nonneg fuel (S d) (day + 1)). lia.
Qed.

(** More fuel or more banking days to add never shortens the walk. *)
Lemma daysAdvanced_mono fuel fuel' d d' day :
  (fuel ≤ fuel')%nat → (d ≤ d')%nat →
  moovbase.daysAdvanced holidays fuel d day ≤ moovbase.daysAdvanced holidays fuel' d' day.
Proof.
  revert fuel' d d' day. induction fuel as [| fuel IH]; intros fuel' d d' day Hf Hd.
  - destruct d; simpl; apply daysAdvanced_nonneg.
  - destruct d as [| d]; [apply daysAdvanced_nonneg |].
    destruct fuel' as [| fuel']; [lia |]. destruct d' as [| d']; [lia |]. simpl.
    destruct (moovbase.bankingDayNumber holidays (day + 1)).
    + pose proof (IH fuel' d d' (day + 1)). lia.
    + pose proof (IH fuel' (S d) (S d') (day + 1)). lia.
Qed.

End Calendar.

End gotime_facts.

(** ** The first-party strategy *)

Module fundflow_facts.
Import gotime fundflow.

(** [TestCalculateEffectiveEntryDate]: Monday 2021-04-19, 10:00 UTC, and
    five hours later; one window at 14:20, no holiday in that week. *)
Example test_next_day :
  calculateEffectiveEntryDate [] testLoadLocation testODFI
    (In (Date 2021 4 19 10 0) America_New_York) false = Date 2021 4 20 10 0.
Proof. reflexivity. Qed.

Example test_same_day :
  calculateEffectiveEntryDate [] testLoadLocation testODFI
    (In (Date 2021 4 19 10 0) America_New_York) true = Date 2021 4 19 10 0.
Proof. reflexivity. Qed.

Example test_after_cutoff :
  calculateEffectiveEntryDate [] testLoadLocation testODFI
    (Add (In (Date 2021 4 19 10 0) America_New_York) (5 * Hour)) false
  = Date 2021 4 21 15 0.
Proof. reflexivity. Qed.

Example test_after_cutoff_same_day :
  calculateEffectiveEntryDate [] testLoadLocation testODFI
    (Add (In (Date 2021 4 19 10 0) America_New_York) (5 * Hour)) true
  = Date 2021 4 20 15 0.
Proof. reflexivity. Qed.

Section Cutoffs.
Variable holidays : list Z.
Variable LoadLocation : string → Location.

(** The four branches, on the clock [when] shows. *)
Lemma calculateEffectiveEntryDate_branches cfg ssNow sameDay :
  let when := moovbase.NewTime (In ssNow (CutoffsLocation LoadLocation (config.OCutoffs cfg))) in
  calculateEffectiveEntryDate holidays LoadLocation cfg ssNow sameDay =
  match afterCutoffWindows (config.OCutoffs cfg) when, sameDay with
  | true, true => moovbase.AddBankingDay holidays when 1
  | true, false => moovbase.AddBankingDay holidays when 2
  | false, true => when
  | false, false => moovbase.AddBankingDay holidays when 1
  end.
Proof.
  intros when. unfold calculateEffectiveEntryDate. fold when.
  destruct (afterCutoffWindows _ when), sameDay; reflexivity.
Qed.

(** [when] is the instant of the clock moved to UTC, whatever zone the
    cutoffs are configured in. *)
Lemma when_is_utc (l : Location) ssNow :
  moovbase.NewTime (In ssNow l) = In ssNow UTC.
Proof. reflexivity. Qed.

(** So the configured time zone has no part in the result. *)
Lemma calculateEffectiveEntryDate_any_zone LoadLocation' cfg ssNow sameDay :
  calculateEffectiveEntryDate holidays LoadLocation cfg ssNow sameDay
  = calculateEffectiveEntryDate holidays LoadLocation' cfg ssNow sameDay.
Proof. reflexivity. Qed.

(** The check says "after" exactly when there is a window and no window
    is later, as a string, than the clock [when] shows. *)
Lemma afterCutoffWindows_latest cfg when :
  afterCutoffWindows cfg when = true
  ↔ config.Windows cfg ≠ []
    ∧ ∀ w, w ∈ config.Windows cfg → String.leb w (Format_15_04 when) = true.
Proof.
  unfold afterCutoffWindows.
  destruct (config.Windows cfg) as [| w0 ws] eqn:Hws; [simpl; by intuition |].
  cbn [length Nat.eqb].
  destruct (last (gostrings.sortStrings (w0 :: ws))) as [m |] eqn:Hlast.
  - apply gostrings_facts.sortStrings_last in Hlast as [Hm Hmax]. split.
    + intros Hle. split; [done |]. intros w Hw.
      eapply gostrings_facts.string_leb_trans; [by apply Hmax | done].
    + intros [_ Hall]. by apply Hall.
  - apply last_None in Hlast.
    assert (Hin : w0 ∈ gostrings.sortStrings (w0 :: ws))
      by (apply gostrings_facts.sortStrings_elem; by left).
    rewrite Hlast in Hin. by apply elem_of_nil in Hin.
Qed.

(** For windows written as clock readings: "after" exactly when there is a
    window and the latest one is not later than the time of day [when]
    shows. *)
Lemma afterCutoffWindows_minutes tz (hm : list (Z * Z)) when :
  (∀ p, p ∈ hm → 0 ≤ p.1 < 24 ∧ 0 ≤ p.2 < 60) →
  afterCutoffWindows
    {| config.Timezone := tz; config.Windows := (λ p, clock p.1 p.2) <$> hm |} when = true
  ↔ hm ≠ [] ∧ ∀ p, p ∈ hm → p.1 * 60 + p.2 ≤ minuteOfDay when.
Proof.
  intros Hwf. rewrite afterCutoffWindows_latest. simpl. split.
  - intros [Hne Hall]. split; [by destruct hm |].
    intros p Hp. destruct (Hwf p Hp) as [Hh Hm].
    apply Z.leb_le. rewrite <- gotime_facts.Format_15_04_clock_leb by done.
    apply Hall. apply list_elem_of_fmap. by exists p.
  - intros [Hne Hall]. split; [by destruct hm |].
    intros w (p & -> & Hp)%list_elem_of_fmap. destruct (Hwf p Hp) as [Hh Hm].
    rewrite gotime_facts.Format_15_04_clock_leb by done. apply Z.leb_le. by apply Hall.
Qed.

(** Later on one UTC day is never before a window that an earlier instant
    of that day was after. *)
Lemma afterCutoffWindows_later cfg u1 u2 :
  u1 ≤ u2 → u1 / (24 * Hour) = u2 / (24 * Hour) →
  afterCutoffWindows cfg {| unix := u1; loc := UTC |} = true →
  afterCutoffWindows cfg {| unix := u2; loc := UTC |} = true.
Proof.
  intros Hle Hday. rewrite !afterCutoffWindows_latest. intros [Hne Hall].
  split; [done |]. intros w Hw.
  eapply gostrings_facts.string_leb_trans; [by apply Hall |].
  rewrite gotime_facts.Format_15_04_leb. apply Z.leb_le.
  by apply gotime_facts.minuteOfDay_mono.
Qed.

Lemma AddBankingDay_utc u d :
  1 ≤ d →
  moovbase.AddBankingDay holidays {| unix := u; loc := UTC |} d
  = {| unix := u + moovbase.daysAdvanced holidays
                     (Z.to_nat d * (7 * S (length holidays))) (Z.to_nat d)
                     (u / (24 * Hour)) * (24 * Hour);
       loc := UTC |}.
Proof.
  intros Hd. unfold moovbase.AddBankingDay.
  destruct (Z.ltb_spec d 1) as [| _]; [lia |]. apply gotime_facts.addBankingDays_utc.
Qed.

(** What does hold: between two instants of one day of the UTC calendar
    the date of a transfer that is not same-day does not go back. *)
Lemma calculateEffectiveEntryDate_monotone_utc_day cfg t1 t2 :
  unix t1 ≤ unix t2 → unix t1 / (24 * Hour) = unix t2 / (24 * Hour) →
  unix (calculateEffectiveEntryDate holidays LoadLocation cfg t1 false)
  ≤ unix (calculateEffectiveEntryDate holidays LoadLocation cfg t2 false).
Proof.
  intros Hle Hday. rewrite !calculateEffectiveEntryDate_branches. cbv zeta.
  rewrite !when_is_utc. unfold In.
  pose proof (afterCutoffWindows_later (config.OCutoffs cfg) _ _ Hle Hday) as Hlater.
  destruct (afterCutoffWindows _ {| unix := unix t1; loc := UTC |}) eqn:H1.
  - rewrite Hlater by done. rewrite !AddBankingDay_utc by lia. cbn [unix].
    rewrite Hday. lia.
  - destruct (afterCutoffWindows _ {| unix := unix t2; loc := UTC |});
      rewrite !AddBankingDay_utc by lia; cbn [unix]; rewrite Hday; [| lia].
    assert (Hmono :
      moovbase.daysAdvanced holidays (Z.to_nat 1 * (7 * S (length holidays)))
        (Z.to_nat 1) (unix t2 / (24 * Hour))
      ≤ moovbase.daysAdvanced holidays (Z.to_nat 2 * (7 * S (length holidays)))
          (Z.to_nat 2) (unix t2 / (24 * Hour)))
      by (apply gotime_facts.daysAdvanced_mono; lia).
    change (24 * Hour) with 86400 in *. lia.
Qed.

(** After the last window, on the UTC clock, a same-day transfer is dated
    on a later day, the clock time kept. *)
Lemma calculateEffectiveEntryDate_same_day_after_cutoff cfg ssNow :
  afterCutoffWindows (config.OCutoffs cfg) (In ssNow UTC) = true →
  calculateEffectiveEntryDate holidays LoadLocation cfg ssNow true
  = moovbase.AddBankingDay holidays (In ssNow UTC) 1
  ∧ dayNumber (In ssNow UTC)
    < dayNumber (calculateEffectiveEntryDate holidays LoadLocation cfg ssNow true).
Proof.
  intros Hafter. rewrite calculateEffectiveEntryDate_branches. cbv zeta.
  rewrite when_is_utc, Hafter. split; [done |].
  unfold In. rewrite AddBankingDay_utc by lia.
  unfold dayNumber, wall. cbn [unix loc zoneOffset UTC]. rewrite !Z.add_0_r.
  pose proof (gotime_facts.daysAdvanced_pos holidays
                (Z.to_nat 1 * (7 * S (length holidays))) (Z.to_nat 1)
                (unix ssNow / (24 * Hour))) as Hpos.
  change (24 * Hour) with 86400 in *. rewrite Z.div_add by lia.
  assert (1 ≤ moovbase.daysAdvanced holidays (Z.to_nat 1 * (7 * S (length holidays)))
                (Z.to_nat 1) (unix ssNow / 86400)) by (apply Hpos; lia).
  lia.
Qed.

(** Without windows nothing is after the cutoff. *)
Lemma afterCutoffWindows_no_window tz when :
  afterCutoffWindows {| config.Timezone := tz; config.Windows := [] |} when = false.
Proof. reflexivity. Qed.
End Cutoffs.

(** C1 (the code departs from it).  At 11:00 in New York on Monday
    2021-04-19, before the only window (14:20), a transfer that is not
    same-day is dated two banking days ahead, Wednesday the 21st, where
    the rule gives Tuesday the 20th: the windows are compared with the
    UTC clock (15:00).  The second step of
    [TestCalculateEffectiveEntryDate] is this input. *)
Theorem calculateEffectiveEntryDate_compares_utc_clock :
  let ssNow := In (Date 2021 4 19 15 0) America_New_York in
  let eed := calculateEffectiveEntryDate [] testLoadLocation testODFI ssNow false in
  Format_15_04 ssNow = "11:00"%string
  ∧ String.ltb "11:00" "14:20" = true
  ∧ eed = moovbase.AddBankingDay [] (In ssNow UTC) 2
  ∧ eed = Date 2021 4 21 15 0
  ∧ moovbase.AddBankingDay [] (In ssNow UTC) 1 = Date 2021 4 20 15 0.
Proof. repeat split; reflexivity. Qed.

(** The same defect on a same-day transfer: at 20:30 on Friday 2021-04-23
    in New York, after the window, it is dated on the Saturday the UTC
    clock already shows, which is no banking day. *)
Example same_day_friday_evening :
  let ssNow := In (Date 2021 4 24 0 30) America_New_York in
  let eed := calculateEffectiveEntryDate [] testLoadLocation testODFI ssNow true in
  Format_15_04 ssNow = "20:30"%string
  ∧ eed = Date 2021 4 24 0 30
  ∧ Weekday eed = 6
  ∧ moovbase.IsBankingDay [] eed = false.
Proof. repeat split; reflexivity. Qed.

(** C8 (the code departs from it).  Friday 2021-04-23 in New York, one
    window at 14:20, neither transfer same-day: the one accepted at 19:30
    is dated Tuesday the 27th and the one accepted an hour later Monday
    the 26th.  The later instant is already Saturday 00:30 on the UTC
    clock, which is before the window. *)
Theorem calculateEffectiveEntryDate_not_monotone :
  let t1 := In (Date 2021 4 23 23 30) America_New_York in
  let t2 := In (Date 2021 4 24 0 30) America_New_York in
  let eed := calculateEffectiveEntryDate [] testLoadLocation testODFI in
  unix t1 < unix t2
  ∧ dayNumber t1 = dayNumber t2
  ∧ Format_15_04 t1 = "19:30"%string ∧ Format_15_04 t2 = "20:30"%string
  ∧ eed t1 false = Date 2021 4 27 23 30
  ∧ eed t2 false = Date 2021 4 26 0 30
  ∧ dayNumber (eed t2 false) < dayNumber (eed t1 false).
Proof. repeat split; reflexivity. Qed.

(** *** Originate *)

Section Originate.
Variable holidays : list Z.
Variable LoadLocation : string → Location.
Variable ConstructFile :
  string → achx.Options → client.Transfer → achx.Source → achx.Destination →
  ach.File + string.

Local Abbreviation Originate := (fundflow.Originate holidays LoadLocation ConstructFile).
Local Abbreviation construct := (fundflow.construct holidays LoadLocation ConstructFile).
Local Abbreviation routingOf src := (customers.RoutingNumber (SAccount src)).
Local Abbreviation routingTo dst := (customers.RoutingNumber (DAccount dst)).

Lemma Originate_same_routing fp companyID xfer src dst :
  routingOf src = routingTo dst →
  Originate fp companyID xfer src dst
  = Error ("rejecting transfer between two accounts within " +:+ routingOf src).
Proof.
  intros Heq. unfold fundflow.Originate.
  by rewrite (proj2 (String.eqb_eq _ _) Heq).
Qed.

Lemma Originate_third_party fp companyID xfer src dst :
  routingOf src ≠ routingTo dst →
  routingOf src ≠ config.RoutingNumber (cfg fp) →
  routingTo dst ≠ config.RoutingNumber (cfg fp) →
  Originate fp companyID xfer src dst
  = Error ("rejecting third-party transfer between FI's we don't represent (source: "
           +:+ routingOf src +:+ ", destination: " +:+ routingTo dst +:+ ")").
Proof.
  intros Hne Hs Hd. unfold fundflow.Originate.
  rewrite (proj2 (String.eqb_neq _ _) Hne).
  by rewrite (proj2 (String.eqb_neq _ _) Hs), (proj2 (String.eqb_neq _ _) Hd).
Qed.

Lemma Originate_debit_unverified fp companyID xfer src dst :
  routingOf src ≠ routingTo dst →
  routingTo dst = config.RoutingNumber (cfg fp) →
  gostrings.EqualFold (customers.Status (SCustomer src))
    customers.CUSTOMERSTATUS_VERIFIED = false →
  Originate fp companyID xfer src dst
  = Error ("source customerID=" +:+ customers.CustomerID (SCustomer src)
           +:+ " does not support debit with status "
           +:+ customers.Status (SCustomer src)).
Proof.
  intros Hne Hd Hst. unfold fundflow.Originate.
  rewrite (proj2 (String.eqb_neq _ _) Hne).
  rewrite <- Hd, String.eqb_refl, andb_false_r. simpl.
  by rewrite String.eqb_refl, Hst.
Qed.

Lemma Originate_credit fp companyID xfer src dst :
  routingOf src ≠ routingTo dst →
  routingOf src = config.RoutingNumber (cfg fp) →
  Originate fp companyID xfer src dst = construct fp companyID xfer src dst.
Proof.
  intros Hne Hs. unfold fundflow.Originate, fundflow.construct.
  rewrite (proj2 (String.eqb_neq _ _) Hne).
  rewrite <- Hs, String.eqb_refl. simpl.
  by rewrite (proj2 (String.eqb_neq _ _) Hne).
Qed.

Lemma Originate_debit_verified fp companyID xfer src dst :
  routingOf src ≠ routingTo dst →
  routingTo dst = config.RoutingNumber (cfg fp) →
  gostrings.EqualFold (customers.Status (SCustomer src))
    customers.CUSTOMERSTATUS_VERIFIED = true →
  Originate fp companyID xfer src dst = construct fp companyID xfer src dst.
Proof.
  intros Hne Hd Hst. unfold fundflow.Originate, fundflow.construct.
  rewrite (proj2 (String.eqb_neq _ _) Hne).
  rewrite <- Hd, String.eqb_refl, andb_false_r. simpl.
  by rewrite String.eqb_refl, Hst.
Qed.

(** C5.  Equal routing numbers are refused first, whatever the ODFI is;
    routing numbers that differ from each other and from the ODFI's are
    refused as a third-party transfer.  Neither outcome carries a file. *)
Theorem Originate_rejects_routing fp companyID xfer src dst :
  (routingOf src = routingTo dst →
   Originate fp companyID xfer src dst
   = Error ("rejecting transfer between two accounts within " +:+ routingOf src))
  ∧ (routingOf src ≠ config.RoutingNumber (cfg fp) →
     routingTo dst ≠ config.RoutingNumber (cfg fp) →
     ∃ msg, Originate fp companyID xfer src dst = Error msg
            ∧ (routingOf src ≠ routingTo dst →
               msg = "rejecting third-party transfer between FI's we don't represent (source: "
                     +:+ routingOf src +:+ ", destination: " +:+ routingTo dst +:+ ")")).
Proof.
  split; [apply Originate_same_routing |].
  intros Hs Hd. destruct (decide (routingOf src = routingTo dst)) as [Heq | Hne].
  - eexists. split; [by apply Originate_same_routing | done].
  - eexists. split; [by apply Originate_third_party | done].
Qed.

(** C6.  With the destination at the ODFI and a source customer whose
    status does not fold to VERIFIED the call ends in an error; the
    error is the debit refusal unless the routing numbers are equal.
    With the source at the ODFI the status is not looked at: the call
    goes on to build the file. *)
Theorem Originate_debit_needs_verified fp companyID xfer src dst :
  (routingTo dst = config.RoutingNumber (cfg fp) →
   gostrings.EqualFold (customers.Status (SCustomer src))
     customers.CUSTOMERSTATUS_VERIFIED = false →
   ∃ msg, Originate fp companyID xfer src dst = Error msg
          ∧ (routingOf src ≠ routingTo dst →
             msg = "source customerID=" +:+ customers.CustomerID (SCustomer src)
                   +:+ " does not support debit with status "
                   +:+ customers.Status (SCustomer src)))
  ∧ (routingOf src = config.RoutingNumber (cfg fp) →
     routingOf src ≠ routingTo dst →
     Originate fp companyID xfer src dst = construct fp companyID xfer src dst).
Proof.
  split.
  - intros Hd Hst. destruct (decide (routingOf src = routingTo dst)) as [Heq | Hne].
    + eexists. split; [by apply Originate_same_routing | done].
    + eexists. split; [by apply Originate_debit_unverified | done].
  - intros Hs Hne. by apply Originate_credit.
Qed.
End Originate.

(** [TestOriginate__RoutingNumberErr] and [TestOriginate__DebitCheck]. *)
Example test_same_routing :
  fundflow.Originate [] testLoadLocation (achx.ConstructFile (λ _, None))
    (testFirstParty "" false) "companyID" None
    (mkSource "" "987654320" "") (mkDestination "987654320" "")
  = Error "rejecting transfer between two accounts within 987654320".
Proof. reflexivity. Qed.

Example test_third_party :
  fundflow.Originate [] testLoadLocation (achx.ConstructFile (λ _, None))
    (testFirstParty "987654320" false) "companyID" None
    (mkSource "" "123" "") (mkDestination "987" "")
  = Error "rejecting third-party transfer between FI's we don't represent (source: 123, destination: 987)".
Proof. reflexivity. Qed.

Example test_debit_check :
  fundflow.Originate [] testLoadLocation (achx.ConstructFile (λ _, None))
    (testFirstParty "987654320" false) "MOOV" (Some (mkTransfer 0))
    (mkSource customers.CUSTOMERSTATUS_RECEIVE_ONLY "" "") (mkDestination "987654320" "")
  = Error "source customerID=c1 does not support debit with status RECEIVE_ONLY".
Proof. reflexivity. Qed.

Example EqualFold_verified :
  gostrings.EqualFold "verified" customers.CUSTOMERSTATUS_VERIFIED = true
  ∧ gostrings.EqualFold "Verified" customers.CUSTOMERSTATUS_VERIFIED = true
  ∧ gostrings.EqualFold "unverified" customers.CUSTOMERSTATUS_VERIFIED = false.
Proof. repeat split; reflexivity. Qed.

Lemma Originate_rejects_routing_witness :
  fundflow.Originate [] testLoadLocation (λ _ _ _ _ _, inr "unused"%string)
    (testFirstParty "" false) "companyID" None
    (mkSource "" "987654320" "") (mkDestination "987654320" "")
  = Error "rejecting transfer between two accounts within 987654320"
  ∧ ∃ msg,
      fundflow.Originate [] testLoadLocation (λ _ _ _ _ _, inr "unused"%string)
        (testFirstParty "987654320" false) "companyID" None
        (mkSource "" "123" "") (mkDestination "987" "")
      = Error msg.
Proof.
  split.
  - apply (proj1 (Originate_rejects_routing [] testLoadLocation
                    (λ _ _ _ _ _, inr "unused"%string) (testFirstParty "" false)
                    "companyID" None (mkSource "" "987654320" "")
                    (mkDestination "987654320" ""))).
    reflexivity.
  - destruct (proj2 (Originate_rejects_routing [] testLoadLocation
                    (λ _ _ _ _ _, inr "unused"%string) (testFirstParty "987654320" false)
                    "companyID" None (mkSource "" "123" "") (mkDestination "987" "")))
      as [msg [Hmsg _]]; [discriminate | discriminate |].
    exists msg. exact Hmsg.
Defined.

Lemma Originate_debit_needs_verified_witness :
  ∃ msg,
    fundflow.Originate [] testLoadLocation (λ _ _ _ _ _, inr "unused"%string)
      (testFirstParty "987654320" false) "MOOV" (Some (mkTransfer 0))
      (mkSource customers.CUSTOMERSTATUS_RECEIVE_ONLY "" "")
      (mkDestination "987654320" "")
    = Error msg.
Proof.
  destruct (proj1 (Originate_debit_needs_verified [] testLoadLocation
               (λ _ _ _ _ _, inr "unused"%string) (testFirstParty "987654320" false)
               "MOOV" (Some (mkTransfer 0))
               (mkSource customers.CUSTOMERSTATUS_RECEIVE_ONLY "" "")
               (mkDestination "987654320" "")))
    as [msg [Hmsg _]]; [reflexivity | reflexivity |].
  exists msg. exact Hmsg.
Defined.

Lemma string_append_cancel (p a b : string) : p +:+ a = p +:+ b → a = b.
Proof.
  induction p as [| c p IH]; [done |].
  rewrite !gotime_facts.append_String. intros [= H]. by apply IH.
Qed.

Lemma string_append_nonempty (p : string) c s : p +:+ String c s ≠ EmptyString.
Proof. by destruct p. Qed.

Lemma string_length_append (p s : string) :
  String.length (p +:+ s) = (String.length p + String.length s)%nat.
Proof.
  induction p as [| c p IH]; [done |].
  rewrite gotime_facts.append_String. simpl. by rewrite IH.
Qed.

Lemma string_length_prefix n (s : string) :
  (n ≤ String.length s)%nat → String.length (String.substring 0 n s) = n.
Proof.
  revert s. induction n as [| n IH]; intros [| c s] Hn; cbn [String.length] in Hn.
  - done.
  - done.
  - lia.
  - cbn [String.substring String.length]. rewrite IH; lia.
Qed.

(** C7.  The options handed to [achx.ConstructFile] ask for balance
    entries exactly when the configuration does and the amount is at
    least 50.  A file that [Originate] returns has one batch; its first
    entry carries the amount to the counterparty, never to the ODFI;
    with balance entries a second entry of the same amount reverses it
    against the ODFI, and without there is none.  Every entry is assigned
    a trace number of its own: the first eight digits of the ODFI's
    routing number, then 0000001 for the entry and 0000002 for the
    offset.  So a transfer of 25 leaves one entry and one trace number. *)
Theorem Originate_balance_entries holidays LoadLocation Validate fp companyID x src dst :
  let opts := originateOptions holidays LoadLocation fp companyID x in
  (config.BalanceEntries (achx.FileConfig opts) = true
   ↔ config.BalanceEntries (config.OFileConfig (cfg fp)) = true
     ∧ 50 ≤ client.Value (client.TAmount x))
  ∧ ∀ fs,
      fundflow.Originate holidays LoadLocation (achx.ConstructFile Validate)
        fp companyID (Some x) src dst = Files fs →
      ∃ f, fs = [f]
           ∧ length (ach.Batches f) = 1%nat
           ∧ length (ach.fileEntries f)
             = (if config.BalanceEntries (achx.FileConfig opts) then 2 else 1)%nat
           ∧ length (ach.traceNumbers f) = length (ach.fileEntries f)
           ∧ (client.Value (client.TAmount x) = 25 →
              length (ach.fileEntries f) = 1%nat ∧ length (ach.traceNumbers f) = 1%nat)
           ∧ ach.traceNumbers f
             = (if config.BalanceEntries (achx.FileConfig opts)
                then [ String.substring 0 8 (config.RoutingNumber (cfg fp)) +:+ "0000001";
                       String.substring 0 8 (config.RoutingNumber (cfg fp)) +:+ "0000002" ]
                else [ String.substring 0 8 (config.RoutingNumber (cfg fp)) +:+ "0000001" ])
           ∧ NoDup (ach.traceNumbers f)
           ∧ Forall (λ tn, tn ≠ EmptyString) (ach.traceNumbers f)
           ∧ ((8 ≤ String.length (config.RoutingNumber (cfg fp)))%nat →
              Forall (λ tn, String.length tn = 15%nat) (ach.traceNumbers f))
           ∧ Forall (λ e, ach.EAmount e = client.Value (client.TAmount x))
                    (ach.fileEntries f)
           ∧ (∃ e, head (ach.fileEntries f) = Some e
                   ∧ ach.RDFIIdentification e ≠ config.RoutingNumber (cfg fp)
                   ∧ (ach.RDFIIdentification e = customers.RoutingNumber (SAccount src)
                      ∨ ach.RDFIIdentification e = customers.RoutingNumber (DAccount dst)))
           ∧ (config.BalanceEntries (achx.FileConfig opts) = false →
              Forall (λ e, ach.RDFIIdentification e ≠ config.RoutingNumber (cfg fp))
                     (ach.fileEntries f))
           ∧ (config.BalanceEntries (achx.FileConfig opts) = true →
              ∃ e o, ach.fileEntries f = [e; o]
                     ∧ ach.RDFIIdentification o = config.RoutingNumber (cfg fp)
                     ∧ ach.EDirection o ≠ ach.EDirection e).
Proof.
  intros opts. split.
  - unfold opts, originateOptions. simpl.
    rewrite andb_true_iff, Z.leb_le. reflexivity.
  - intros fs. unfold fundflow.Originate.
    destruct (String.eqb (customers.RoutingNumber (SAccount src))
                (customers.RoutingNumber (DAccount dst))) eqn:Hsame; [discriminate |].
    destruct (negb _ && negb _); [discriminate |].
    destruct (String.eqb _ _ && negb _); [discriminate |].
    fold opts. unfold achx.ConstructFile.
    destruct (Validate _) as [broken |]; [discriminate |].
    intros [= <-]. eexists. split; [reflexivity |].
    assert (Hflag : client.Value (client.TAmount x) = 25 →
                    config.BalanceEntries (achx.FileConfig opts) = false).
    { intros H25. unfold opts, originateOptions. simpl. rewrite H25. apply andb_false_r. }
    change (achx.ODFIRoutingNumber opts) with (config.RoutingNumber (cfg fp)).
    unfold achx.traceNumber.
    change (achx.padDecimal 7 1) with "0000001"%string.
    change (achx.padDecimal 7 2) with "0000002"%string.
    set (odfi := config.RoutingNumber (cfg fp)).
    set (prefix := String.substring 0 8 odfi).
    assert (Hcounter :
      (if String.eqb odfi (customers.RoutingNumber (achx.DAccount
             {| achx.DCustomer := DCustomer dst; achx.DAccount := DAccount dst;
                achx.DAccountNumber := DAccountNumber dst |}))
       then customers.RoutingNumber (SAccount src)
       else customers.RoutingNumber (DAccount dst)) ≠ odfi).
    { simpl. destruct (String.eqb_spec odfi (customers.RoutingNumber (DAccount dst)))
        as [Hd | Hd]; [| congruence].
      apply String.eqb_neq in Hsame. congruence. }
    unfold ach.traceNumbers, ach.fileEntries. cbn [ach.Batches map concat ach.Entries].
    rewrite app_nil_r.
    change (config.BalanceEntries (achx.FileConfig opts))
      with (config.BalanceEntries (config.OFileConfig (cfg fp))
            && (50 <=? client.Value (client.TAmount x))) in *.
    destruct (config.BalanceEntries (config.OFileConfig (cfg fp))
              && (50 <=? client.Value (client.TAmount x))) eqn:Hbe.
    + split; [reflexivity |]. split; [reflexivity |]. split; [reflexivity |].
      split; [intros H25; by specialize (Hflag H25) |].
      cbn [map]. split; [by destruct (String.eqb odfi _) |].
      split.
      { destruct (String.eqb odfi _); cbn [ach.TraceNumber];
          (apply NoDup_cons; split; [| apply NoDup_singleton]);
          intros Heq%list_elem_of_singleton%string_append_cancel; discriminate. }
      split.
      { destruct (String.eqb odfi _); cbn [ach.TraceNumber];
          (repeat (apply Forall_cons; split);
           [apply string_append_nonempty .. | by apply Forall_nil]). }
      split.
      { intros Hlen.
        destruct (String.eqb odfi _); cbn [ach.TraceNumber];
          (repeat (apply Forall_cons; split);
           [rewrite string_length_append; unfold prefix;
            rewrite string_length_prefix by done; reflexivity ..
           | by apply Forall_nil]). }
      split.
      { destruct (String.eqb odfi _);
          (repeat (apply Forall_cons; split); [reflexivity .. | by apply Forall_nil]). }
      split.
      { eexists. split; [reflexivity |]. split.
        - destruct (String.eqb odfi _); exact Hcounter.
        - destruct (String.eqb odfi _); [by left | by right]. }
      split; [discriminate |]. intros _. do 2 eexists. split; [reflexivity |].
      split; [reflexivity |]. by destruct (String.eqb odfi _).
    + split; [reflexivity |]. split; [reflexivity |]. split; [reflexivity |].
      split; [by intros _ |].
      cbn [map]. split; [by destruct (String.eqb odfi _) |].
      split; [apply NoDup_singleton |].
      split.
      { destruct (String.eqb odfi _); cbn [ach.TraceNumber];
          (repeat (apply Forall_cons; split);
           [apply string_append_nonempty .. | by apply Forall_nil]). }
      split.
      { intros Hlen.
        destruct (String.eqb odfi _); cbn [ach.TraceNumber];
          (repeat (apply Forall_cons; split);
           [rewrite string_length_append; unfold prefix;
            rewrite string_length_prefix by done; reflexivity ..
           | by apply Forall_nil]). }
      split.
      { destruct (String.eqb odfi _);
          (repeat (apply Forall_cons; split); [reflexivity .. | by apply Forall_nil]). }
      split.
      { eexists. split; [reflexivity |]. split.
        - destruct (String.eqb odfi _); exact Hcounter.
        - destruct (String.eqb odfi _); [by left | by right]. }
      split; [| discriminate]. intros _.
      apply Forall_cons; split; [| by apply Forall_nil].
      destruct (String.eqb odfi _); exact Hcounter.
Qed.

Lemma Originate_balance_entries_witness :
  ∃ f,
    fundflow.Originate [] testLoadLocation (achx.ConstructFile (λ _, None))
      (testFirstParty "987654320" true) "MOOV" (Some (mkTransfer 25))
      (mkSource customers.CUSTOMERSTATUS_VERIFIED "123456780" "123456")
      (mkDestination "987654320" "654321") = Files [f]
    ∧ length (ach.fileEntries f) = 1%nat
    ∧ ach.traceNumbers f = ["987654320000001"]%string.
Proof.
  destruct (proj2 (Originate_balance_entries [] testLoadLocation (λ _, None)
                     (testFirstParty "987654320" true) "MOOV" (mkTransfer 25)
                     (mkSource customers.CUSTOMERSTATUS_VERIFIED "123456780" "123456")
                     (mkDestination "987654320" "654321")) _ eq_refl)
    as [f (Hfs & _ & _ & _ & H25 & Htrace & _)].
  exists f. split; [| split].
  - rewrite <- Hfs. reflexivity.
  - apply H25. reflexivity.
  - rewrite Htrace. reflexivity.
Defined.

(** With balance entries on, a transfer of 153 comes out with the entry
    and its offset. *)
Example Originate_full_two_entries :
  ∃ f,
    fundflow.Originate [] testLoadLocation (achx.ConstructFile (λ _, None))
      (testFirstParty "987654320" true) "MOOV" (Some (mkTransfer 153))
      (mkSource customers.CUSTOMERSTATUS_VERIFIED "123456780" "123456")
      (mkDestination "987654320" "654321") = Files [f]
    ∧ ach.traceNumbers f = ["987654320000001"; "987654320000002"]%string.
Proof. eexists. split; reflexivity. Qed.

End fundflow_facts.


(** ** The transfer repository *)

Module transfers_facts.
Import gotime transfers.

(** *** Statements on lists of rows *)

Lemma head_filter_Some {A} (P : A → Prop) `{!∀ x, Decision (P x)} (l : list A) x :
  head (filter P l) = Some x → x ∈ l ∧ P x.
Proof.
  intros Hhd. apply head_Some_elem_of in Hhd.
  apply list_elem_of_filter in Hhd. tauto.
Qed.

Lemma head_filter_None {A} (P : A → Prop) `{!∀ x, Decision (P x)} (l : list A) :
  head (filter P l) = None ↔ ∀ x, x ∈ l → ¬ P x.
Proof.
  rewrite head_None. split.
  - intros Hnil x Hx HP.
    assert (Hin : x ∈ filter P l) by (apply list_elem_of_filter; done).
    rewrite Hnil in Hin. by apply not_elem_of_nil in Hin.
  - intros Hall. induction l as [| y l IH]; [done |].
    rewrite filter_cons_False.
    + apply IH. intros x Hx. apply Hall. by right.
    + apply Hall. by left.
Qed.

Lemma key_inj {A B} (f : A → B) (l : list A) x y :
  NoDup (f <$> l) → x ∈ l → y ∈ l → f x = f y → x = y.
Proof.
  induction l as [| z l IH]; intros Hnd Hx Hy Hf.
  - by apply not_elem_of_nil in Hx.
  - rewrite fmap_cons in Hnd. apply NoDup_cons in Hnd as [Hz Hnd].
    apply elem_of_cons in Hx as [-> | Hx];
      apply elem_of_cons in Hy as [-> | Hy]; try done.
    + exfalso. apply Hz. rewrite Hf. by apply list_elem_of_fmap_2.
    + exfalso. apply Hz. rewrite <- Hf. by apply list_elem_of_fmap_2.
    + by apply IH.
Qed.

Lemma updateWhere_lookup (P : TransferRow → Prop) `{!∀ r, Decision (P r)} f rows i :
  updateWhere P f rows !! i
  = (λ r, if decide (P r) then f r else r) <$> rows !! i.
Proof. unfold updateWhere. apply list_lookup_fmap. Qed.

Lemma updateWhere_id (P : TransferRow → Prop) `{!∀ r, Decision (P r)} f rows :
  (∀ r, r ∈ rows → P r → f r = r) → updateWhere P f rows = rows.
Proof.
  intros Hid. unfold updateWhere. induction rows as [| r rows IH]; [done |].
  rewrite fmap_cons. f_equal.
  - destruct (decide (P r)) as [HP |]; [| done]. apply Hid; [by left | done].
  - apply IH. intros r' Hr'. apply Hid. by right.
Qed.

Lemma setTransfers_same db : setTransfers db (transfers db) = db.
Proof. by destruct db. Qed.

(** *** Time windows *)

Lemma Truncate_day t :
  unix (Truncate t (24 * Hour)) = utcDay (unix t) * (24 * Hour).
Proof.
  unfold Truncate, utcDay. simpl.
  change (24 * Hour) with 86400. change unixZero with (- 719162 * 86400).
  replace (unix t - - 719162 * 86400) with (unix t + 719162 * 86400) by lia.
  rewrite Z_mod_plus_full.
  pose proof (Z_div_mod_eq_full (unix t) 86400). lia.
Qed.

(** An instant strictly between the start of day [d - 5] and the start of
    day [d + 6] falls on one of the days [d - 5], ..., [d + 5]. *)
Lemma window_days eed created :
  let '(min0, max0) := startOfDayAndTomorrow eed in
  unix (Add min0 (-5 * 24 * Hour)) < created →
  created < unix (Add max0 (5 * 24 * Hour)) →
  utcDay (unix eed) - 5 ≤ utcDay created ≤ utcDay (unix eed) + 5.
Proof.
  unfold startOfDayAndTomorrow. cbv zeta.
  unfold Add at 1 2 3. cbn [unix]. rewrite Truncate_day.
  unfold utcDay. change (24 * Hour) with 86400.
  change (-5 * 24 * Hour) with (-432000). change (5 * 24 * Hour) with 432000.
  intros Hlo Hhi. split.
  - apply Z.div_le_lower_bound; lia.
  - assert (created / 86400 < unix eed / 86400 + 6); [| lia].
    apply Z.div_lt_upper_bound; lia.
Qed.

Section Reads.
Variable LookupReturnCode : string → option client.ReturnCode.

Local Abbreviation getUserTransfer := (transfers.getUserTransfer LookupReturnCode).
Local Abbreviation GetTransfer := (transfers.GetTransfer LookupReturnCode).
Local Abbreviation getTransfers := (transfers.getTransfers LookupReturnCode).
Local Abbreviation LookupTransferFromReturn :=
  (transfers.LookupTransferFromReturn LookupReturnCode).

(** A transfer [getUserTransfer] hands back was scanned from a stored row
    of that id and organization that is not soft-deleted. *)
Lemma getUserTransfer_Some db transferID orgID t err :
  getUserTransfer db transferID orgID = (Some t, err) →
  err = None
  ∧ ∃ r, r ∈ transfers db
         ∧ transfer_id r = transferID ∧ organization r = orgID
         ∧ deleted_at r = None
         ∧ t = withTraces (scanTransfer r) (getTraceNumbers db transferID).1
                 (c ← return_code r; LookupReturnCode c).
Proof.
  unfold transfers.getUserTransfer.
  destruct (head (filter _ (transfers db))) as [r |] eqn:Hhead; [| discriminate].
  apply head_filter_Some in Hhead as (Hin & Hid & Horg & Hdel).
  destruct (decide _); [discriminate |]. simpl.
  intros [= <- <-]. split; [done |]. by exists r.
Qed.

Lemma getUserTransfer_live db transferID orgID t err :
  getUserTransfer db transferID orgID = (Some t, err) → readFromLiveRow db t.
Proof.
  intros H. apply getUserTransfer_Some in H as (_ & r & Hin & _ & _ & Hdel & ->).
  exists r. do 2 eexists. done.
Qed.

Lemma getUserTransfer_row db r :
  primaryKey db → r ∈ transfers db → deleted_at r = None →
  transfer_id r ≠ EmptyString →
  getUserTransfer db (transfer_id r) (organization r)
  = (Some (withTraces (scanTransfer r) (getTraceNumbers db (transfer_id r)).1
             (c ← return_code r; LookupReturnCode c)), None).
Proof.
  intros Hpk Hin Hdel Hne. unfold transfers.getUserTransfer.
  destruct (head (filter _ (transfers db))) as [r' |] eqn:Hhead.
  - apply head_filter_Some in Hhead as (Hin' & Hid & _).
    assert (r' = r) as -> by (eapply key_inj; eauto).
    destruct (decide _) as [He |]; [by simpl in He |]. done.
  - exfalso. eapply head_filter_None in Hhead; [apply Hhead | exact Hin]. done.
Qed.

(** C2.  A transfer that [LookupTransferFromReturn] hands back comes with
    no error and was read from a stored row with the amount asked for, a
    stored trace row of the trace number asked for, status PROCESSED, no
    [deleted_at], and a [created_at] strictly inside the window from the
    start of the fifth day before the effective entry date to the end of
    the fifth day after it.  The result holds one transfer or none. *)
Theorem LookupTransferFromReturn_sound db amount traceNumber eed t err :
  primaryKey db →
  LookupTransferFromReturn db amount traceNumber eed = (Some t, err) →
  err = None
  ∧ ∃ r, r ∈ transfers db
         ∧ readFromLiveRow db t
         ∧ client.TransferID t = transfer_id r
         ∧ amount_value r = client.Value amount
         ∧ client.Value (client.TAmount t) = client.Value amount
         ∧ {| trace_transfer_id := transfer_id r; trace_number := traceNumber |}
             ∈ transfer_trace_numbers db
         ∧ (traceNumber ≠ EmptyString → traceNumber ∈ client.TraceNumbers t)
         ∧ status r = client.PROCESSED
         ∧ client.Status t = client.PROCESSED
         ∧ deleted_at r = None
         ∧ client.Created t = created_at r
         ∧ (utcDay (unix eed) - 5) * (24 * Hour) < created_at r
           < (utcDay (unix eed) + 6) * (24 * Hour)
         ∧ utcDay (unix eed) - 5 ≤ utcDay (created_at r) ≤ utcDay (unix eed) + 5.
Proof.
  intros Hpk. unfold transfers.LookupTransferFromReturn.
  pose proof (window_days eed) as Hdays.
  destruct (startOfDayAndTomorrow eed) as [min0 max0] eqn:Hsd.
  destruct (head (filter _ (transfers db))) as [xf |] eqn:Hhead; [| discriminate].
  apply head_filter_Some in Hhead as (Hin & Htrace & Hamt & Hst & [Hlo Hhi] & Hdel).
  intros Hget. pose proof (getUserTransfer_live _ _ _ _ _ Hget) as Hlive.
  apply getUserTransfer_Some in Hget as (-> & r & Hin' & Hid & _ & _ & ->).
  assert (r = xf) as -> by (eapply key_inj; eauto).
  split; [done |]. exists xf.
  apply Exists_exists in Htrace as ([tid tn] & Htin & Htid & Htn). simpl in *.
  subst tid tn.
  assert (Hbounds : (utcDay (unix eed) - 5) * (24 * Hour) < created_at xf
                    < (utcDay (unix eed) + 6) * (24 * Hour)).
  { unfold startOfDayAndTomorrow in Hsd. injection Hsd as <- <-.
    unfold Add in Hlo, Hhi. cbn [unix] in Hlo, Hhi. rewrite Truncate_day in Hlo, Hhi.
    change (24 * Hour) with 86400 in *. change (-5 * 24 * Hour) with (-432000) in *.
    change (5 * 24 * Hour) with 432000 in *. lia. }
  assert (Hshown : traceNumber ≠ EmptyString →
                   traceNumber ∈ client.TraceNumbers
                     (withTraces (scanTransfer xf) (getTraceNumbers db (transfer_id xf)).1
                        (c ← return_code xf; LookupReturnCode c))).
  { intros Hne. simpl. apply list_elem_of_filter. split; [done |].
    apply list_elem_of_fmap. eexists. split; [| apply list_elem_of_filter; split; [| exact Htin]]; done. }
  repeat split; try done; try apply Hbounds; by apply (Hdays (created_at xf)).
Qed.

Lemma GetTransfer_live db transferID t err :
  GetTransfer db transferID = (Some t, err) → readFromLiveRow db t.
Proof.
  unfold transfers.GetTransfer.
  destruct (head (filter _ (transfers db))) as [r |]; [| discriminate].
  apply getUserTransfer_live.
Qed.

Lemma LookupTransferFromReturn_live db amount traceNumber eed t err :
  LookupTransferFromReturn db amount traceNumber eed = (Some t, err) →
  readFromLiveRow db t.
Proof.
  unfold transfers.LookupTransferFromReturn.
  destruct (startOfDayAndTomorrow eed) as [min0 max0].
  destruct (head (filter _ (transfers db))) as [xf |]; [| discriminate].
  apply getUserTransfer_live.
Qed.

Lemma getTransfers_loop_live db orgID ids acc t :
  (∀ t', t' ∈ acc → readFromLiveRow db t') →
  t ∈ foldl (λ acc id,
               match getUserTransfer db id orgID with
               | (Some t, None) =>
                   if decide (client.TransferID t ≠ EmptyString) then acc ++ [t] else acc
               | _ => acc
               end) acc ids →
  readFromLiveRow db t.
Proof.
  revert acc. induction ids as [| id ids IH]; intros acc Hacc; simpl.
  - apply Hacc.
  - apply IH.
    destruct (getUserTransfer db id orgID) as [[t0 |] [e |]] eqn:Hget; try done.
    destruct (decide _); [| done].
    intros t' [Ht' | Ht']%elem_of_app; [by apply Hacc |].
    apply list_elem_of_singleton in Ht' as ->.
    by eapply getUserTransfer_live.
Qed.

Lemma getTransfers_live db orgID params t :
  t ∈ (getTransfers db orgID params).1 → readFromLiveRow db t.
Proof.
  unfold transfers.getTransfers. simpl. apply getTransfers_loop_live.
  intros t' Ht'. by apply not_elem_of_nil in Ht'.
Qed.

End Reads.

(** *** Updates *)

Lemma readFromLiveRow_id db t r :
  primaryKey db → readFromLiveRow db t → r ∈ transfers db →
  client.TransferID t = transfer_id r → deleted_at r = None.
Proof.
  intros Hpk (r' & traces & rc & Hin' & Hdel' & ->) Hin Hid. simpl in Hid.
  by assert (r' = r) as <- by (eapply key_inj; eauto).
Qed.

Lemma updateWhere_ids (P : TransferRow → Prop) `{!∀ r, Decision (P r)} f rows :
  (∀ r, transfer_id (f r) = transfer_id r) →
  transfer_id <$> updateWhere P f rows = transfer_id <$> rows.
Proof.
  intros Hf. unfold updateWhere. rewrite <- list_fmap_compose.
  apply list_fmap_ext. intros i r _. simpl. by destruct (decide (P r)).
Qed.

Lemma updateWhere_elem (P : TransferRow → Prop) `{!∀ r, Decision (P r)} f rows r' :
  r' ∈ updateWhere P f rows →
  (r' ∈ rows ∧ ¬ P r') ∨ ∃ r, r ∈ rows ∧ P r ∧ r' = f r.
Proof.
  unfold updateWhere. intros (r & -> & Hin)%list_elem_of_fmap.
  destruct (decide (P r)); [right; by exists r | by left].
Qed.

Lemma updateWhere_wellFormed (P : TransferRow → Prop) `{!∀ r, Decision (P r)} f db :
  (∀ r, transfer_id (f r) = transfer_id r) →
  (∀ r, P r → deleted_at (f r) ≠ None → status (f r) = client.PENDING) →
  wellFormed db → wellFormed (execUpdate P f db).1.
Proof.
  intros Hid Hdel [Hpk Hdp]. split.
  - unfold primaryKey. simpl. by rewrite updateWhere_ids.
  - intros r' [[Hin _] | (r & Hin & HP & ->)]%updateWhere_elem.
    + by apply Hdp.
    + by apply Hdel.
Qed.

Lemma execUpdate_deleted_rows (P : TransferRow → Prop) `{!∀ r, Decision (P r)} f db i r :
  (∀ r, P r → deleted_at r = None) →
  transfers db !! i = Some r → deleted_at r ≠ None →
  transfers (execUpdate P f db).1 !! i = Some r.
Proof.
  intros Hlive Hi Hdel. simpl. rewrite updateWhere_lookup, Hi. simpl.
  destruct (decide (P r)) as [HP |]; [| done]. by apply Hlive in HP.
Qed.

Lemma wellFormed_empty : wellFormed emptyDB.
Proof. split; [constructor | intros r Hr; by apply not_elem_of_nil in Hr]. Qed.

Lemma UpdateTransferStatus_wellFormed db transferID s :
  wellFormed db → wellFormed (UpdateTransferStatus db transferID s).1.
Proof.
  apply updateWhere_wellFormed; [done |]. intros r [_ Hlive] Hdel. by simpl in Hdel.
Qed.

Lemma SaveReturnCode_eq db transferID returnCode :
  SaveReturnCode db transferID returnCode
  = execUpdate (λ r, transfer_id r = transferID ∧ return_code r = None
                     ∧ deleted_at r = None)
               (λ r, setReturnCode r returnCode) db.
Proof. reflexivity. Qed.

Lemma SaveReturnCode_wellFormed db transferID returnCode :
  wellFormed db → wellFormed (SaveReturnCode db transferID returnCode).1.
Proof.
  rewrite SaveReturnCode_eq.
  apply updateWhere_wellFormed; [done |]. intros r (_ & _ & Hlive) Hdel. by simpl in Hdel.
Qed.

Lemma WriteUserTransfer_wellFormed db now orgID transfer :
  wellFormed db → wellFormed (WriteUserTransfer db now orgID transfer).1.
Proof.
  intros [Hpk Hdp]. unfold WriteUserTransfer.
  destruct (decide _) as [Hdup | Hfresh]; [done |]. split.
  - unfold primaryKey. simpl. rewrite fmap_app. apply NoDup_app. split; [done |].
    split; [| apply NoDup_singleton].
    intros id Hid Hid'. simpl in Hid'. apply list_elem_of_singleton in Hid' as ->. done.
  - intros r [Hin | Hin]%elem_of_app; [by apply Hdp |].
    apply list_elem_of_singleton in Hin as ->. done.
Qed.

Lemma deleteUserTransfer_wellFormed db now orgID transferID :
  wellFormed db → wellFormed (deleteUserTransfer db now orgID transferID).1.
Proof.
  intros Hwf. unfold deleteUserTransfer. simpl.
  destruct (head (filter _ (transfers db))) as [r |]; [| done].
  destruct (decide _); [done |]. simpl.
  apply (updateWhere_wellFormed
           (λ r, transfer_id r = transferID ∧ organization r = orgID
                 ∧ status r = client.PENDING ∧ deleted_at r = None)
           (λ r, setDeletedAt r now) db); [done | | done].
  by intros r' (_ & _ & Hst & _) _.
Qed.

Lemma saveTraceNumbers_transfers db transferID traceNumbers :
  transfers (saveTraceNumbers db transferID traceNumbers).1 = transfers db.
Proof.
  unfold saveTraceNumbers.
  set (step := λ (acc : Tx * option error) (tn : string), _).
  assert (Hinv : ∀ tns acc,
            transfers (origin acc.1) = transfers db →
            transfers (pending acc.1) = transfers db →
            transfers (origin (foldl step acc tns).1) = transfers db
            ∧ transfers (pending (foldl step acc tns).1) = transfers db).
  { induction tns as [| tn tns IH]; intros [tx e] Ho Hp; simpl; [done |].
    apply IH; destruct e; simpl; try done; by destruct (decide _). }
  destruct (Hinv traceNumbers (Begin db, None)) as [Ho Hp]; [done | done |].
  by destruct (foldl step (Begin db, None) traceNumbers) as [tx' [e |]].
Qed.

Lemma saveTraceNumbers_wellFormed db transferID traceNumbers :
  wellFormed db → wellFormed (saveTraceNumbers db transferID traceNumbers).1.
Proof.
  intros [Hpk Hdp]. unfold wellFormed, primaryKey, deletedArePending.
  by rewrite saveTraceNumbers_transfers.
Qed.

(** Every state the repository gets to keeps the primary key and has only
    pending transfers soft-deleted. *)
Lemma reachable_wellFormed db : reachable db → wellFormed db.
Proof.
  induction 1 as [| db db' _ IH Hw]; [apply wellFormed_empty |].
  destruct Hw.
  - by apply WriteUserTransfer_wellFormed.
  - by apply UpdateTransferStatus_wellFormed.
  - by apply deleteUserTransfer_wellFormed.
  - by apply SaveReturnCode_wellFormed.
  - by apply saveTraceNumbers_wellFormed.
Qed.

Lemma exampleDB_wellFormed : wellFormed exampleDB.
Proof.
  split.
  - unfold primaryKey. simpl. repeat (apply NoDup_cons; split); try apply NoDup_nil;
      rewrite ?elem_of_cons, ?elem_of_nil; intuition discriminate.
  - intros r. simpl. rewrite !elem_of_cons, elem_of_nil.
    intros [-> | [-> | [-> | []]]]; simpl; done.
Qed.

(** What a delete by the transfer's own organization and id does. *)
Lemma deleteUserTransfer_own db now r :
  primaryKey db → r ∈ transfers db →
  deleteUserTransfer db now (organization r) (transfer_id r) =
  if decide (deleted_at r = None) then
    if decide (status r = client.PENDING) then
      (setTransfers db
         ((λ x, if decide (transfer_id x = transfer_id r ∧ deleted_at x = None)
                then setDeletedAt x now else x) <$> transfers db), None)
    else
      (db, Some (Errorf ("transferID=" +:+ transfer_id r +:+ " is not in PENDING status")))
  else (db, None).
Proof.
  intros Hpk Hin. unfold deleteUserTransfer. simpl.
  destruct (head (filter _ (transfers db))) as [r' |] eqn:Hhead.
  - apply head_filter_Some in Hhead as (Hin' & Hid & Horg & Hdel).
    assert (r' = r) as -> by (eapply key_inj; eauto).
    destruct (decide (deleted_at r = None)); [| done].
    destruct (decide (status r ≠ client.PENDING)) as [Hne | Heq].
    + by destruct (decide (status r = client.PENDING)).
    + apply dec_stable in Heq.
      destruct (decide (status r = client.PENDING)); [| done].
      simpl. unfold setTransfers, updateWhere. simpl. do 2 f_equal.
      apply list_fmap_ext. intros i x Hx. apply list_elem_of_lookup_2 in Hx.
      destruct (decide (transfer_id x = transfer_id r ∧ deleted_at x = None))
        as [[Hxid Hxdel] |].
      * assert (x = r) as -> by (eapply key_inj; eauto). by rewrite decide_True.
      * rewrite decide_False; [done |]. intros (Hxid & _ & _ & Hxdel). tauto.
  - destruct (decide (deleted_at r = None)) as [Hdel |]; [| done].
    eapply head_filter_None in Hhead; [by exfalso; apply Hhead | exact Hin].
Qed.

(** C3.  In a stored state (primary key kept, only pending transfers
    soft-deleted), deleting a stored transfer by its organization and id
    returns no error exactly when its status is PENDING.  It then is
    soft-deleted and no other row has changed; with any other status the
    call returns an error and the stored state is the one before. *)
Theorem deleteUserTransfer_iff_pending db now r :
  wellFormed db → r ∈ transfers db →
  let res := deleteUserTransfer db now (organization r) (transfer_id r) in
  (res.2 = None ↔ status r = client.PENDING)
  ∧ (status r = client.PENDING →
     transfers res.1
     = (λ x, if decide (transfer_id x = transfer_id r ∧ deleted_at x = None)
             then setDeletedAt x now else x) <$> transfers db
     ∧ transfer_trace_numbers res.1 = transfer_trace_numbers db
     ∧ ∃ r', r' ∈ transfers res.1 ∧ transfer_id r' = transfer_id r
             ∧ status r' = client.PENDING ∧ deleted_at r' ≠ None)
  ∧ (status r ≠ client.PENDING →
     res.1 = db
     ∧ res.2 = Some (Errorf ("transferID=" +:+ transfer_id r
                             +:+ " is not in PENDING status"))).
Proof.
  intros [Hpk Hdp] Hin res. unfold res. rewrite deleteUserTransfer_own by done.
  destruct (decide (deleted_at r = None)) as [Hlive | Hdel].
  - destruct (decide (status r = client.PENDING)) as [Hst | Hst]; simpl.
    + split; [done |]. split; [| done]. intros _. split; [done |]. split; [done |].
      exists (setDeletedAt r now). split; [| done].
      apply list_elem_of_fmap. exists r. by rewrite decide_True.
    + split; [split; [discriminate | done] |]. split; [done |]. done.
  - assert (Hst : status r = client.PENDING) by by apply Hdp.
    simpl. split; [done |]. split; [| done]. intros _. split.
    + symmetry. rewrite <- (list_fmap_id (transfers db)) at 2.
      apply list_fmap_ext. intros i x Hx. apply list_elem_of_lookup_2 in Hx.
      destruct (decide _) as [[Hxid Hxdel] |]; [| done].
      by assert (x = r) as -> by (eapply key_inj; eauto).
    + split; [done |]. by exists r.
Qed.

Lemma deleteUserTransfer_iff_pending_witness :
  (deleteUserTransfer exampleDB 0 "moov" "t2").2 = None
  ∧ (deleteUserTransfer exampleDB 0 "moov" "t1").2 ≠ None.
Proof.
  split.
  - apply (proj1 (deleteUserTransfer_iff_pending exampleDB 0
                    (exampleRow "t2" client.PENDING (unix (Date 2021 4 20 10 0)) None)
                    exampleDB_wellFormed
                    (list_elem_of_further _ _ _ (list_elem_of_here _ _)))).
    reflexivity.
  - intros Hnil.
    apply (proj1 (deleteUserTransfer_iff_pending exampleDB 0
                    (exampleRow "t1" client.PROCESSED (unix (Date 2021 4 19 10 0)) None)
                    exampleDB_wellFormed (list_elem_of_here _ _))) in Hnil.
    discriminate Hnil.
Defined.

Lemma LookupTransferFromReturn_sound_witness :
  ∃ t,
    transfers.LookupTransferFromReturn (λ _, None) exampleDB
      {| client.Currency := "USD"; client.Value := 1234 |} "T123" (Date 2021 4 21 0 0)
    = (Some t, None)
    ∧ client.Status t = client.PROCESSED
    ∧ utcDay (unix (Date 2021 4 21 0 0)) - 5 ≤ utcDay (client.Created t)
      ≤ utcDay (unix (Date 2021 4 21 0 0)) + 5.
Proof.
  eexists. split; [vm_compute; reflexivity |].
  destruct (LookupTransferFromReturn_sound (λ _, None) exampleDB
              {| client.Currency := "USD"; client.Value := 1234 |} "T123"
              (Date 2021 4 21 0 0) _ None (proj1 exampleDB_wellFormed) eq_refl)
    as (_ & r & _ & _ & _ & _ & _ & _ & _ & _ & Hst & _ & Hcr & _ & Hdays).
  split; [exact Hst |]. rewrite <- Hcr in Hdays. exact Hdays.
Defined.

(** C4.  [SaveReturnCode] returns no error, also when it matches no row;
    it writes the code exactly on the rows of that id that are not
    soft-deleted and hold no code yet, so a row that holds a code is left
    as it is, and a second call for the same transfer changes nothing. *)
Theorem SaveReturnCode_never_overwrites db transferID returnCode :
  (SaveReturnCode db transferID returnCode).2 = None
  ∧ (∀ i r, transfers db !! i = Some r →
            transfers (SaveReturnCode db transferID returnCode).1 !! i
            = Some (if decide (transfer_id r = transferID ∧ return_code r = None
                               ∧ deleted_at r = None)
                    then setReturnCode r returnCode else r))
  ∧ (∀ i r c, transfers db !! i = Some r → return_code r = Some c →
              transfers (SaveReturnCode db transferID returnCode).1 !! i = Some r)
  ∧ length (transfers (SaveReturnCode db transferID returnCode).1)
    = length (transfers db)
  ∧ (∀ returnCode',
       (SaveReturnCode (SaveReturnCode db transferID returnCode).1
          transferID returnCode').1
       = (SaveReturnCode db transferID returnCode).1).
Proof.
  rewrite SaveReturnCode_eq. simpl. split; [done |]. split; [| split; [| split]].
  - intros i r Hi. by rewrite updateWhere_lookup, Hi.
  - intros i r c Hi Hc. rewrite updateWhere_lookup, Hi. simpl.
    rewrite decide_False; [done |]. intros (_ & Hnone & _). congruence.
  - unfold updateWhere. by rewrite length_fmap.
  - intros returnCode'. unfold setTransfers. simpl. f_equal.
    apply updateWhere_id. intros r' Hr' (Hid & Hnone & Hlive). exfalso.
    apply updateWhere_elem in Hr' as [[_ HnP] | (r & Hr & HP & ->)]; [| done].
    by apply HnP.
Qed.

(** C10.  Every transfer a read hands back was read from a stored row
    that is not soft-deleted, so under the primary key no read shows a
    soft-deleted transfer; [UpdateTransferStatus] and [SaveReturnCode] leave
    every soft-deleted row in its place as it was; and a delete of an id
    that is not stored, or only stored soft-deleted, returns no error and
    changes nothing. *)
Theorem soft_deleted_invisible_and_immutable LookupReturnCode db :
  (∀ orgID params t,
     t ∈ (getTransfers LookupReturnCode db orgID params).1 → readFromLiveRow db t)
  ∧ (∀ transferID orgID t err,
       getUserTransfer LookupReturnCode db transferID orgID = (Some t, err) →
       readFromLiveRow db t)
  ∧ (∀ transferID t err,
       GetTransfer LookupReturnCode db transferID = (Some t, err) →
       readFromLiveRow db t)
  ∧ (∀ amount traceNumber eed t err,
       LookupTransferFromReturn LookupReturnCode db amount traceNumber eed
       = (Some t, err) →
       readFromLiveRow db t)
  ∧ (∀ t r, primaryKey db → readFromLiveRow db t → r ∈ transfers db →
            deleted_at r ≠ None → client.TransferID t ≠ transfer_id r)
  ∧ (∀ transferID s i r,
       transfers db !! i = Some r → deleted_at r ≠ None →
       transfers (UpdateTransferStatus db transferID s).1 !! i = Some r)
  ∧ (∀ transferID returnCode i r,
       transfers db !! i = Some r → deleted_at r ≠ None →
       transfers (SaveReturnCode db transferID returnCode).1 !! i = Some r)
  ∧ (∀ now orgID transferID,
       (∀ r, r ∈ transfers db → transfer_id r = transferID → deleted_at r ≠ None) →
       deleteUserTransfer db now orgID transferID = (db, None)).
Proof.
  split_and!.
  - apply getTransfers_live.
  - apply getUserTransfer_live.
  - apply GetTransfer_live.
  - apply LookupTransferFromReturn_live.
  - intros t r Hpk Hlive Hin Hdel Hid. apply Hdel. by eapply readFromLiveRow_id.
  - intros transferID s i r. apply execUpdate_deleted_rows. by intros r' [_ Hl].
  - intros transferID returnCode i r. rewrite SaveReturnCode_eq.
    apply execUpdate_deleted_rows. by intros r' (_ & _ & Hl).
  - intros now orgID transferID Hgone. unfold deleteUserTransfer. simpl.
    destruct (head (filter _ (transfers db))) as [r |] eqn:Hhead; [| done].
    apply head_filter_Some in Hhead as (Hin & Hid & _ & Hdel).
    by apply Hgone in Hin.
Qed.

Lemma soft_deleted_invisible_and_immutable_witness :
  deleteUserTransfer exampleDB 0 "moov" "t3" = (exampleDB, None)
  ∧ deleteUserTransfer exampleDB 0 "moov" "t9" = (exampleDB, None)
  ∧ transfers (UpdateTransferStatus exampleDB "t3" client.CANCELED).1 !! 2%nat
    = transfers exampleDB !! 2%nat.
Proof.
  pose proof (soft_deleted_invisible_and_immutable (λ _, None) exampleDB)
    as (_ & _ & _ & _ & _ & Hupd & _ & Hdel).
  split_and!.
  - apply Hdel. intros r. simpl. rewrite !elem_of_cons, elem_of_nil.
    intros [-> | [-> | [-> | []]]]; simpl; done.
  - apply Hdel. intros r. simpl. rewrite !elem_of_cons, elem_of_nil.
    intros [-> | [-> | [-> | []]]]; simpl; done.
  - by apply Hupd.
Defined.

End transfers_facts.


(** ** Outbound file names *)

Module upload_facts.
Import upload.

(** [TestFilenameTemplate__RoundSequenceNumber] and
    [TestFilenameTemplate__ACHFilenameSeq]. *)
Example test_RoundSequenceNumber :
  RoundSequenceNumber 0 = "0"%string ∧ RoundSequenceNumber 10 = "A"%string.
Proof. split; reflexivity. Qed.

Example test_ACHFilenameSeq :
  ACHFilenameSeq <$>
    [ ""; "20210102-C.ach"; "20060102-0830-987654320-1.ach";
      "20060102-987654320-1.ach"; "20060102-987654320-2.ach.gpg";
      "my-20060102-987654320-3.ach"; "20060102-B-987654320.ach" ]%string
  = [0; 12; 1; 1; 2; 3; 11]%nat.
Proof. reflexivity. Qed.

(** [TestFilenameTemplate] and [TestFilenameTemplate__functions], on a
    clock that reads 2021-04-19 16:20: the default template, the template
    without routing number, text alone, and the two functions. *)
Example test_FilenameTemplate :
  RenderACHFilename testFormatNow testGetenv 0 DefaultFilenameTemplate
    {| RoutingNumber := "987654320"; GPG := true |}
  = inl "20210419-1620-987654320.ach.gpg"%string
  ∧ RenderACHFilename testFormatNow testGetenv 0 lindenTemplate
      {| RoutingNumber := "987654320"; GPG := true |}
    = inl "20210419.ach"%string
  ∧ RenderACHFilename testFormatNow testGetenv 0 [Text "static-template"]
      {| RoutingNumber := ""; GPG := false |}
    = inl "static-template"%string
  ∧ RenderACHFilename testFormatNow testGetenv 0 [EnvFn "PATH"]
      {| RoutingNumber := ""; GPG := false |}
    = inl (testGetenv "PATH")
  ∧ RenderACHFilename testFormatNow testGetenv 0 [DateFn "20060102"]
      {| RoutingNumber := ""; GPG := false |}
    = inl (testFormatNow "20060102").
Proof. repeat split; reflexivity. Qed.


Lemma noSeparator_cons c s :
  noSeparator (String c s) = true →
  Ascii.eqb c "-" = false ∧ Ascii.eqb c "." = false ∧ noSeparator s = true.
Proof.
  simpl. rewrite !andb_true_iff, !negb_true_iff. tauto.
Qed.

Lemma stem_app a b : noSeparator a = true → stem (a +:+ b) = a +:+ stem b.
Proof.
  induction a as [| c a IH]; [done |].
  intros (_ & Hdot & Ha)%noSeparator_cons. simpl. rewrite Hdot.
  by rewrite IH.
Qed.

Lemma splitDash_app a b :
  noSeparator a = true → splitDash (a +:+ String "-" b) = a :: splitDash b.
Proof.
  induction a as [| c a IH]; [done |].
  intros (Hdash & _ & Ha)%noSeparator_cons. simpl. rewrite Hdash. by rewrite IH.
Qed.

Lemma stem_dash s : stem (String "-" s) = String "-" (stem s).
Proof. reflexivity. Qed.

(** A dash-separated part that is no sequence character is passed over. *)
Lemma ACHFilenameSeq_part part rest :
  plainField part →
  ACHFilenameSeq (part +:+ "-" +:+ rest) = ACHFilenameSeq rest.
Proof.
  intros [Hsep Hplain]. unfold ACHFilenameSeq.
  rewrite gotime_facts.append_String, gotime_facts.append_empty_l.
  rewrite stem_app, stem_dash, splitDash_app by done.
  cbn [firstSeq]. by rewrite Hplain.
Qed.



Section Render.
Variable formatNow : string → string.
Variable getenv : string → string.
Variable seq : nat.

Local Abbreviation RenderACHFilename := (upload.RenderACHFilename formatNow getenv seq).


(** The default template has no sequence part: whatever the sequence
    number, [ACHFilenameSeq] of the name it renders is 0. *)
Lemma DefaultFilenameTemplate_no_sequence data :
  plainField (formatNow "20060102") → plainField (formatNow "1504") →
  plainField (RoutingNumber data) →
  RenderACHFilename DefaultFilenameTemplate data
  = inl (formatNow "20060102" +:+ "-" +:+ formatNow "1504" +:+ "-"
         +:+ RoutingNumber data +:+ ".ach"
         +:+ (if GPG data then ".gpg" else EmptyString))
  ∧ ACHFilenameSeq (formatNow "20060102" +:+ "-" +:+ formatNow "1504" +:+ "-"
                    +:+ RoutingNumber data +:+ ".ach"
                    +:+ (if GPG data then ".gpg" else EmptyString)) = 0%nat.
Proof.
  intros Hd Ht [Hsep Hplain]. split.
  - destruct data as [routing []]; reflexivity.
  - rewrite (ACHFilenameSeq_part _ _ Hd), (ACHFilenameSeq_part _ _ Ht).
    unfold ACHFilenameSeq. rewrite stem_app by done.
    replace (stem (".ach" +:+ (if GPG data then ".gpg" else EmptyString)))
      with EmptyString by reflexivity.
    assert (Hsplit : ∀ s, noSeparator s = true → splitDash (s +:+ "") = [s]).
    { induction s as [| c s IH]; [done |].
      intros (Hdash & _ & Hs)%noSeparator_cons.
      rewrite gotime_facts.append_String. cbn [splitDash]. rewrite Hdash.
      by rewrite IH. }
    rewrite Hsplit by done. cbn [firstSeq]. by rewrite Hplain.
Qed.

End Render.


End upload_facts.


(** * Further properties *)

(** ** The repository: reads after writes *)

Module transfers_more.
Import gotime transfers transfers_facts.

Section Reads.
Variable LookupReturnCode : string → option client.ReturnCode.

Local Abbreviation getUserTransfer := (transfers.getUserTransfer LookupReturnCode).
Local Abbreviation GetTransfer := (transfers.GetTransfer LookupReturnCode).
Local Abbreviation getTransfers := (transfers.getTransfers LookupReturnCode).
Local Abbreviation LookupTransferFromReturn :=
  (transfers.LookupTransferFromReturn LookupReturnCode).
Local Abbreviation readRow := (transfers.readRow LookupReturnCode).

(** The first live row of an id and organization decides [getUserTransfer]. *)
Lemma getUserTransfer_first db transferID orgID r :
  head (filter (λ r, transfer_id r = transferID ∧ organization r = orgID
                     ∧ deleted_at r = None) (transfers db)) = Some r →
  getUserTransfer db transferID orgID
  = if decide (transferID = EmptyString) then (None, None)
    else (Some (readRow db r), None).
Proof.
  intros Hhead. unfold transfers.getUserTransfer. rewrite Hhead.
  apply head_filter_Some in Hhead as (_ & <- & _). simpl.
  by destruct (decide (transfer_id r = EmptyString)).
Qed.

Lemma getUserTransfer_none db transferID orgID :
  (∀ r, r ∈ transfers db → transfer_id r = transferID → organization r = orgID →
        deleted_at r ≠ None) →
  getUserTransfer db transferID orgID = (None, Some ErrNoRows).
Proof.
  intros Hnone. unfold transfers.getUserTransfer.
  destruct (head (filter _ (transfers db))) as [r |] eqn:Hhead; [| done].
  apply head_filter_Some in Hhead as (Hin & Hid & Horg & Hdel).
  by destruct (Hnone r).
Qed.

Lemma GetTransfer_none db transferID :
  (∀ r, r ∈ transfers db → transfer_id r = transferID → deleted_at r ≠ None) →
  GetTransfer db transferID = (None, Some ErrNoRows).
Proof.
  intros Hnone. unfold transfers.GetTransfer.
  destruct (head (filter _ (transfers db))) as [r |] eqn:Hhead; [| done].
  apply head_filter_Some in Hhead as (Hin & Hid & Hdel).
  by destruct (Hnone r).
Qed.

(** Under the primary key a live row of a non-empty id is what both
    single reads return. *)
Lemma GetTransfer_row db r :
  primaryKey db → r ∈ transfers db → deleted_at r = None →
  transfer_id r ≠ EmptyString →
  GetTransfer db (transfer_id r) = (Some (readRow db r), None).
Proof.
  intros Hpk Hin Hdel Hne. unfold transfers.GetTransfer.
  destruct (head (filter _ (transfers db))) as [r' |] eqn:Hhead.
  - apply head_filter_Some in Hhead as (Hin' & Hid & _).
    assert (r' = r) as -> by (eapply key_inj; eauto).
    by apply getUserTransfer_row.
  - exfalso. eapply head_filter_None in Hhead; [apply Hhead | exact Hin]. done.
Qed.

(** X1.  A transfer written under a fresh, non-empty id is read back at
    once by [getUserTransfer] (for the organization it was written for)
    and by [GetTransfer]: with the id, amount, endpoints, description,
    status and same-day flag it was written with, created at the time of
    the write, and with no processing time and no return code, whatever
    the value written carried in those fields. *)
Theorem WriteUserTransfer_read_back db now orgID tr :
  client.TransferID tr ∉ transfer_id <$> transfers db →
  client.TransferID tr ≠ EmptyString →
  (WriteUserTransfer db now orgID tr).2 = None
  ∧ ∃ t,
      getUserTransfer (WriteUserTransfer db now orgID tr).1 (client.TransferID tr) orgID
      = (Some t, None)
      ∧ GetTransfer (WriteUserTransfer db now orgID tr).1 (client.TransferID tr)
        = (Some t, None)
      ∧ client.TransferID t = client.TransferID tr
      ∧ client.TAmount t = client.TAmount tr
      ∧ client.Source t = client.Source tr
      ∧ client.Destination t = client.Destination tr
      ∧ client.Description t = client.Description tr
      ∧ client.Status t = client.Status tr
      ∧ client.SameDay t = client.SameDay tr
      ∧ client.Created t = now
      ∧ client.ProcessedAt t = None
      ∧ client.TReturnCode t = None
      ∧ client.TraceNumbers t = (getTraceNumbers db (client.TransferID tr)).1.
Proof.
  intros Hfresh Hne. unfold WriteUserTransfer.
  destruct (decide _) as [Hdup |]; [done |]. simpl. split; [done |].
  set (row := {| transfer_id := client.TransferID tr; organization := orgID |}).
  set (db' := setTransfers db (transfers db ++ [row])).
  assert (Hnot : ∀ r, r ∈ transfers db → transfer_id r ≠ client.TransferID tr).
  { intros r Hr Hid. apply Hfresh. rewrite <- Hid. by apply list_elem_of_fmap_2. }
  assert (Huser : head (filter (λ r, transfer_id r = client.TransferID tr
                                      ∧ organization r = orgID ∧ deleted_at r = None)
                          (transfers db')) = Some row).
  { simpl. rewrite filter_app, (filter_cons_True _ row) by done.
    replace (filter _ (transfers db)) with (@nil TransferRow); [done |].
    symmetry. apply head_None, head_filter_None. intros r Hr [Hid _]. by eapply Hnot. }
  assert (Hget : head (filter (λ r, transfer_id r = client.TransferID tr
                                     ∧ deleted_at r = None)
                         (transfers db')) = Some row).
  { simpl. rewrite filter_app, (filter_cons_True _ row) by done.
    replace (filter _ (transfers db)) with (@nil TransferRow); [done |].
    symmetry. apply head_None, head_filter_None. intros r Hr [Hid _]. by eapply Hnot. }
  exists (readRow db' row). split_and!; try done.
  - rewrite (getUserTransfer_first _ _ _ _ Huser). by destruct (decide _).
  - unfold transfers.GetTransfer. rewrite Hget. simpl.
    rewrite (getUserTransfer_first _ _ _ _ Huser). by destruct (decide _).
  - by destruct tr as [? [] ? ? ? ? ? ? ? ? ?].
  - by destruct tr as [? ? [] ? ? ? ? ? ? ? ?].
  - by destruct tr as [? ? ? [] ? ? ? ? ? ? ?].
Qed.

(** X2.  The empty id is never read: [getUserTransfer] returns no transfer
    for it; when a live row of the empty id is stored for the
    organization it returns no error either, and otherwise it returns
    [sql.ErrNoRows]. *)
Theorem getUserTransfer_empty_id db orgID :
  (∀ t err, getUserTransfer db EmptyString orgID ≠ (Some t, err))
  ∧ ((∃ r, r ∈ transfers db ∧ transfer_id r = EmptyString ∧ organization r = orgID
           ∧ deleted_at r = None) →
     getUserTransfer db EmptyString orgID = (None, None))
  ∧ ((¬ ∃ r, r ∈ transfers db ∧ transfer_id r = EmptyString ∧ organization r = orgID
             ∧ deleted_at r = None) →
     getUserTransfer db EmptyString orgID = (None, Some ErrNoRows)).
Proof.
  split_and!.
  - intros t err. unfold transfers.getUserTransfer.
    destruct (head (filter _ (transfers db))) as [r |] eqn:Hhead; [| done].
    apply head_filter_Some in Hhead as (_ & Hid & _). simpl.
    by destruct (decide (transfer_id r = EmptyString)).
  - intros (r & Hin & Hid & Horg & Hdel).
    destruct (head (filter (λ r, transfer_id r = EmptyString ∧ organization r = orgID
                                 ∧ deleted_at r = None) (transfers db)))
      as [r' |] eqn:Hhead.
    + by rewrite (getUserTransfer_first _ _ _ _ Hhead).
    + exfalso. eapply head_filter_None in Hhead; [apply Hhead | exact Hin]. done.
  - intros Hnone. unfold transfers.getUserTransfer.
    destruct (head (filter _ (transfers db))) as [r |] eqn:Hhead; [| done].
    apply head_filter_Some in Hhead as (Hin & Hid & Horg & Hdel).
    destruct Hnone. by exists r.
Qed.

(** X3.  Under the primary key another organization neither reads nor
    deletes a stored transfer: [getUserTransfer] answers [sql.ErrNoRows],
    and [deleteUserTransfer] returns no error and changes nothing. *)
Theorem other_organization_is_kept_out db now r orgID :
  primaryKey db → r ∈ transfers db → orgID ≠ organization r →
  getUserTransfer db (transfer_id r) orgID = (None, Some ErrNoRows)
  ∧ deleteUserTransfer db now orgID (transfer_id r) = (db, None).
Proof.
  intros Hpk Hin Horg.
  assert (Hnone : ∀ r', r' ∈ transfers db → transfer_id r' = transfer_id r →
                        organization r' ≠ orgID).
  { intros r' Hin' Hid. by assert (r' = r) as -> by (eapply key_inj; eauto). }
  split.
  - apply getUserTransfer_none. intros r' Hin' Hid Ho. by destruct (Hnone r').
  - unfold deleteUserTransfer. simpl.
    destruct (head (filter _ (transfers db))) as [r' |] eqn:Hhead; [| done].
    apply head_filter_Some in Hhead as (Hin' & Hid & Ho & _). by destruct (Hnone r').
Qed.

(** X4.  Once a pending transfer is deleted by its organization, both
    single reads answer [sql.ErrNoRows] for it, deleting it again returns
    no error and changes nothing, and its trace numbers are still stored. *)
Theorem deleteUserTransfer_then_reads db now r :
  primaryKey db → r ∈ transfers db → deleted_at r = None →
  status r = client.PENDING →
  let db' := (deleteUserTransfer db now (organization r) (transfer_id r)).1 in
  getUserTransfer db' (transfer_id r) (organization r) = (None, Some ErrNoRows)
  ∧ GetTransfer db' (transfer_id r) = (None, Some ErrNoRows)
  ∧ (∀ now', deleteUserTransfer db' now' (organization r) (transfer_id r) = (db', None))
  ∧ getTraceNumbers db' (transfer_id r) = getTraceNumbers db (transfer_id r).
Proof.
  intros Hpk Hin Hlive Hst db'. unfold db'.
  rewrite deleteUserTransfer_own by done.
  rewrite decide_True by done. rewrite decide_True by done. simpl.
  set (rows := (λ x, _) <$> transfers db).
  assert (Hgone : ∀ r', r' ∈ rows → transfer_id r' = transfer_id r → deleted_at r' ≠ None).
  { intros r' (x & -> & Hx)%list_elem_of_fmap Hid.
    destruct (decide (transfer_id x = transfer_id r ∧ deleted_at x = None))
      as [[_ _] | Hno]; [done |].
    intros Hdel. apply Hno. by split. }
  split_and!.
  - apply getUserTransfer_none. intros r' Hin' Hid _. by apply Hgone.
  - apply GetTransfer_none. intros r' Hin' Hid. by apply Hgone.
  - intros now'. unfold deleteUserTransfer. simpl.
    destruct (head (filter _ rows)) as [r' |] eqn:Hhead; [| done].
    apply head_filter_Some in Hhead as (Hin' & Hid & _ & Hdel). by destruct (Hgone r').
  - done.
Qed.

(** X5.  [UpdateTransferStatus] sets any status on a live transfer,
    whatever status it had, and returns no error; [GetTransfer] then shows
    the new status with every other field as before.  For an id that is
    not stored, or only stored soft-deleted, it returns no error either
    and changes nothing. *)
Theorem UpdateTransferStatus_then_GetTransfer db r s :
  primaryKey db → r ∈ transfers db → deleted_at r = None →
  transfer_id r ≠ EmptyString →
  (UpdateTransferStatus db (transfer_id r) s).2 = None
  ∧ (∃ t0 t,
       GetTransfer db (transfer_id r) = (Some t0, None)
       ∧ GetTransfer (UpdateTransferStatus db (transfer_id r) s).1 (transfer_id r)
         = (Some t, None)
       ∧ client.Status t = s
       ∧ client.TransferID t = client.TransferID t0
       ∧ client.TAmount t = client.TAmount t0
       ∧ client.Source t = client.Source t0
       ∧ client.Destination t = client.Destination t0
       ∧ client.Description t = client.Description t0
       ∧ client.SameDay t = client.SameDay t0
       ∧ client.TReturnCode t = client.TReturnCode t0
       ∧ client.ProcessedAt t = client.ProcessedAt t0
       ∧ client.Created t = client.Created t0
       ∧ client.TraceNumbers t = client.TraceNumbers t0)
  ∧ (∀ transferID,
       (∀ r', r' ∈ transfers db → transfer_id r' = transferID → deleted_at r' ≠ None) →
       UpdateTransferStatus db transferID s = (db, None)).
Proof.
  intros Hpk Hin Hlive Hne. split; [done |]. split.
  - exists (readRow db r),
           (readRow (UpdateTransferStatus db (transfer_id r) s).1 (setStatus r s)).
    split; [by apply GetTransfer_row |]. split; [| done].
    apply (GetTransfer_row _ (setStatus r s)); try done.
    + unfold primaryKey. simpl. by rewrite updateWhere_ids.
    + simpl. unfold updateWhere. apply list_elem_of_fmap. exists r.
      by rewrite decide_True.
  - intros transferID Hgone. unfold UpdateTransferStatus, execUpdate.
    rewrite updateWhere_id; [by rewrite setTransfers_same |].
    intros r' Hr' [Hid Hdel]. by destruct (Hgone r').
Qed.

(** What [saveTraceNumbers] does: all the pairs are stored when the list
    has no repetition and none of its pairs is stored yet; otherwise the
    duplicate is refused and the rollback leaves the state as it was. *)
Lemma saveTraceNumbers_cases db transferID tns :
  saveTraceNumbers db transferID tns =
  if decide (NoDup tns
             ∧ Forall (λ tn, {| trace_transfer_id := transferID; trace_number := tn |}
                               ∉ transfer_trace_numbers db) tns)
  then ({| transfers := transfers db;
           transfer_trace_numbers :=
             transfer_trace_numbers db
             ++ ((λ tn, {| trace_transfer_id := transferID; trace_number := tn |}) <$> tns) |},
        None)
  else (db, Some ErrDuplicateEntry).
Proof.
  unfold saveTraceNumbers.
  set (step := λ (acc : Tx * option error) (tn : string), _).
  set (mk := λ tn, {| trace_transfer_id := transferID; trace_number := tn |}).
  assert (Hloop : ∀ tns tx,
            if decide (NoDup tns
                       ∧ Forall (λ tn, mk tn ∉ transfer_trace_numbers (pending tx)) tns)
            then foldl step (tx, None) tns
                 = ({| origin := origin tx;
                       pending := {| transfers := transfers (pending tx);
                                     transfer_trace_numbers :=
                                       transfer_trace_numbers (pending tx) ++ (mk <$> tns) |} |},
                    None)
            else (foldl step (tx, None) tns).2 = Some ErrDuplicateEntry
                 ∧ origin (foldl step (tx, None) tns).1 = origin tx).
  { assert (Hstep : ∀ tx tn,
              step (tx, None) tn =
              if decide (mk tn ∈ transfer_trace_numbers (pending tx))
              then (tx, Some ErrDuplicateEntry)
              else ({| origin := origin tx;
                       pending := {| transfers := transfers (pending tx);
                                     transfer_trace_numbers :=
                                       transfer_trace_numbers (pending tx) ++ [mk tn] |} |},
                    None)) by done.
    assert (Herror : ∀ tns tx e, foldl step (tx, Some e) tns = (tx, Some e)).
    { intros tns'. induction tns' as [| tn tns' IH]; intros tx e; [done |]. apply IH. }
    clear tns. induction tns as [| tn tns IH]; intros tx.
    - rewrite decide_True by (split; constructor).
      simpl. rewrite app_nil_r. by destruct tx as [o [? ?]].
    - cbn [foldl]. rewrite Hstep.
      destruct (decide (mk tn ∈ transfer_trace_numbers (pending tx))) as [Hin | Hnin].
      + rewrite Herror. rewrite decide_False; [done |].
        intros [_ Hfresh]. by apply Forall_cons in Hfresh as [Hfresh _].
      + set (tx' := {| origin := origin tx; pending := _ |}).
        specialize (IH tx').
        destruct (decide (NoDup tns ∧ _)) as [[Hnd Hfresh] | Hbad].
        * rewrite Forall_forall in Hfresh.
          destruct (decide (tn ∈ tns)) as [Hrep | Hnew].
          -- exfalso. apply (Hfresh tn Hrep). apply elem_of_app. right. by left.
          -- rewrite decide_True.
             ++ rewrite IH. unfold tx'. simpl. rewrite <- (assoc_L (++)). done.
             ++ split; [by constructor |]. apply Forall_cons. split; [done |].
                apply Forall_forall. intros tn' Htn' Hin'.
                apply (Hfresh tn' Htn'). apply elem_of_app. by left.
        * rewrite decide_False; [done |].
          intros [Hnd Hfresh]. apply NoDup_cons in Hnd as [Hnew Hnd].
          apply Forall_cons in Hfresh as [_ Hfresh]. rewrite Forall_forall in Hfresh.
          apply Hbad. split; [done |]. apply Forall_forall.
          intros tn' Htn' [Hin' | Hin']%elem_of_app.
          -- by apply (Hfresh tn').
          -- apply list_elem_of_singleton in Hin'. injection Hin' as ->. done. }
  specialize (Hloop tns (Begin db)). simpl in Hloop.
  destruct (decide (NoDup tns ∧ _)) as [Hok | Hbad].
  - by rewrite Hloop.
  - destruct Hloop as [Herr Horigin].
    destruct (foldl step (Begin db, None) tns) as [tx' [e |]]; simpl in *; [| done].
    unfold Rollback. by rewrite Horigin, Herr.
Qed.

End Reads.

Lemma filter_trace_rows transferID transferID' (tns : list string) :
  filter (λ t, trace_transfer_id t = transferID')
         ((λ tn, {| trace_transfer_id := transferID; trace_number := tn |}) <$> tns)
  = if decide (transferID = transferID')
    then (λ tn, {| trace_transfer_id := transferID; trace_number := tn |}) <$> tns
    else [].
Proof.
  induction tns as [| tn tns IH]; [by destruct (decide _) |].
  rewrite fmap_cons. destruct (decide (transferID = transferID')) as [-> | Hne].
  - rewrite filter_cons_True by done. by rewrite IH.
  - rewrite filter_cons_False by done. by rewrite IH.
Qed.

(** X6.  Trace numbers saved for a transfer, without repetition and not
    stored for it before, are read back by [getTraceNumbers] together with
    the ones that were there, each as often as it was given, the empty
    string left out; the trace numbers of other transfers and the
    transfers table are as before. *)
Theorem saveTraceNumbers_read_back db transferID tns :
  NoDup tns →
  Forall (λ tn, {| trace_transfer_id := transferID; trace_number := tn |}
                  ∉ transfer_trace_numbers db) tns →
  (saveTraceNumbers db transferID tns).2 = None
  ∧ transfers (saveTraceNumbers db transferID tns).1 = transfers db
  ∧ (getTraceNumbers (saveTraceNumbers db transferID tns).1 transferID).1
    ≡ₚ (getTraceNumbers db transferID).1 ++ filter (λ tn, tn ≠ EmptyString) tns
  ∧ (∀ transferID', transferID' ≠ transferID →
       getTraceNumbers (saveTraceNumbers db transferID tns).1 transferID'
       = getTraceNumbers db transferID').
Proof.
  intros Hnd Hfresh. rewrite saveTraceNumbers_cases, decide_True by done.
  simpl. split; [done |]. split; [done |]. unfold getTraceNumbers. simpl. split.
  - rewrite filter_app, fmap_app, filter_app, filter_trace_rows, decide_True by done.
    rewrite <- list_fmap_compose.
    replace (trace_number ∘ _ <$> tns) with tns; [done |].
    symmetry. apply list_fmap_id.
  - intros transferID' Hne. f_equal.
    rewrite filter_app, filter_trace_rows, decide_False by done.
    by rewrite app_nil_r.
Qed.

Lemma saveTraceNumbers_read_back_witness :
  (getTraceNumbers (saveTraceNumbers exampleDB "t1" ["T124"; ""; "T125"]).1 "t1").1
  ≡ₚ ["T123"; "T124"; "T125"]%string.
Proof.
  apply (saveTraceNumbers_read_back exampleDB "t1" ["T124"; ""; "T125"]%string).
  - repeat (apply NoDup_cons; split); try apply NoDup_nil;
      rewrite ?elem_of_cons, ?elem_of_nil; intuition discriminate.
  - repeat (apply Forall_cons; split); try apply Forall_nil;
      simpl; rewrite ?elem_of_cons, ?elem_of_nil; intuition discriminate.
Defined.

(** X7.  [saveTraceNumbers] stores all the pairs or none: it returns no
    error exactly when the list has no repetition and none of its pairs is
    stored yet, and when it returns an error the state is the one before
    the call, also for the pairs it had inserted before the duplicate. *)
Theorem saveTraceNumbers_all_or_nothing db transferID tns :
  ((saveTraceNumbers db transferID tns).2 = None
   ↔ NoDup tns
     ∧ Forall (λ tn, {| trace_transfer_id := transferID; trace_number := tn |}
                       ∉ transfer_trace_numbers db) tns)
  ∧ ((saveTraceNumbers db transferID tns).2 ≠ None →
     saveTraceNumbers db transferID tns = (db, Some ErrDuplicateEntry)).
Proof.
  rewrite saveTraceNumbers_cases.
  destruct (decide (NoDup tns ∧ _)) as [Hok | Hbad]; simpl.
  - split; [done |]. by intros [].
  - split; [split; [discriminate | done] | done].
Qed.

Lemma saveTraceNumbers_all_or_nothing_witness :
  saveTraceNumbers exampleDB "t1" ["T124"; "T123"] = (exampleDB, Some ErrDuplicateEntry).
Proof.
  apply (saveTraceNumbers_all_or_nothing exampleDB "t1" ["T124"; "T123"]%string).
  intros Hnone.
  apply (proj1 (saveTraceNumbers_all_or_nothing exampleDB "t1" ["T124"; "T123"]%string))
    in Hnone as [_ Hfresh].
  apply Forall_cons in Hfresh as [_ Hfresh]. apply Forall_cons in Hfresh as [Hfresh _].
  apply Hfresh. simpl. apply list_elem_of_here.
Defined.

Lemma UpdateTransferStatus_then_GetTransfer_witness :
  (UpdateTransferStatus exampleDB "t1" client.PENDING).2 = None
  ∧ UpdateTransferStatus exampleDB "t9" client.CANCELED = (exampleDB, None).
Proof.
  destruct (UpdateTransferStatus_then_GetTransfer (λ _, None) exampleDB
              (exampleRow "t1" client.PROCESSED (unix (Date 2021 4 19 10 0)) None)
              client.CANCELED (proj1 exampleDB_wellFormed) (list_elem_of_here _ _)
              eq_refl) as (_ & _ & Hgone); [discriminate |].
  split; [done |]. apply Hgone. intros r'. simpl.
  rewrite !elem_of_cons, elem_of_nil. intros [-> | [-> | [-> | []]]]; simpl; done.
Defined.

Lemma WriteUserTransfer_read_back_witness :
  (WriteUserTransfer exampleDB 7 "moov" (fundflow.mkTransfer 153)).2 = None.
Proof.
  apply (WriteUserTransfer_read_back (λ _, None) exampleDB 7 "moov"
           (fundflow.mkTransfer 153)).
  - simpl. rewrite !elem_of_cons, elem_of_nil. intuition discriminate.
  - discriminate.
Defined.

Lemma getUserTransfer_empty_id_witness :
  transfers.getUserTransfer (λ _, None)
    {| transfers := [exampleRow "" client.PENDING 0 None];
       transfer_trace_numbers := [] |} "" "moov"
  = (None, None)
  ∧ transfers.getUserTransfer (λ _, None) exampleDB "" "moov" = (None, Some ErrNoRows).
Proof.
  split.
  - apply (proj1 (proj2 (getUserTransfer_empty_id (λ _, None)
                           {| transfers := [exampleRow "" client.PENDING 0 None];
                              transfer_trace_numbers := [] |} "moov"))).
    exists (exampleRow "" client.PENDING 0 None).
    split; [apply list_elem_of_here | done].
  - apply (proj2 (proj2 (getUserTransfer_empty_id (λ _, None) exampleDB "moov"))).
    intros (r & Hin & Hid & _). revert Hin Hid. simpl.
    rewrite !elem_of_cons, elem_of_nil.
    intros [-> | [-> | [-> | []]]]; discriminate.
Defined.

Lemma other_organization_is_kept_out_witness :
  deleteUserTransfer exampleDB 7 "other" "t2" = (exampleDB, None).
Proof.
  apply (other_organization_is_kept_out (λ _, None) exampleDB 7
           (exampleRow "t2" client.PENDING (unix (Date 2021 4 20 10 0)) None) "other"
           (proj1 exampleDB_wellFormed)
           (list_elem_of_further _ _ _ (list_elem_of_here _ _))).
  discriminate.
Defined.

Lemma deleteUserTransfer_then_reads_witness :
  transfers.GetTransfer (λ _, None) (deleteUserTransfer exampleDB 7 "moov" "t2").1 "t2"
  = (None, Some ErrNoRows).
Proof.
  apply (deleteUserTransfer_then_reads (λ _, None) exampleDB 7
           (exampleRow "t2" client.PENDING (unix (Date 2021 4 20 10 0)) None)
           (proj1 exampleDB_wellFormed)
           (list_elem_of_further _ _ _ (list_elem_of_here _ _)) eq_refl eq_refl).
Defined.

(** ** The repository: listing *)

Lemma insertByCreated_perm r l : insertByCreated r l ≡ₚ r :: l.
Proof.
  induction l as [| r' l IH]; [done |]. simpl.
  destruct (created_at r' <? created_at r); [done |].
  rewrite IH. apply Permutation_swap.
Qed.

Lemma orderByCreatedDesc_perm l : orderByCreatedDesc l ≡ₚ l.
Proof.
  induction l as [| r l IH]; [done |]. unfold orderByCreatedDesc. simpl.
  rewrite insertByCreated_perm. by f_equiv.
Qed.

Lemma newestFirst_sublist l1 l2 : l1 `sublist_of` l2 → newestFirst l2 → newestFirst l1.
Proof.
  induction 1 as [| x l1 l2 Hsub IH | x l1 l2 Hsub IH]; simpl.
  - done.
  - intros [Hx Hl2]. split; [| by apply IH].
    intros y Hy. apply Hx. by eapply elem_of_sublist.
  - intros [_ Hl2]. by apply IH.
Qed.

Lemma insertByCreated_newestFirst r l :
  newestFirst (created_at <$> l) → newestFirst (created_at <$> insertByCreated r l).
Proof.
  induction l as [| r' l IH].
  { intros _. simpl. split; [| done]. by intros y ?%elem_of_nil. }
  simpl.
  destruct (created_at r' <? created_at r) eqn:Hlt; simpl.
  - intros [Hr' Hl]. split; [| done].
    apply Z.ltb_lt in Hlt. intros y [-> | Hy]%elem_of_cons; [lia |].
    specialize (Hr' y Hy). lia.
  - intros [Hr' Hl]. split; [| by apply IH].
    apply Z.ltb_ge in Hlt. intros y Hy.
    apply list_elem_of_fmap in Hy as (x & -> & Hx).
    rewrite insertByCreated_perm in Hx. apply elem_of_cons in Hx as [-> | Hx]; [done |].
    apply Hr'. by apply list_elem_of_fmap_2.
Qed.

Lemma orderByCreatedDesc_newestFirst l :
  newestFirst (created_at <$> orderByCreatedDesc l).
Proof.
  induction l as [| r l IH]; [done |]. by apply insertByCreated_newestFirst.
Qed.

Lemma listedRows_sublist db orgID params :
  listedRows db orgID params
  `sublist_of` orderByCreatedDesc (filter (listClause orgID params) (transfers db)).
Proof. unfold listedRows. etrans; [apply sublist_take | apply sublist_drop]. Qed.

Lemma listedRows_elem db orgID params r :
  r ∈ listedRows db orgID params → r ∈ transfers db ∧ listClause orgID params r.
Proof.
  intros Hr. eapply elem_of_sublist in Hr; [| apply listedRows_sublist].
  rewrite orderByCreatedDesc_perm in Hr. by apply list_elem_of_filter in Hr as [? ?].
Qed.

Lemma listedRows_ids db orgID params :
  primaryKey db → NoDup (transfer_id <$> listedRows db orgID params).
Proof.
  intros Hpk. eapply sublist_NoDup; [| apply fmap_sublist, listedRows_sublist].
  rewrite orderByCreatedDesc_perm.
  eapply sublist_NoDup; [exact Hpk | apply fmap_sublist, sublist_filter].
Qed.

Section Listing.
Variable LookupReturnCode : string → option client.ReturnCode.

Local Abbreviation getUserTransfer := (transfers.getUserTransfer LookupReturnCode).
Local Abbreviation GetTransfer := (transfers.GetTransfer LookupReturnCode).
Local Abbreviation getTransfers := (transfers.getTransfers LookupReturnCode).
Local Abbreviation LookupTransferFromReturn :=
  (transfers.LookupTransferFromReturn LookupReturnCode).
Local Abbreviation readRow := (transfers.readRow LookupReturnCode).

(** The loop of [getTransfers] that reads each selected id again. *)
Lemma getTransfers_loop db orgID rows acc :
  primaryKey db →
  (∀ r, r ∈ rows → r ∈ transfers db ∧ organization r = orgID ∧ deleted_at r = None) →
  foldl (λ acc id,
           match getUserTransfer db id orgID with
           | (Some t, None) =>
               if decide (client.TransferID t ≠ EmptyString) then acc ++ [t] else acc
           | _ => acc
           end) acc (filter (λ s, s ≠ EmptyString) (transfer_id <$> rows))
  = acc ++ (readRow db <$> filter (λ r, transfer_id r ≠ EmptyString) rows).
Proof.
  intros Hpk. revert acc. induction rows as [| r rows IH]; intros acc Hrows.
  - by rewrite app_nil_r.
  - rewrite fmap_cons.
    assert (Hrest : ∀ r', r' ∈ rows →
                      r' ∈ transfers db ∧ organization r' = orgID ∧ deleted_at r' = None).
    { intros r' Hr'. apply Hrows. by right. }
    destruct (decide (transfer_id r = EmptyString)) as [He | Hne].
    + rewrite filter_cons_False by (intros Hn; by apply Hn).
      rewrite (filter_cons_False _ r) by (intros Hn; by apply Hn).
      by apply IH.
    + rewrite filter_cons_True by done. rewrite (filter_cons_True _ r) by done.
      simpl. destruct (Hrows r) as (Hin & Horg & Hlive); [by left |].
      rewrite <- Horg at 1. rewrite (getUserTransfer_row _ _ _ Hpk Hin Hlive Hne).
      rewrite decide_True by done. rewrite IH by done.
      rewrite <- (assoc_L (++)). done.
Qed.

(** X8.  Under the primary key [getTransfers] returns, with no error,
    exactly the rows it selects: those of the organization that are not
    soft-deleted, were created within the dates given, have the status
    asked for (if any) and one of the customers asked for (if any) as
    source or destination; ordered from the latest created, after [Skip]
    rows and at most [Count] of them; a row of the empty id left out; each
    read as [getUserTransfer] reads it. *)
Theorem getTransfers_listed db orgID params :
  primaryKey db →
  getTransfers db orgID params
  = (readRow db <$> filter (λ r, transfer_id r ≠ EmptyString) (listedRows db orgID params),
     None).
Proof.
  intros Hpk. unfold transfers.getTransfers. f_equal.
  change (take (Count params) _) with (listedRows db orgID params).
  rewrite (getTransfers_loop db orgID (listedRows db orgID params) [] Hpk); [done |].
  intros r Hr. apply listedRows_elem in Hr as (Hin & Horg & _ & _ & Hlive & _). done.
Qed.

(** X9.  What a page of [getTransfers] looks like under the primary key:
    at most [Count] transfers, from the latest created to the earliest, no
    id twice and none empty, each created within the dates asked for, of
    the status asked for and with one of the customers asked for. *)
Theorem getTransfers_page db orgID params :
  primaryKey db →
  (length (getTransfers db orgID params).1 ≤ Count params)%nat
  ∧ newestFirst (client.Created <$> (getTransfers db orgID params).1)
  ∧ NoDup (client.TransferID <$> (getTransfers db orgID params).1)
  ∧ (∀ t, t ∈ (getTransfers db orgID params).1 →
       client.TransferID t ≠ EmptyString
       ∧ StartDate params ≤ client.Created t ≤ EndDate params
       ∧ (∀ s, Status params = Some s → client.Status t = s)
       ∧ (CustomerIDs params = []
          ∨ client.SourceCustomerID (client.Source t) ∈ CustomerIDs params
          ∨ client.DestinationCustomerID (client.Destination t) ∈ CustomerIDs params)).
Proof.
  intros Hpk. rewrite getTransfers_listed by done. simpl.
  set (rows := listedRows db orgID params).
  assert (Hsub : filter (λ r, transfer_id r ≠ EmptyString) rows `sublist_of` rows)
    by apply sublist_filter.
  split_and!.
  - rewrite length_fmap. etrans; [apply sublist_length, Hsub |].
    unfold rows, listedRows. rewrite length_take. lia.
  - rewrite <- list_fmap_compose.
    change (client.Created ∘ readRow db) with created_at.
    eapply newestFirst_sublist; [apply fmap_sublist, Hsub |].
    eapply newestFirst_sublist; [apply fmap_sublist, listedRows_sublist |].
    apply orderByCreatedDesc_newestFirst.
  - rewrite <- list_fmap_compose.
    change (client.TransferID ∘ readRow db) with transfer_id.
    eapply sublist_NoDup; [by apply listedRows_ids | apply fmap_sublist, Hsub].
  - intros t (r & -> & Hr)%list_elem_of_fmap.
    apply list_elem_of_filter in Hr as [Hne Hr].
    apply listedRows_elem in Hr as (_ & _ & Hlo & Hhi & _ & Hst & Hcust).
    simpl. split_and!; try done.
    intros s Hs. unfold statusClause in Hst. by rewrite Hs in Hst.
Qed.

(** X10.  Nothing that matches is left out of a page that starts at the
    first row and is long enough for the whole table: every stored row of
    a non-empty id that the filter selects is returned. *)
Theorem getTransfers_complete db orgID params r :
  primaryKey db → Skip params = 0%nat → (length (transfers db) ≤ Count params)%nat →
  r ∈ transfers db → listClause orgID params r → transfer_id r ≠ EmptyString →
  readRow db r ∈ (getTransfers db orgID params).1.
Proof.
  intros Hpk Hskip Hcount Hin Hclause Hne. rewrite getTransfers_listed by done. simpl.
  apply list_elem_of_fmap_2, list_elem_of_filter. split; [done |].
  unfold listedRows. rewrite Hskip, drop_0, take_ge.
  - rewrite orderByCreatedDesc_perm. by apply list_elem_of_filter.
  - rewrite orderByCreatedDesc_perm. etrans; [apply length_filter | done].
Qed.

(** [LookupTransferFromReturn] is the first row of its [where] clause,
    read by [getUserTransfer]. *)
Lemma LookupTransferFromReturn_eq db amount traceNumber eed :
  LookupTransferFromReturn db amount traceNumber eed
  = match head (filter (returnClause db amount traceNumber eed) (transfers db)) with
    | None => (None, Some ErrNoRows)
    | Some xf => getUserTransfer db (transfer_id xf) (organization xf)
    end.
Proof. reflexivity. Qed.

(** X11.  Under the primary key [LookupTransferFromReturn] answers
    [sql.ErrNoRows] exactly when no stored row has the amount, a trace row
    of the trace number, status PROCESSED, no [deleted_at] and a
    [created_at] inside the window; and when some row has, and no stored
    id is empty, it returns one of the rows that have, read as
    [getUserTransfer] reads it, with no error. *)
Theorem LookupTransferFromReturn_complete db amount traceNumber eed :
  primaryKey db →
  (LookupTransferFromReturn db amount traceNumber eed = (None, Some ErrNoRows)
   ↔ ∀ xf, xf ∈ transfers db → ¬ returnClause db amount traceNumber eed xf)
  ∧ ((∀ xf, xf ∈ transfers db → transfer_id xf ≠ EmptyString) →
     (∃ xf, xf ∈ transfers db ∧ returnClause db amount traceNumber eed xf) →
     ∃ xf, xf ∈ transfers db ∧ returnClause db amount traceNumber eed xf
           ∧ LookupTransferFromReturn db amount traceNumber eed
             = (Some (readRow db xf), None)).
Proof.
  intros Hpk. rewrite LookupTransferFromReturn_eq.
  destruct (head (filter _ (transfers db))) as [xf |] eqn:Hhead.
  - pose proof Hhead as (Hin & Hclause)%head_filter_Some.
    pose proof Hclause as (_ & _ & _ & _ & Hlive).
    split.
    + split.
      * intros Hnone. exfalso. revert Hnone. unfold transfers.getUserTransfer.
        destruct (head (filter (λ r, transfer_id r = transfer_id xf
                                     ∧ organization r = organization xf
                                     ∧ deleted_at r = None) (transfers db)))
          as [r |] eqn:Hr.
        -- simpl. destruct (decide _); discriminate.
        -- eapply head_filter_None in Hr; [| exact Hin]. intros _. by apply Hr.
      * intros Hno. by destruct (Hno xf).
    + intros Hids _. exists xf. split_and!; [done .. |].
      apply getUserTransfer_row; try done. by apply Hids.
  - split; [split; [intros _ | done] |].
    + intros xf Hxf. eapply head_filter_None in Hhead; [exact Hhead | exact Hxf].
    + intros _ (xf & Hin & Hclause). exfalso.
      eapply head_filter_None in Hhead; [by apply Hhead | exact Hin].
Qed.

(** X12.  Of the effective entry date only the day on the UTC calendar
    counts: two dates of the same UTC day, whatever their time of day and
    location, find the same transfer. *)
Theorem LookupTransferFromReturn_utc_day db amount traceNumber eed eed' :
  utcDay (unix eed) = utcDay (unix eed') →
  LookupTransferFromReturn db amount traceNumber eed
  = LookupTransferFromReturn db amount traceNumber eed'.
Proof.
  intros Hday. rewrite !LookupTransferFromReturn_eq.
  replace (filter (returnClause db amount traceNumber eed) (transfers db))
    with (filter (returnClause db amount traceNumber eed') (transfers db)); [done |].
  apply list_filter_iff. intros xf. unfold returnClause, startOfDayAndTomorrow.
  cbn [fst snd]. unfold Add. cbn [unix]. by rewrite !Truncate_day, Hday.
Qed.

(** X14.  A return code saved on a live transfer that has none is what
    [GetTransfer] shows from then on, as far as the NACHA library knows
    the code, with every other field as before; and no later call puts
    another code in its place, also when the library does not know the
    first one and the transfer still reads without a code. *)
Theorem SaveReturnCode_then_GetTransfer db r returnCode :
  primaryKey db → r ∈ transfers db → deleted_at r = None → return_code r = None →
  transfer_id r ≠ EmptyString →
  ∃ t0 t,
    GetTransfer db (transfer_id r) = (Some t0, None)
    ∧ client.TReturnCode t0 = None
    ∧ GetTransfer (SaveReturnCode db (transfer_id r) returnCode).1 (transfer_id r)
      = (Some t, None)
    ∧ client.TReturnCode t = LookupReturnCode returnCode
    ∧ client.TransferID t = client.TransferID t0
    ∧ client.TAmount t = client.TAmount t0
    ∧ client.Source t = client.Source t0
    ∧ client.Destination t = client.Destination t0
    ∧ client.Description t = client.Description t0
    ∧ client.Status t = client.Status t0
    ∧ client.SameDay t = client.SameDay t0
    ∧ client.ProcessedAt t = client.ProcessedAt t0
    ∧ client.Created t = client.Created t0
    ∧ client.TraceNumbers t = client.TraceNumbers t0
    ∧ (∀ returnCode',
         GetTransfer (SaveReturnCode (SaveReturnCode db (transfer_id r) returnCode).1
                        (transfer_id r) returnCode').1 (transfer_id r)
         = (Some t, None)).
Proof.
  intros Hpk Hin Hlive Hnone Hne.
  set (db' := (SaveReturnCode db (transfer_id r) returnCode).1).
  assert (Hpk' : primaryKey db').
  { unfold db', primaryKey. rewrite SaveReturnCode_eq. simpl. by rewrite updateWhere_ids. }
  assert (Hin' : setReturnCode r returnCode ∈ transfers db').
  { unfold db'. rewrite SaveReturnCode_eq. simpl. unfold updateWhere.
    apply list_elem_of_fmap. exists r. by rewrite decide_True. }
  assert (Hget : GetTransfer db' (transfer_id r)
                 = (Some (readRow db' (setReturnCode r returnCode)), None)).
  { by apply (GetTransfer_row _ _ (setReturnCode r returnCode)). }
  exists (readRow db r), (readRow db' (setReturnCode r returnCode)).
  split; [by apply GetTransfer_row |].
  split; [unfold transfers.readRow; simpl; by rewrite Hnone |].
  split; [done |]. split_and!; try done.
  intros returnCode'.
  replace (SaveReturnCode db' (transfer_id r) returnCode').1 with db'; [done |].
  rewrite SaveReturnCode_eq. unfold execUpdate. simpl.
  rewrite updateWhere_id; [by rewrite setTransfers_same |].
  intros r' Hr' (Hid & Hcode & _). exfalso.
  assert (r' = setReturnCode r returnCode) as ->; [| done].
  eapply key_inj; [exact Hpk' | done | done | done].
Qed.

(** X16.  In a state the repository's methods get to from empty tables a
    transfer that is not PENDING is never soft-deleted, so with a
    non-empty id both single reads return it. *)
Theorem reachable_not_pending_is_read db r :
  reachable db → r ∈ transfers db → status r ≠ client.PENDING →
  transfer_id r ≠ EmptyString →
  deleted_at r = None
  ∧ GetTransfer db (transfer_id r) = (Some (readRow db r), None)
  ∧ getUserTransfer db (transfer_id r) (organization r) = (Some (readRow db r), None).
Proof.
  intros [Hpk Hdel]%reachable_wellFormed Hin Hst Hne.
  assert (Hlive : deleted_at r = None).
  { destruct (deleted_at r) as [d |] eqn:Hd; [| done].
    exfalso. apply Hst, Hdel; [done |]. by rewrite Hd. }
  split; [done |]. split; [by apply GetTransfer_row | by apply getUserTransfer_row].
Qed.

End Listing.

(** ** The repository: the window of a return, and what no write undoes *)

Lemma Truncate_loc t : loc (Truncate t (24 * Hour)) = loc t.
Proof. reflexivity. Qed.

Lemma Truncate_midnight u :
  unix u mod (24 * Hour) = 0 → Truncate u (24 * Hour) = u.
Proof.
  intros Hu. pose proof (Truncate_day u) as Hday. unfold utcDay in Hday.
  destruct u as [x l]. cbn [unix] in Hu, Hday.
  change (Truncate {| unix := x; loc := l |} (24 * Hour))
    with {| unix := unix (Truncate {| unix := x; loc := l |} (24 * Hour)); loc := l |}.
  f_equal. rewrite Hday.
  pose proof (Z_div_mod_eq_full x (24 * Hour)). lia.
Qed.

(** X13.  [startOfDayAndTomorrow] returns the midnight of the UTC
    calendar at or before the instant, whatever the instant's location,
    and the midnight 24 hours later; the instant lies between the two, and
    both keep its location. *)
Theorem startOfDayAndTomorrow_utc_midnight t :
  unix (startOfDayAndTomorrow t).1 = utcDay (unix t) * (24 * Hour)
  ∧ unix (startOfDayAndTomorrow t).2 = unix (startOfDayAndTomorrow t).1 + 24 * Hour
  ∧ unix (startOfDayAndTomorrow t).1 ≤ unix t < unix (startOfDayAndTomorrow t).2
  ∧ loc (startOfDayAndTomorrow t).1 = loc t
  ∧ loc (startOfDayAndTomorrow t).2 = loc t
  ∧ startOfDayAndTomorrow (startOfDayAndTomorrow t).1 = startOfDayAndTomorrow t
  ∧ (startOfDayAndTomorrow (startOfDayAndTomorrow t).2).1 = (startOfDayAndTomorrow t).2.
Proof.
  unfold startOfDayAndTomorrow. cbn [fst snd].
  pose proof (Truncate_day t) as Hday.
  assert (H0 : unix (Truncate t (24 * Hour)) mod (24 * Hour) = 0).
  { rewrite Hday. apply Z_mod_mult. }
  split; [exact Hday |]. split; [reflexivity |]. split.
  { unfold Add. cbn [unix]. rewrite Hday. unfold utcDay.
    change (24 * Hour) with 86400.
    pose proof (Z_div_mod_eq_full (unix t) 86400).
    pose proof (Z.mod_pos_bound (unix t) 86400). lia. }
  split; [reflexivity |]. split; [reflexivity |]. split.
  - by rewrite (Truncate_midnight _ H0).
  - apply Truncate_midnight. unfold Add. cbn [unix].
    rewrite <- Z.add_mod_idemp_l, H0 by done. done.
Qed.

Lemma writes_keeps db db' :
  writes db db' →
  (∀ i r, transfers db !! i = Some r →
     ∃ r', transfers db' !! i = Some r' ∧ sameTransfer r r'
           ∧ (deleted_at r ≠ None → r' = r)
           ∧ (∀ c, return_code r = Some c → return_code r' = Some c))
  ∧ (∀ i tr, transfer_trace_numbers db !! i = Some tr →
       transfer_trace_numbers db' !! i = Some tr).
Proof.
  assert (Hupd : ∀ (P : TransferRow → Prop) `{!∀ r, Decision (P r)} f rows,
            (∀ r, P r → deleted_at r = None) →
            (∀ r, sameTransfer r (f r)) →
            (∀ r c, P r → return_code r = Some c → return_code (f r) = Some c) →
            ∀ i r, rows !! i = Some r →
              ∃ r', updateWhere P f rows !! i = Some r' ∧ sameTransfer r r'
                    ∧ (deleted_at r ≠ None → r' = r)
                    ∧ (∀ c, return_code r = Some c → return_code r' = Some c)).
  { intros P HP f rows Hlive Hsame Hcode i r Hi.
    rewrite updateWhere_lookup, Hi. simpl.
    destruct (decide (P r)) as [Hr |].
    - exists (f r). split_and!; [done | apply Hsame | | by intros c; apply Hcode].
      intros Hdel. by destruct Hdel; apply Hlive.
    - exists r. by repeat split. }
  destruct 1 as [db now orgID tr | db transferID s | db now orgID transferID
                 | db transferID returnCode | db transferID tns].
  - unfold WriteUserTransfer. destruct (decide _); simpl.
    + split; [| done]. intros i r Hi. exists r. by repeat split.
    + split; [| done]. intros i r Hi. exists r.
      split; [by apply lookup_app_l_Some |]. by repeat split.
  - simpl. split; [| done]. apply Hupd.
    + by intros r [_ ?].
    + intros r. by repeat split.
    + by intros r c _ ?.
  - assert (Hsame : ∀ i r, transfers db !! i = Some r →
              ∃ r', transfers db !! i = Some r' ∧ sameTransfer r r'
                    ∧ (deleted_at r ≠ None → r' = r)
                    ∧ (∀ c, return_code r = Some c → return_code r' = Some c)).
    { intros i r Hi. exists r. by repeat split. }
    unfold deleteUserTransfer. simpl.
    destruct (head (filter _ (transfers db))) as [r0 |]; [| done].
    destruct (decide (status r0 ≠ client.PENDING)); [done |]. simpl.
    split; [| done]. apply Hupd.
    + by intros r (_ & _ & _ & ?).
    + intros r. by repeat split.
    + by intros r c _ ?.
  - rewrite SaveReturnCode_eq. simpl. split; [| done]. apply Hupd.
    + by intros r (_ & _ & ?).
    + intros r. by repeat split.
    + intros r c (_ & Hnone & _) Hc. congruence.
  - rewrite saveTraceNumbers_cases. destruct (decide _); simpl.
    + split.
      * intros i r Hi. exists r. by repeat split.
      * intros i tr Hi. by apply lookup_app_l_Some.
    + split; [| done]. intros i r Hi. exists r. by repeat split.
Qed.

(** X15.  No sequence of calls of the writing methods removes or moves a
    row of either table: a stored transfer stays at its place with its id,
    organization, amount, endpoints, description, same-day flag and
    creation time; once it is soft-deleted it never changes again, and a
    return code it holds stays; a stored trace number stays as it is. *)
Theorem writesTo_keeps db db' :
  writesTo db db' →
  (∀ i r, transfers db !! i = Some r →
     ∃ r', transfers db' !! i = Some r' ∧ sameTransfer r r'
           ∧ (deleted_at r ≠ None → r' = r)
           ∧ (∀ c, return_code r = Some c → return_code r' = Some c))
  ∧ (∀ i tr, transfer_trace_numbers db !! i = Some tr →
       transfer_trace_numbers db' !! i = Some tr).
Proof.
  induction 1 as [db | db db' db'' _ [IHrows IHtraces] Hw].
  - split; [| done]. intros i r Hi. exists r. by repeat split.
  - apply writes_keeps in Hw as [Hrows Htraces]. split.
    + intros i r Hi.
      destruct (IHrows i r Hi) as (r' & Hi' & Hsame & Hdel & Hcode).
      destruct (Hrows i r' Hi') as (r'' & Hi'' & Hsame' & Hdel' & Hcode').
      exists r''. split; [done |]. split_and!.
      * unfold sameTransfer in *. destruct_and!. split_and!; congruence.
      * intros Hd. rewrite <- (Hdel Hd). apply Hdel'. by rewrite (Hdel Hd).
      * intros c Hc. by apply Hcode', Hcode.
    + intros i tr Hi. by apply Htraces, IHtraces.
Qed.

Lemma getTransfers_listed_witness :
  getTransfers (λ _, None) exampleDB "moov" exampleParams
  = (readRow (λ _, None) exampleDB
       <$> filter (λ r, transfer_id r ≠ EmptyString)
                  (listedRows exampleDB "moov" exampleParams), None).
Proof.
  exact (getTransfers_listed (λ _, None) exampleDB "moov" exampleParams
           (proj1 exampleDB_wellFormed)).
Defined.

Lemma getTransfers_page_witness :
  (length (getTransfers (λ _, None) exampleDB "moov" exampleParams).1 ≤ 10)%nat.
Proof.
  exact (proj1 (getTransfers_page (λ _, None) exampleDB "moov" exampleParams
                  (proj1 exampleDB_wellFormed))).
Defined.

Lemma getTransfers_complete_witness :
  readRow (λ _, None) exampleDB
    (exampleRow "t2" client.PENDING (unix (Date 2021 4 20 10 0)) None)
  ∈ (getTransfers (λ _, None) exampleDB "moov" exampleParams).1.
Proof.
  apply (getTransfers_complete (λ _, None) exampleDB "moov" exampleParams
           (exampleRow "t2" client.PENDING (unix (Date 2021 4 20 10 0)) None)
           (proj1 exampleDB_wellFormed) eq_refl).
  - simpl. lia.
  - apply list_elem_of_further, list_elem_of_here.
  - unfold listClause. split_and!; try reflexivity; try (by vm_compute). by left.
  - discriminate.
Defined.

Lemma LookupTransferFromReturn_complete_witness :
  LookupTransferFromReturn (λ _, None) exampleDB
    {| client.Currency := "USD"; client.Value := 99 |} "T123" (Date 2021 4 20 0 0)
  = (None, Some ErrNoRows).
Proof.
  apply (LookupTransferFromReturn_complete (λ _, None) exampleDB
           {| client.Currency := "USD"; client.Value := 99 |} "T123" (Date 2021 4 20 0 0)
           (proj1 exampleDB_wellFormed)).
  intros xf. simpl. rewrite !elem_of_cons, elem_of_nil.
  intros [-> | [-> | [-> | []]]] (_ & Hamount & _); discriminate.
Defined.

Lemma LookupTransferFromReturn_utc_day_witness :
  LookupTransferFromReturn (λ _, None) exampleDB
    {| client.Currency := "USD"; client.Value := 1234 |} "T123" (Date 2021 4 20 0 0)
  = LookupTransferFromReturn (λ _, None) exampleDB
      {| client.Currency := "USD"; client.Value := 1234 |} "T123"
      (In (Date 2021 4 20 23 59) America_New_York).
Proof.
  apply (LookupTransferFromReturn_utc_day (λ _, None) exampleDB
           {| client.Currency := "USD"; client.Value := 1234 |} "T123"
           (Date 2021 4 20 0 0) (In (Date 2021 4 20 23 59) America_New_York)).
  reflexivity.
Defined.

Lemma SaveReturnCode_then_GetTransfer_witness :
  ∃ t0 t,
    GetTransfer (λ _, None) exampleDB "t1" = (Some t0, None)
    ∧ client.TReturnCode t0 = None
    ∧ GetTransfer (λ _, None) (SaveReturnCode exampleDB "t1" "R01").1 "t1" = (Some t, None)
    ∧ client.TReturnCode t = None.
Proof.
  destruct (SaveReturnCode_then_GetTransfer (λ _, None) exampleDB
              (exampleRow "t1" client.PROCESSED (unix (Date 2021 4 19 10 0)) None) "R01"
              (proj1 exampleDB_wellFormed) (list_elem_of_here _ _) eq_refl eq_refl)
    as (t0 & t & H0 & Hc0 & H1 & Hc1 & _); [discriminate |].
  by exists t0, t.
Defined.

Lemma reachable_not_pending_is_read_witness :
  deleted_at (setStatus (exampleRow "t1" client.PENDING 7 None) client.PROCESSED) = None.
Proof.
  apply (reachable_not_pending_is_read (λ _, None)
           (UpdateTransferStatus
              (WriteUserTransfer emptyDB 7 "moov"
                 (scanTransfer (exampleRow "t1" client.PENDING 7 None))).1
              "t1" client.PROCESSED).1
           (setStatus (exampleRow "t1" client.PENDING 7 None) client.PROCESSED)).
  - eapply reachable_write; [eapply reachable_write; [apply reachable_empty |] |].
    + apply writes_WriteUserTransfer.
    + apply writes_UpdateTransferStatus.
  - apply list_elem_of_here.
  - discriminate.
  - discriminate.
Defined.

Lemma writesTo_keeps_witness :
  transfer_trace_numbers
    (saveTraceNumbers (deleteUserTransfer exampleDB 7 "moov" "t2").1 "t2" ["T200"]).1
  !! 0%nat = Some {| trace_transfer_id := "t1"; trace_number := "T123" |}.
Proof.
  apply (writesTo_keeps exampleDB
           (saveTraceNumbers (deleteUserTransfer exampleDB 7 "moov" "t2").1 "t2" ["T200"]).1).
  - eapply writesTo_step; [eapply writesTo_step; [apply writesTo_refl |] |].
    + apply writes_deleteUserTransfer.
    + apply writes_saveTraceNumbers.
  - reflexivity.
Defined.

End transfers_more.

(** ** The repository: reads that agree, returns that match once *)

Module transfers_agree.
Import gotime transfers transfers_facts transfers_more.

Section Agree.
Variable LookupReturnCode : string → option client.ReturnCode.

Local Abbreviation getUserTransfer := (transfers.getUserTransfer LookupReturnCode).
Local Abbreviation GetTransfer := (transfers.GetTransfer LookupReturnCode).
Local Abbreviation getTransfers := (transfers.getTransfers LookupReturnCode).
Local Abbreviation LookupTransferFromReturn :=
  (transfers.LookupTransferFromReturn LookupReturnCode).
Local Abbreviation readRow := (transfers.readRow LookupReturnCode).

(** A transfer [getUserTransfer] returns is a live row of the id and
    organization asked for, read with its trace numbers, and the id is
    not empty. *)
Lemma getUserTransfer_readRow db transferID orgID t err :
  getUserTransfer db transferID orgID = (Some t, err) →
  err = None ∧ transferID ≠ EmptyString
  ∧ ∃ r, r ∈ transfers db ∧ transfer_id r = transferID ∧ organization r = orgID
         ∧ deleted_at r = None ∧ t = readRow db r.
Proof.
  unfold transfers.getUserTransfer.
  destruct (head (filter _ (transfers db))) as [r |] eqn:Hhead; [| discriminate].
  apply head_filter_Some in Hhead as (Hin & Hid & Horg & Hdel).
  destruct (decide _) as [| Hne]; [discriminate |]. simpl.
  intros [= <- <-]. split; [done |]. simpl in Hne. split; [by rewrite <- Hid |].
  exists r. unfold transfers.readRow. by rewrite Hid.
Qed.

(** X25.  Under the primary key the reads agree: a transfer that
    [getUserTransfer], [getTransfers] or [LookupTransferFromReturn] hands
    back is the one [GetTransfer] returns for its id. *)
Theorem reads_agree_with_GetTransfer db :
  primaryKey db →
  (∀ transferID orgID t err,
     getUserTransfer db transferID orgID = (Some t, err) →
     client.TransferID t = transferID ∧ GetTransfer db transferID = (Some t, None))
  ∧ (∀ orgID params t,
       t ∈ (getTransfers db orgID params).1 →
       GetTransfer db (client.TransferID t) = (Some t, None))
  ∧ (∀ amount traceNumber eed t err,
       LookupTransferFromReturn db amount traceNumber eed = (Some t, err) →
       GetTransfer db (client.TransferID t) = (Some t, None)).
Proof.
  intros Hpk.
  assert (Huser : ∀ transferID orgID t err,
            getUserTransfer db transferID orgID = (Some t, err) →
            client.TransferID t = transferID
            ∧ GetTransfer db transferID = (Some t, None)).
  { intros transferID orgID t err Hget.
    apply getUserTransfer_readRow in Hget as (_ & Hne & r & Hin & <- & _ & Hlive & ->).
    split; [done |]. by apply GetTransfer_row. }
  split_and!.
  - exact Huser.
  - intros orgID params t. rewrite getTransfers_listed by done. simpl.
    intros (r & -> & Hr)%list_elem_of_fmap.
    apply list_elem_of_filter in Hr as [Hne Hr].
    apply listedRows_elem in Hr as (Hin & _ & _ & _ & Hlive & _).
    by apply GetTransfer_row.
  - intros amount traceNumber eed t err. rewrite LookupTransferFromReturn_eq.
    destruct (head (filter _ (transfers db))) as [xf |]; [| discriminate].
    intros Hget. destruct (Huser _ _ _ _ Hget) as [Hid Hsame]. by rewrite Hid.
Qed.

(** X26.  A return matches a transfer once: after [UpdateTransferStatus]
    has taken a transfer out of PROCESSED (to RETURNED, say),
    [LookupTransferFromReturn] no longer hands it back, whatever amount,
    trace number and date it is asked for. *)
Theorem LookupTransferFromReturn_after_status db transferID s amount traceNumber eed t err :
  s ≠ client.PROCESSED →
  LookupTransferFromReturn (UpdateTransferStatus db transferID s).1
    amount traceNumber eed = (Some t, err) →
  client.TransferID t ≠ transferID.
Proof.
  intros Hs. rewrite LookupTransferFromReturn_eq.
  destruct (head (filter _ _)) as [xf |] eqn:Hhead; [| discriminate].
  apply head_filter_Some in Hhead as (Hin & _ & _ & Hst & _ & Hlive).
  intros Hget Hid.
  apply getUserTransfer_readRow in Hget as (_ & _ & r & _ & Hr & _ & _ & ->).
  simpl in Hid. simpl in Hin.
  apply updateWhere_elem in Hin as [[_ Hno] | (r0 & _ & _ & ->)].
  - apply Hno. split; [congruence | done].
  - simpl in Hst. done.
Qed.
End Agree.

Lemma reads_agree_with_GetTransfer_witness :
  GetTransfer (λ _, None) exampleDB "t1"
  = (Some (readRow (λ _, None) exampleDB
             (exampleRow "t1" client.PROCESSED (unix (Date 2021 4 19 10 0)) None)), None).
Proof.
  apply (proj1 (reads_agree_with_GetTransfer (λ _, None) exampleDB
                  (proj1 exampleDB_wellFormed)) "t1" "moov" _ None)%string.
  reflexivity.
Defined.

Lemma LookupTransferFromReturn_after_status_witness :
  client.TransferID
    (readRow (λ _, None) exampleDB
       (exampleRow "t1" client.PROCESSED (unix (Date 2021 4 19 10 0)) None))
  ≠ "t2"%string.
Proof.
  apply (LookupTransferFromReturn_after_status (λ _, None) exampleDB "t2" client.CANCELED
           {| client.Currency := "USD"; client.Value := 1234 |} "T123"
           (Date 2021 4 20 0 0) _ None).
  - discriminate.
  - reflexivity.
Defined.

End transfers_agree.
(** ** The fund flow: cutoff windows and effective entry dates *)

Module fundflow_more.
Import gotime fundflow fundflow_facts.

Lemma length_filter_split {A} (P Q R : A → Prop)
    `{!∀ x, Decision (P x)} `{!∀ x, Decision (Q x)} `{!∀ x, Decision (R x)} (l : list A) :
  (∀ x, P x ↔ Q x ∨ R x) → (∀ x, Q x → R x → False) →
  length (filter P l) = (length (filter Q l) + length (filter R l))%nat.
Proof.
  intros Hiff Hex. induction l as [| x l IH]; [done |].
  rewrite !filter_cons.
  destruct (decide (P x)) as [HP | HP], (decide (Q x)) as [HQ | HQ],
    (decide (R x)) as [HR | HR]; simpl; rewrite ?IH; try lia.
  - by destruct (Hex x).
  - apply Hiff in HP. tauto.
  - destruct HP. apply Hiff. tauto.
  - destruct HP. apply Hiff. tauto.
  - destruct HP. apply Hiff. tauto.
Qed.

Lemma weekdayNumber_mod day :
  moovbase.weekdayNumber day = moovbase.weekdayNumber ((day + 4) mod 7 - 4).
Proof.
  unfold moovbase.weekdayNumber.
  replace ((day + 4) mod 7 - 4 + 4) with ((day + 4) mod 7) by lia.
  by rewrite Z.mod_mod.
Qed.

Lemma weekdaysIn_mod n day :
  moovbase.weekdaysIn n day = moovbase.weekdaysIn n ((day + 4) mod 7 - 4).
Proof.
  revert day. induction n as [| n IH]; intros day; [done |]. simpl.
  assert (Hnext : (day + 1 + 4) mod 7 = ((day + 4) mod 7 - 4 + 1 + 4) mod 7).
  { replace ((day + 4) mod 7 - 4 + 1 + 4) with ((day + 4) mod 7 + 1) by lia.
    rewrite Z.add_mod_idemp_l by done. f_equal. lia. }
  rewrite (weekdayNumber_mod (day + 1)), (IH (day + 1)).
  rewrite (weekdayNumber_mod ((day + 4) mod 7 - 4 + 1)), (IH ((day + 4) mod 7 - 4 + 1)).
  by rewrite Hnext.
Qed.

Lemma weekdaysIn_week day : moovbase.weekdaysIn 7 day = 5%nat.
Proof.
  rewrite weekdaysIn_mod.
  pose proof (Z.mod_pos_bound (day + 4) 7 eq_refl) as Hr.
  assert (Hcases : (day + 4) mod 7 = 0 ∨ (day + 4) mod 7 = 1 ∨ (day + 4) mod 7 = 2
                   ∨ (day + 4) mod 7 = 3 ∨ (day + 4) mod 7 = 4 ∨ (day + 4) mod 7 = 5
                   ∨ (day + 4) mod 7 = 6) by lia.
  destruct Hcases as [-> | [-> | [-> | [-> | [-> | [-> | ->]]]]]]; reflexivity.
Qed.

Lemma weekdaysIn_app a b day :
  moovbase.weekdaysIn (a + b) day
  = (moovbase.weekdaysIn a day + moovbase.weekdaysIn b (day + Z.of_nat a))%nat.
Proof.
  revert day. induction a as [| a IH]; intros day.
  - simpl. by rewrite Z.add_0_r.
  - cbn [Nat.add moovbase.weekdaysIn]. rewrite IH.
    replace (day + 1 + Z.of_nat a) with (day + Z.of_nat (S a)) by lia. lia.
Qed.

Lemma weekdaysIn_weeks m day : moovbase.weekdaysIn (7 * m) day = (5 * m)%nat.
Proof.
  revert day. induction m as [| m IH]; intros day; [done |].
  replace (7 * S m)%nat with (7 + 7 * m)%nat by lia.
  rewrite weekdaysIn_app, weekdaysIn_week, IH. lia.
Qed.

Section Cutoffs.
Variable holidays : list Z.
Variable LoadLocation : string → Location.

Local Abbreviation calculateEffectiveEntryDate :=
  (fundflow.calculateEffectiveEntryDate holidays LoadLocation).
Local Abbreviation daysAdvanced := (moovbase.daysAdvanced holidays).
Local Abbreviation bankingDaysIn := (moovbase.bankingDaysIn holidays).
Local Abbreviation bankingDayNumber := (moovbase.bankingDayNumber holidays).

(** Every weekday of a run of days is a banking day or one of the
    holidays that fall in the run. *)
Lemma bankingDaysIn_lower n day :
  (moovbase.weekdaysIn n day
   ≤ bankingDaysIn n day
     + length (filter (λ x, (day < x ≤ day + Z.of_nat n)%Z) holidays))%nat.
Proof.
  revert day. induction n as [| n IH]; intros day; [simpl; lia |].
  cbn [moovbase.weekdaysIn moovbase.bankingDaysIn].
  rewrite (length_filter_split (λ x, day < x ≤ day + Z.of_nat (S n))
             (λ x, x = day + 1) (λ x, day + 1 < x ≤ day + 1 + Z.of_nat n))
    by (intros x; lia).
  specialize (IH (day + 1)).
  unfold moovbase.bankingDayNumber. fold (moovbase.weekdayNumber (day + 1)).
  destruct (moovbase.weekdayNumber (day + 1)); simpl; [| lia].
  destruct (bool_decide_reflect (day + 1 ∈ holidays)) as [Hin | Hout]; simpl; [| lia].
  assert (1 ≤ length (filter (λ x, x = (day + 1)%Z) holidays))%nat; [| lia].
  assert (Hf : day + 1 ∈ filter (λ x, x = day + 1) holidays)
    by (by apply list_elem_of_filter).
  destruct (filter (λ x, x = day + 1) holidays);
    [by apply elem_of_nil in Hf | simpl; lia].
Qed.

(** The walk of [AddBankingDay] is given days enough. *)
Lemma bankingDaysIn_fuel d day :
  (d ≤ bankingDaysIn (d * (7 * S (length holidays))) day)%nat.
Proof.
  pose proof (bankingDaysIn_lower (d * (7 * S (length holidays))) day) as Hlow.
  replace (d * (7 * S (length holidays)))%nat
    with (7 * (d * S (length holidays)))%nat in Hlow |- * by lia.
  rewrite weekdaysIn_weeks in Hlow.
  pose proof (length_filter
                (λ x, day < x ≤ day + Z.of_nat (7 * (d * S (length holidays)))) holidays).
  destruct d as [| d]; [lia |]. nia.
Qed.

(** With days enough the walk ends on a banking day, the [d]-th after the
    day it starts from. *)
Lemma daysAdvanced_count fuel d day :
  (d ≤ bankingDaysIn fuel day)%nat →
  bankingDaysIn (Z.to_nat (daysAdvanced fuel d day)) day = d
  ∧ ((1 ≤ d)%nat → bankingDayNumber (day + daysAdvanced fuel d day) = true).
Proof.
  revert d day. induction fuel as [| fuel IH]; intros [| d] day Hd.
  - split; [done | lia].
  - simpl in Hd. lia.
  - split; [done | lia].
  - cbn [moovbase.daysAdvanced]. cbn [moovbase.bankingDaysIn] in Hd.
    destruct (moovbase.bankingDayNumber holidays (day + 1)) eqn:Hb.
    + pose proof (gotime_facts.daysAdvanced_nonneg holidays fuel d (day + 1)) as Hnn.
      destruct (IH d (day + 1)) as [Hcount Hland]; [lia |].
      rewrite Z2Nat.inj_add, Z.add_assoc by lia.
      change (Z.to_nat 1) with 1%nat. cbn [Nat.add moovbase.bankingDaysIn].
      rewrite Hb, Hcount. split; [done |]. intros _.
      destruct d as [| d]; [| apply Hland; lia].
      replace (moovbase.daysAdvanced holidays fuel 0 (day + 1)) with 0
        by (by destruct fuel).
      by rewrite Z.add_0_r.
    + pose proof (gotime_facts.daysAdvanced_nonneg holidays fuel (S d) (day + 1)) as Hnn.
      destruct (IH (S d) (day + 1)) as [Hcount Hland]; [lia |].
      rewrite Z2Nat.inj_add, Z.add_assoc by lia.
      change (Z.to_nat 1) with 1%nat. cbn [Nat.add moovbase.bankingDaysIn].
      rewrite Hb, Hcount. split; [done |]. intros _. apply Hland. lia.
Qed.

(** X17.  Of the configured windows only the latest counts, whatever
    their order, their repetitions and the time zone beside them: two
    configurations with the same windows answer alike, and a window that
    is not later than one already there changes nothing. *)
Theorem afterCutoffWindows_latest_only cfg when :
  (∀ cfg', (∀ w, w ∈ config.Windows cfg ↔ w ∈ config.Windows cfg') →
           afterCutoffWindows cfg' when = afterCutoffWindows cfg when)
  ∧ (∀ tz w w0, w0 ∈ config.Windows cfg → String.leb w w0 = true →
       afterCutoffWindows
         {| config.Timezone := tz; config.Windows := w :: config.Windows cfg |} when
       = afterCutoffWindows cfg when).
Proof.
  split.
  - intros cfg' Hsame. apply eq_true_iff_eq. rewrite !(afterCutoffWindows_latest LoadLocation).
    split; intros [Hne Hall]; (split; [| intros w Hw; apply Hall; by apply Hsame]).
    + destruct (config.Windows cfg') as [| w ws] eqn:Hws; [done |].
      intros Hnil. assert (Hw : w ∈ config.Windows cfg) by (apply Hsame; by left).
      rewrite Hnil in Hw. by apply elem_of_nil in Hw.
    + destruct (config.Windows cfg) as [| w ws] eqn:Hws; [done |].
      intros Hnil. assert (Hw : w ∈ config.Windows cfg') by (apply Hsame; by left).
      rewrite Hnil in Hw. by apply elem_of_nil in Hw.
  - intros tz w w0 Hw0 Hle. apply eq_true_iff_eq. rewrite !(afterCutoffWindows_latest LoadLocation).
    cbn [config.Windows]. split.
    + intros [_ Hall]. split.
      * intros Hnil. rewrite Hnil in Hw0. by apply elem_of_nil in Hw0.
      * intros w' Hw'. apply Hall. by right.
    + intros [Hne Hall]. split; [done |].
      intros w' [-> | Hw']%elem_of_cons; [| by apply Hall].
      eapply gostrings_facts.string_leb_trans; [exact Hle | by apply Hall].
Qed.

Lemma Format_15_04_range when :
  String.leb "00:00" (Format_15_04 when) = true
  ∧ String.leb (Format_15_04 when) "23:59" = true.
Proof.
  pose proof (gotime_facts.hourOf_bounds when) as Hh.
  pose proof (gotime_facts.minuteOf_bounds when) as Hm.
  unfold Format_15_04. split.
  - change "00:00"%string with (clock 0 0).
    rewrite gotime_facts.clock_leb by lia. apply Z.leb_le. lia.
  - change "23:59"%string with (clock 23 59).
    rewrite gotime_facts.clock_leb by lia. apply Z.leb_le. lia.
Qed.

(** X18.  A window that sorts after every clock reading, such as [9:30]
    written without its leading zero, switches the cutoff off: no instant
    is after it, and every same-day transfer is dated at the instant it is
    originated.  Windows that sort before every clock reading, such as an
    empty string, are passed at every instant. *)
Theorem afterCutoffWindows_malformed_window cfg :
  (∀ w, w ∈ config.Windows cfg → String.leb w "23:59" = false →
        ∀ when, afterCutoffWindows cfg when = false)
  ∧ (∀ odfi w, w ∈ config.Windows (config.OCutoffs odfi) →
        String.leb w "23:59" = false →
        ∀ ssNow, calculateEffectiveEntryDate odfi ssNow true = In ssNow UTC)
  ∧ (config.Windows cfg ≠ [] →
     (∀ w, w ∈ config.Windows cfg → String.leb w "00:00" = true) →
     ∀ when, afterCutoffWindows cfg when = true).
Proof.
  assert (Hoff : ∀ c w, w ∈ config.Windows c → String.leb w "23:59" = false →
                        ∀ when, afterCutoffWindows c when = false).
  { intros c w Hw Hlate when.
    destruct (afterCutoffWindows c when) eqn:Hafter; [| done].
    apply (afterCutoffWindows_latest LoadLocation) in Hafter as [_ Hall].
    rewrite <- Hlate. symmetry.
    eapply gostrings_facts.string_leb_trans; [by apply Hall |].
    apply Format_15_04_range. }
  split_and!.
  - apply Hoff.
  - intros odfi w Hw Hlate ssNow.
    rewrite calculateEffectiveEntryDate_branches. cbv zeta.
    by rewrite (Hoff _ w Hw Hlate).
  - intros Hne Hall when. apply (afterCutoffWindows_latest LoadLocation). split; [done |].
    intros w Hw. eapply gostrings_facts.string_leb_trans; [by apply Hall |].
    apply Format_15_04_range.
Qed.

Lemma Format_15_04_days u k :
  Format_15_04 {| unix := u + k * (24 * Hour); loc := UTC |}
  = Format_15_04 {| unix := u; loc := UTC |}.
Proof.
  unfold Format_15_04, hourOf, minuteOf, wall. cbn [unix loc zoneOffset UTC].
  rewrite !Z.add_0_r. change (24 * Hour) with 86400.
  change Hour with 3600. change Minute with 60.
  replace (u + k * 86400) with (u + (k * 24) * 3600) at 1 by lia.
  replace (u + k * 86400) with (u + (k * 1440) * 60) by lia.
  rewrite !Z.div_add by lia.
  replace (u / 60 + k * 1440) with (u / 60 + (k * 24) * 60) by lia.
  by rewrite !Z_mod_plus_full.
Qed.

(** The days [calculateEffectiveEntryDate] adds to the instant of the
    clock. *)
Lemma calculateEffectiveEntryDate_days cfg ssNow sameDay :
  let after := afterCutoffWindows (config.OCutoffs cfg) (In ssNow UTC) in
  calculateEffectiveEntryDate cfg ssNow sameDay
  = {| unix := unix ssNow
               + (if negb after && sameDay then 0
                  else daysAdvanced
                         ((if after && negb sameDay then 2 else 1)
                          * (7 * S (length holidays)))
                         (if after && negb sameDay then 2 else 1)
                         (unix ssNow / (24 * Hour))) * (24 * Hour);
       loc := UTC |}.
Proof.
  intros after. rewrite calculateEffectiveEntryDate_branches. cbv zeta.
  rewrite when_is_utc. fold after. unfold In.
  destruct after, sameDay; cbn [negb andb];
    rewrite ?(AddBankingDay_utc holidays) by lia; try done.
  by rewrite Z.mul_0_l, Z.add_0_r.
Qed.

(** X19.  The effective entry date is the instant of the clock, shown in
    UTC, moved by a whole number of days: none for a same-day transfer
    before the cutoff, one or more otherwise.  The time of day is never
    touched. *)
Theorem calculateEffectiveEntryDate_whole_days cfg ssNow sameDay :
  loc (calculateEffectiveEntryDate cfg ssNow sameDay) = UTC
  ∧ Format_15_04 (calculateEffectiveEntryDate cfg ssNow sameDay)
    = Format_15_04 (In ssNow UTC)
  ∧ ∃ k, 0 ≤ k
       ∧ unix (calculateEffectiveEntryDate cfg ssNow sameDay)
         = unix ssNow + k * (24 * Hour)
       ∧ (k = 0 ↔ sameDay = true
                  ∧ afterCutoffWindows (config.OCutoffs cfg) (In ssNow UTC) = false).
Proof.
  rewrite calculateEffectiveEntryDate_days. cbv zeta. cbn [loc unix].
  split; [done |]. split; [apply Format_15_04_days |].
  eexists. split; [| split; [reflexivity |]].
  - destruct (negb _ && sameDay); [done |]. apply gotime_facts.daysAdvanced_nonneg.
  - destruct (afterCutoffWindows _ _), sameDay; cbn [negb andb].
    + pose proof (gotime_facts.daysAdvanced_pos holidays (1 * (7 * S (length holidays)))
                    1 (unix ssNow / (24 * Hour))). split; [lia | by intros []].
    + pose proof (gotime_facts.daysAdvanced_pos holidays (2 * (7 * S (length holidays)))
                    2 (unix ssNow / (24 * Hour))). split; [lia | by intros []].
    + done.
    + pose proof (gotime_facts.daysAdvanced_pos holidays (1 * (7 * S (length holidays)))
                    1 (unix ssNow / (24 * Hour))). split; [lia | by intros []].
Qed.

(** X20.  At one instant a same-day transfer is never dated after one
    that is not, and neither is dated before the instant. *)
Theorem calculateEffectiveEntryDate_same_day_first cfg ssNow :
  unix ssNow ≤ unix (calculateEffectiveEntryDate cfg ssNow true)
  ∧ unix (calculateEffectiveEntryDate cfg ssNow true)
    ≤ unix (calculateEffectiveEntryDate cfg ssNow false).
Proof.
  rewrite !calculateEffectiveEntryDate_days. cbv zeta. cbn [unix].
  change (24 * Hour) with 86400.
  destruct (afterCutoffWindows _ _); cbn [negb andb].
  - pose proof (gotime_facts.daysAdvanced_nonneg holidays (1 * (7 * S (length holidays)))
                  1 (unix ssNow / 86400)).
    pose proof (gotime_facts.daysAdvanced_mono holidays
                  (1 * (7 * S (length holidays))) (2 * (7 * S (length holidays)))
                  1 2 (unix ssNow / 86400)).
    lia.
  - pose proof (gotime_facts.daysAdvanced_nonneg holidays (1 * (7 * S (length holidays)))
                  1 (unix ssNow / 86400)).
    lia.
Qed.

(** X21.  Except for a same-day transfer before the cutoff, the effective
    entry date is a banking day: the first after the day of the clock in
    UTC, or the second for a transfer that is not same-day after the
    cutoff.  A same-day transfer before the cutoff is dated on the day of
    the clock whatever day that is: on Saturday 2021-04-24 at 10:00 UTC,
    with the window 14:20, it is dated on that Saturday. *)
Theorem calculateEffectiveEntryDate_banking_day :
  (∀ cfg ssNow sameDay,
     let after := afterCutoffWindows (config.OCutoffs cfg) (In ssNow UTC) in
     let eed := calculateEffectiveEntryDate cfg ssNow sameDay in
     if negb after && sameDay then eed = In ssNow UTC
     else
       moovbase.IsBankingDay holidays eed = true
       ∧ bankingDaysIn (Z.to_nat (dayNumber eed - dayNumber (In ssNow UTC)))
           (dayNumber (In ssNow UTC))
         = if after && negb sameDay then 2%nat else 1%nat)
  ∧ moovbase.IsBankingDay holidays
      (calculateEffectiveEntryDate testODFI (Date 2021 4 24 10 0) true) = false.
Proof.
  split; [| reflexivity].
  intros cfg ssNow sameDay after eed. unfold eed.
  rewrite calculateEffectiveEntryDate_days. cbv zeta.
  fold after. destruct (negb after && sameDay) eqn:Hcase.
  { by rewrite Z.mul_0_l, Z.add_0_r. }
  set (d := if after && negb sameDay then 2%nat else 1%nat).
  rewrite gotime_facts.IsBankingDay_dayNumber.
  unfold dayNumber, wall. cbn [unix loc zoneOffset UTC In]. rewrite !Z.add_0_r.
  change (24 * Hour) with 86400. rewrite Z.div_add by lia.
  set (day := unix ssNow / 86400).
  destruct (daysAdvanced_count (d * (7 * S (length holidays))) d day) as [Hcount Hland].
  { apply bankingDaysIn_fuel. }
  replace (day + _ - day)
    with (moovbase.daysAdvanced holidays (d * (7 * S (length holidays))) d day) by lia.
  split; [apply Hland; unfold d; destruct (after && negb sameDay); lia | exact Hcount].
Qed.
End Cutoffs.

(** ** The fund flow: what [Originate] lets through *)

Section Originate.
Variable holidays : list Z.
Variable LoadLocation : string → Location.
Variable ConstructFile :
  string → achx.Options → client.Transfer → achx.Source → achx.Destination →
  ach.File + string.

Local Abbreviation Originate := (fundflow.Originate holidays LoadLocation ConstructFile).
Local Abbreviation construct := (fundflow.construct holidays LoadLocation ConstructFile).
Local Abbreviation routingOf src := (customers.RoutingNumber (SAccount src)).
Local Abbreviation routingTo dst := (customers.RoutingNumber (DAccount dst)).

(** The three checks [Originate] makes before it reads the transfer. *)
Lemma Originate_checks fp companyID xfer src dst :
  (routingOf src ≠ routingTo dst
   ∧ (routingOf src = config.RoutingNumber (cfg fp)
      ∨ routingTo dst = config.RoutingNumber (cfg fp))
   ∧ (routingTo dst = config.RoutingNumber (cfg fp) →
      gostrings.EqualFold (customers.Status (SCustomer src))
        customers.CUSTOMERSTATUS_VERIFIED = true)
   ∧ Originate fp companyID xfer src dst = construct fp companyID xfer src dst)
  ∨ (∃ msg, ∀ xfer', Originate fp companyID xfer' src dst = Error msg).
Proof.
  destruct (decide (routingOf src = routingTo dst)) as [Heq | Hne].
  { right. eexists. intros xfer'. by apply Originate_same_routing. }
  destruct (decide (routingTo dst = config.RoutingNumber (cfg fp))) as [Hd | Hd].
  - destruct (gostrings.EqualFold (customers.Status (SCustomer src))
                customers.CUSTOMERSTATUS_VERIFIED) eqn:Hst.
    + left. split_and!; [done | by right | done |]. by apply Originate_debit_verified.
    + right. eexists. intros xfer'. by apply Originate_debit_unverified.
  - destruct (decide (routingOf src = config.RoutingNumber (cfg fp))) as [Hs | Hs].
    + left. split_and!; [done | by left | done |]. by apply Originate_credit.
    + right. eexists. intros xfer'. by apply Originate_third_party.
Qed.

(** X22.  Files come out of [Originate] only for a transfer between two
    different routing numbers of which one is the ODFI's, with a source
    customer whose status folds to VERIFIED when the source is debited;
    then there is one file, the one [achx.ConstructFile] built from the
    transfer, its id and the options of the ODFI. *)
Theorem Originate_files fp companyID xfer src dst fs :
  Originate fp companyID xfer src dst = Files fs →
  routingOf src ≠ routingTo dst
  ∧ (routingOf src = config.RoutingNumber (cfg fp)
     ∨ routingTo dst = config.RoutingNumber (cfg fp))
  ∧ (routingTo dst = config.RoutingNumber (cfg fp) →
     gostrings.EqualFold (customers.Status (SCustomer src))
       customers.CUSTOMERSTATUS_VERIFIED = true)
  ∧ ∃ x file,
      xfer = Some x ∧ fs = [file]
      ∧ ConstructFile (client.TransferID x)
          (originateOptions holidays LoadLocation fp companyID x) x
          {| achx.SCustomer := SCustomer src; achx.SAccount := SAccount src;
             achx.SAccountNumber := SAccountNumber src |}
          {| achx.DCustomer := DCustomer dst; achx.DAccount := DAccount dst;
             achx.DAccountNumber := DAccountNumber dst |}
        = inl file.
Proof.
  intros Hfiles.
  destruct (Originate_checks fp companyID xfer src dst)
    as [(Hne & Hodfi & Hst & Heq) | [msg Herr]]; [| by rewrite Herr in Hfiles].
  split_and!; try done.
  rewrite Heq in Hfiles. unfold fundflow.construct in Hfiles.
  destruct xfer as [x |]; [| done].
  destruct (ConstructFile _ _ _ _ _) as [file | err] eqn:Hfile; [| done].
  exists x, file. by injection Hfiles as <-.
Qed.

(** X23.  The transfer is read only after the three checks.  With a nil
    transfer [Originate] panics exactly when the checks let the transfer
    through, never returns files, and returns the error it returns for
    any transfer otherwise; with a transfer it does not panic. *)
Theorem Originate_nil_transfer fp companyID src dst :
  (Originate fp companyID None src dst = Panic
   ↔ routingOf src ≠ routingTo dst
     ∧ (routingOf src = config.RoutingNumber (cfg fp)
        ∨ routingTo dst = config.RoutingNumber (cfg fp))
     ∧ (routingTo dst = config.RoutingNumber (cfg fp) →
        gostrings.EqualFold (customers.Status (SCustomer src))
          customers.CUSTOMERSTATUS_VERIFIED = true))
  ∧ (∀ fs, Originate fp companyID None src dst ≠ Files fs)
  ∧ (∀ msg, Originate fp companyID None src dst = Error msg →
            ∀ xfer, Originate fp companyID xfer src dst = Error msg)
  ∧ (∀ x, Originate fp companyID (Some x) src dst ≠ Panic).
Proof.
  destruct (Originate_checks fp companyID None src dst)
    as [(Hne & Hodfi & Hst & Heq) | [msg Herr]].
  - split_and!.
    + by rewrite Heq.
    + intros fs. by rewrite Heq.
    + intros msg. by rewrite Heq.
    + intros x.
      destruct (Originate_checks fp companyID (Some x) src dst)
        as [(_ & _ & _ & Heqx) | [msg Herr]]; [| by rewrite Herr].
      rewrite Heqx. unfold fundflow.construct. by destruct (ConstructFile _ _ _ _ _).
  - split_and!.
    + rewrite Herr. split; [done |]. intros (Hne & Hodfi & Hst). exfalso.
      destruct (decide (routingTo dst = config.RoutingNumber (cfg fp))) as [Hd | Hd].
      * specialize (Herr None).
        rewrite (Originate_debit_verified holidays LoadLocation ConstructFile)
          in Herr by auto.
        done.
      * destruct Hodfi as [Hs | Hd']; [| done]. specialize (Herr None).
        rewrite (Originate_credit holidays LoadLocation ConstructFile) in Herr by auto.
        done.
    + intros fs. by rewrite Herr.
    + intros msg'. rewrite Herr. intros [= <-]. exact Herr.
    + intros x. by rewrite Herr.
Qed.
End Originate.

Lemma afterCutoffWindows_latest_only_witness :
  afterCutoffWindows
    {| config.Timezone := "UTC"; config.Windows := ["09:00"; "14:20"] |}
    (Date 2021 4 19 10 0)
  = afterCutoffWindows (config.OCutoffs testODFI) (Date 2021 4 19 10 0).
Proof.
  apply (proj2 (afterCutoffWindows_latest_only testLoadLocation
                  (config.OCutoffs testODFI) (Date 2021 4 19 10 0))
           "UTC" "09:00" "14:20")%string.
  - apply list_elem_of_here.
  - reflexivity.
Defined.

Lemma afterCutoffWindows_malformed_window_witness :
  afterCutoffWindows {| config.Timezone := "UTC"; config.Windows := ["9:30"] |}
    (Date 2021 4 19 23 0) = false.
Proof.
  apply (proj1 (afterCutoffWindows_malformed_window [] testLoadLocation
                  {| config.Timezone := "UTC"; config.Windows := ["9:30"] |})
           "9:30"%string).
  - apply list_elem_of_here.
  - reflexivity.
Defined.

Lemma Originate_files_witness :
  customers.RoutingNumber
    (SAccount (mkSource customers.CUSTOMERSTATUS_VERIFIED "123456780" "123456"))
  ≠ customers.RoutingNumber (DAccount (mkDestination "987654320" "654321")).
Proof.
  apply (Originate_files [] testLoadLocation (achx.ConstructFile (λ _, None))
           (testFirstParty "987654320" true) "MOOV" (Some (mkTransfer 25))
           (mkSource customers.CUSTOMERSTATUS_VERIFIED "123456780" "123456")
           (mkDestination "987654320" "654321") _ eq_refl).
Defined.

Lemma Originate_nil_transfer_witness :
  fundflow.Originate [] testLoadLocation (achx.ConstructFile (λ _, None))
    (testFirstParty "987654320" true) "MOOV" None
    (mkSource customers.CUSTOMERSTATUS_VERIFIED "123456780" "123456")
    (mkDestination "987654320" "654321") = Panic.
Proof.
  apply (Originate_nil_transfer [] testLoadLocation (achx.ConstructFile (λ _, None))
           (testFirstParty "987654320" true) "MOOV"
           (mkSource customers.CUSTOMERSTATUS_VERIFIED "123456780" "123456")
           (mkDestination "987654320" "654321")).
  split_and!; [discriminate | by right | reflexivity].
Defined.

End fundflow_more.

(** ** The e-mail about a file: its entry count *)

Module notify_more.

Lemma wrapInt_small z : - 2 ^ 63 ≤ z < 2 ^ 63 → notify.wrapInt z = z.
Proof.
  intros Hz. unfold notify.wrapInt.
  rewrite Z.mod_small; lia.
Qed.

Lemma countEntries_loop (batches : list ach.Batch) total :
  0 ≤ total →
  total + Z.of_nat (length (concat (map ach.Entries batches))) < 2 ^ 63 →
  foldl (λ total b, notify.wrapInt (total + Z.of_nat (length (ach.Entries b))))
        total batches
  = total + Z.of_nat (length (concat (map ach.Entries batches))).
Proof.
  revert total. induction batches as [| b batches IH]; intros total Hpos Hfit.
  - simpl. lia.
  - cbn [foldl map concat] in *. rewrite length_app in Hfit.
    rewrite wrapInt_small by lia. rewrite IH by lia. rewrite length_app. lia.
Qed.

(** X24.  [countEntries] is zero for a nil file and otherwise the number
    of entry details of all the batches together, as long as that number
    fits Go's [int]. *)
Theorem countEntries_total (f : ach.File) :
  Z.of_nat (length (ach.fileEntries f)) < 2 ^ 63 →
  notify.countEntries None = 0
  ∧ notify.countEntries (Some f) = Z.of_nat (length (ach.fileEntries f))
  ∧ (∀ b, b ∈ ach.Batches f →
          Z.of_nat (length (ach.Entries b)) ≤ notify.countEntries (Some f)).
Proof.
  intros Hfit. split; [done |].
  assert (Hcount : notify.countEntries (Some f) = Z.of_nat (length (ach.fileEntries f))).
  { unfold notify.countEntries, ach.fileEntries in *.
    rewrite countEntries_loop; lia. }
  split; [exact Hcount |].
  intros b Hb. rewrite Hcount. unfold ach.fileEntries.
  apply list_elem_of_split in Hb as (l1 & l2 & ->).
  rewrite map_app, concat_app. cbn [map concat]. rewrite !length_app. lia.
Qed.

Lemma countEntries_total_witness :
  notify.countEntries
    (Some {| ach.FileID := "f1";
             ach.Batches :=
               [ {| ach.Entries :=
                      [ {| ach.EDirection := ach.Credit; ach.RDFIIdentification := "12345678";
                           ach.DFIAccountNumber := "654321"; ach.EAmount := 153;
                           ach.TraceNumber := "987654320000001" |};
                        {| ach.EDirection := ach.Debit; ach.RDFIIdentification := "98765432";
                           ach.DFIAccountNumber := "123456"; ach.EAmount := 153;
                           ach.TraceNumber := "987654320000002" |} ] |};
                 {| ach.Entries := [] |} ] |})
  = 2.
Proof.
  apply (countEntries_total
           {| ach.FileID := "f1";
              ach.Batches :=
                [ {| ach.Entries :=
                       [ {| ach.EDirection := ach.Credit; ach.RDFIIdentification := "12345678";
                            ach.DFIAccountNumber := "654321"; ach.EAmount := 153;
                            ach.TraceNumber := "987654320000001" |};
                         {| ach.EDirection := ach.Debit; ach.RDFIIdentification := "98765432";
                            ach.DFIAccountNumber := "123456"; ach.EAmount := 153;
                            ach.TraceNumber := "987654320000002" |} ] |};
                  {| ach.Entries := [] |} ] |}).
  reflexivity.
Defined.

End notify_more.
